(** * HiOSDS input-preparation pipeline: acquisition and layer preparation

    A shallow embedding of [src/download_input_layers.py] and
    [src/prepare_input_layers.py].  The Python code is sequential and
    effectful: it reads and writes the filesystem, talks to HTTP servers,
    sleeps between retries, spawns [gdal_translate] and drives the ArcPy
    engine handed to it as a parameter.  All of this is threaded through an
    explicit [World] by a state-and-exception monad; whatever the program
    cannot control (server replies, engine behaviour, the ZIP decoder, the
    external converter) is an oracle given as a parameter.

    [print] and [log_step] only write to standard output and
    [time.perf_counter] only feeds those messages; they are left out. *)

From Stdlib Require Import ZArith Lia Ascii.
From stdpp Require Import base strings list gmap pretty sorting.

Local Open Scope Z_scope.

(** ** pathlib *)

(** A path is the list of its components, root first.  [Path(s)] and
    [str(p)] convert between the two views of the same value and are the
    identity here; the empty list is the current directory.  Components
    are names: they hold no separator. *)
Abbreviation Path := (list string).
Abbreviation bytes := (list Byte.byte).

Module Pathlib.

(** [p.name]. *)
Definition name (p : Path) : string := default ""%string (last p).

(** [p.parent]. *)
Definition parent (p : Path) : Path := removelast p.

(** [p / child] for a single-component [child]. *)
Definition joinpath (p : Path) (child : string) : Path := p ++ [child].

(** [str(p)], components joined by the separator. *)
Definition render (p : Path) : string := String.concat "/" p.

(** [name.rfind('.')], returned as the text before the last dot and the
    text from that dot on. *)
Fixpoint rsplit_dot (s : string) : option (string * string) :=
  match s with
  | EmptyString => None
  | String c r =>
      match rsplit_dot r with
      | Some (a, b) => Some (String c a, b)
      | None => if Ascii.eqb c "." then Some (EmptyString, s) else None
      end
  end.

(** [PurePath.suffix]: [name[i:]] when [0 < i < len(name) - 1] for
    [i = name.rfind('.')], else the empty string. *)
Definition suffix_of_name (n : string) : string :=
  match rsplit_dot n with
  | Some (a, b) =>
      if negb (String.eqb a "") && (1 <? String.length b)%nat then b
      else ""%string
  | None => ""%string
  end.

(** [name[:-len(old_suffix)]], or the whole name without a suffix. *)
Definition stem_of_name (n : string) : string :=
  match rsplit_dot n with
  | Some (a, b) =>
      if negb (String.eqb a "") && (1 <? String.length b)%nat then a
      else n
  | None => n
  end.

Definition suffix (p : Path) : string := suffix_of_name (name p).
Definition stem (p : Path) : string := stem_of_name (name p).

Definition starts_with_dot (s : string) : bool :=
  match s with
  | String c _ => Ascii.eqb c "."
  | EmptyString => false
  end.

(** [s.endswith(suf)]. *)
Fixpoint ends_with (suf s : string) : bool :=
  String.eqb s suf ||
  match s with
  | String _ r => ends_with suf r
  | EmptyString => false
  end.

(** [fnmatch(name, "*.tif")], case-sensitive. *)
Definition is_tif (n : string) : bool := ends_with ".tif" n.

End Pathlib.

(** ** The filesystem *)

Inductive node :=
| Dir
| File (content : bytes).

Abbreviation FS := (gmap (list string) node).

(** Python exceptions that the two modules raise or let through. *)
Inductive exn :=
| TypeError (msg : string)
| ValueError (msg : string)
| KeyError (key : string)
| FileNotFoundError (msg : string)
| OSError (msg : string)
| RuntimeError (msg : string)
| RecursionError
| RequestException (msg : string)
| HTTPError (msg : string)
| BadZipFile
| CalledProcessError
| ExecuteError (tool : string).

Module Fs.

(** What is at [p]; the current directory always exists. *)
Definition stat (fs : FS) (p : Path) : option node :=
  match p with
  | [] => Some Dir
  | _ => fs !! p
  end.

(** [Path(p).exists()]. *)
Definition path_exists (fs : FS) (p : Path) : bool :=
  match stat fs p with
  | Some _ => true
  | None => false
  end.

Definition is_dir (fs : FS) (p : Path) : bool :=
  match stat fs p with
  | Some Dir => true
  | _ => false
  end.

(** [p.stat().st_size] of an existing entry; a directory counts one
    block of 4096 bytes, as on ext4. *)
Definition st_size (fs : FS) (p : Path) : Z :=
  match stat fs p with
  | Some (File c) => Z.of_nat (length c)
  | Some Dir => 4096
  | None => 0
  end.

(** [Path.mkdir(parents=True, exist_ok=True)]: walks down from the root,
    creating every missing directory; an ancestor (or the path itself)
    that is a regular file makes it raise. *)
Fixpoint mkdir_chain (pre : Path) (rest : list string) (fs : FS) : exn + FS :=
  match rest with
  | [] => inr fs
  | c :: rest' =>
      let q := pre ++ [c] in
      match fs !! q with
      | Some Dir => mkdir_chain q rest' fs
      | Some (File _) => inl (OSError (Pathlib.render q))
      | None => mkdir_chain q rest' (<[q := Dir]> fs)
      end
  end.

Definition mkdir_p (p : Path) (fs : FS) : exn + FS := mkdir_chain [] p fs.

(** The entries directly inside [d] whose name matches [*.tif],
    as [Path(d).glob("*.tif")] yields them (in no particular order). *)
Definition glob_tif (fs : FS) (d : Path) : list Path :=
  if is_dir fs d then
    filter (λ p, Pathlib.parent p = d ∧ p ≠ [] ∧
                 Pathlib.is_tif (Pathlib.name p) = true)
           (map fst (map_to_list fs))
  else [].

End Fs.

(** ** Worlds, events and the effect monad *)

(** Where in the program an HTTP request is issued, and for which
    destination on disk. *)
Inductive req_site :=
| ZipGet (zip_path : Path)
| ListingGet (dest : Path)
| FileGet (dst : Path)
| StreamGet (out_path : Path).

(** One call into the ArcPy engine. *)
Inductive arc_call :=
| SetOverwriteOutput (b : bool)
| Describe (dataset : Path)
| Exists (dataset : Path)
| CreateSQLiteDatabase (out : Path) (spec : string)
| CreateFileGDB (folder : Path) (gdb_name : string)
| Delete (dataset : Path)
| Project (in_dataset out_dataset : Path) (epsg : Z)
| FeatureClassToFeatureClass (in_features out_path : Path) (out_name : string)
| CopyRaster (in_raster out_raster : Path)
| DefineProjection (raster : Path) (epsg : Z)
| ProjectRaster (in_raster out_raster : Path) (epsg : Z) (resampling : string)
| MosaicToNewRaster (input_rasters : list Path) (output_location : Path)
    (raster_name : string) (number_of_bands : Z)
    (pixel_type mosaic_method mosaic_colormap_mode : string).

(** What an outside observer can see, in the order it happens.  Every
    change of the filesystem leaves a snapshot; a request carries the
    filesystem as it was when the request went out. *)
Inductive event :=
| EvFs (snapshot : FS)
| EvRequest (site : req_site) (url : string)
    (headers : list (string * string)) (snapshot : FS)
| EvSleep (seconds : Z)
| EvProc (cmd : list string)
| EvArc (call : arc_call).

Record World := mkWorld { fs : FS; events : list event }.

Inductive outcome (A : Type) :=
| Ok (a : A)
| Raise (e : exn).
Arguments Ok {A} a.
Arguments Raise {A} e.

Definition M (A : Type) : Type := World → outcome A * World.

Definition ret {A} (a : A) : M A := λ w, (Ok a, w).

Definition bind {A B} (c : M A) (k : A → M B) : M B :=
  λ w, match c w with
       | (Ok a, w') => k a w'
       | (Raise e, w') => (Raise e, w')
       end.

#[global] Instance M_ret : MRet M := @ret.
#[global] Instance M_bind : MBind M := λ A B k c, bind c k.

Definition raise {A} (e : exn) : M A := λ w, (Raise e, w).

(** [try: c  except Exception as e: ...]: every exception of the model
    derives from [Exception]; effects of [c] before the raise stay. *)
Definition try {A} (c : M A) : M (exn + A) :=
  λ w, match c w with
       | (Ok a, w') => (Ok (inr a), w')
       | (Raise e, w') => (Ok (inl e), w')
       end.

Definition emit (e : event) : M unit :=
  λ w, (Ok tt, mkWorld (fs w) (events w ++ [e])).

Definition get_fs : M FS := λ w, (Ok (fs w), w).

(** Replace the filesystem and leave a snapshot of the new one. *)
Definition set_fs (f : FS) : M unit :=
  λ w, (Ok tt, mkWorld f (events w ++ [EvFs f])).

Definition lift_fs (r : exn + FS) : M unit :=
  match r with
  | inl e => raise e
  | inr f => set_fs f
  end.

(** [for x in xs: body(x)]. *)
Fixpoint for_each {A} (xs : list A) (body : A → M unit) : M unit :=
  match xs with
  | [] => ret tt
  | x :: xs' => body x ;; for_each xs' body
  end.

Definition path_exists (p : Path) : M bool :=
  f ← get_fs; ret (Fs.path_exists f p).

(** [ensure_dir(p)] / [p.mkdir(parents=True, exist_ok=True)]. *)
Definition ensure_dir (p : Path) : M unit :=
  f ← get_fs; lift_fs (Fs.mkdir_p p f).

(** [p.unlink()]. *)
Definition unlink (p : Path) : M unit :=
  f ← get_fs;
  match Fs.stat f p with
  | Some (File _) => set_fs (delete p f)
  | Some Dir => raise (OSError (Pathlib.render p))
  | None => raise (FileNotFoundError (Pathlib.render p))
  end.

(** [p.write_bytes(data)]: the parent has to be a directory and [p] must
    not be one. *)
Definition write_bytes (p : Path) (data : bytes) : M unit :=
  f ← get_fs;
  if negb (Fs.is_dir f (Pathlib.parent p)) then
    raise (FileNotFoundError (Pathlib.render p))
  else
    match Fs.stat f p with
    | Some Dir => raise (OSError (Pathlib.render p))
    | _ => set_fs (<[p := File data]> f)
    end.

Inductive open_mode := ModeWb | ModeAb.

(** [open(p, "wb")] truncates or creates, [open(p, "ab")] keeps what is
    there or creates. *)
Definition open_write (p : Path) (mode : open_mode) : M unit :=
  f ← get_fs;
  if negb (Fs.is_dir f (Pathlib.parent p)) then
    raise (FileNotFoundError (Pathlib.render p))
  else
    match Fs.stat f p, mode with
    | Some Dir, _ => raise (OSError (Pathlib.render p))
    | Some (File c), ModeAb => ret tt
    | _, _ => set_fs (<[p := File []]> f)
    end.

(** [f.write(chunk)] on a file opened by [open_write]: the bytes go to the
    end of the file. *)
Definition write_chunk (p : Path) (chunk : bytes) : M unit :=
  f ← get_fs;
  match Fs.stat f p with
  | Some (File c) => set_fs (<[p := File (c ++ chunk)]> f)
  | _ => raise (OSError (Pathlib.render p))
  end.

(** [src.replace(dst)]: rename, silently replacing a regular file at
    [dst]. *)
Definition replace (src dst : Path) : M unit :=
  f ← get_fs;
  match Fs.stat f src with
  | None => raise (FileNotFoundError (Pathlib.render src))
  | Some n =>
      match Fs.stat f dst with
      | Some Dir => raise (OSError (Pathlib.render dst))
      | _ =>
          if negb (Fs.is_dir f (Pathlib.parent dst)) then
            raise (FileNotFoundError (Pathlib.render dst))
          else set_fs (<[dst := n]> (delete src f))
      end
  end.

(** [p.with_suffix(s)]. *)
Definition with_suffix (p : Path) (s : string) : M Path :=
  if (negb (String.eqb s "") && negb (Pathlib.starts_with_dot s))
     || String.eqb s "."
  then raise (ValueError ("Invalid suffix " ++ s))
  else if String.eqb (Pathlib.name p) "" then
    raise (ValueError (Pathlib.render p ++ " has an empty name"))
  else
    ret (Pathlib.joinpath (Pathlib.parent p) (Pathlib.stem p ++ s)).

(** ** The outside world of the downloader *)

(** One entry of a GitHub Contents API listing. *)
Record gh_item := mkItem {
  item_type : string;
  item_name : string;
  item_download_url : string;
  item_url : string }.

(** Reply to a plain [requests.get(url)]: the connection fails, or a
    response arrives with its status, its body and, when the body is a
    JSON listing, the decoded entries. *)
Inductive response :=
| ConnectionFailed
| Response (status_ok : bool) (content : bytes) (json : option (list gh_item)).

(** Reply to [requests.get(url, stream=True, ...)]: the connection fails,
    the status is an error, or a body arrives chunk by chunk and either
    ends properly or breaks after the chunks listed. *)
Inductive stream_response :=
| StreamRefused
| StreamStatusError
| StreamBody (chunks : list bytes) (complete : bool).

(** The servers.  A reply may depend on everything that happened so far. *)
Record Net := mkNet {
  http_get : World → string → response;
  http_get_stream : World → string → list (string * string) → stream_response }.

(** The host: [shutil.which], [subprocess.run(cmd, check=True)] (no
    result when the exit status is not zero) and the ZIP decoder (no
    result for a file that is not a ZIP archive; else the member files
    with their paths relative to the extraction folder). *)
Record Host := mkHost {
  which : string → option string;
  run_process : list string → FS → option FS;
  zip_entries : bytes → option (list (Path * bytes)) }.

Definition dquote : string := String (Ascii.ascii_of_nat 34) EmptyString.

Definition sleep (seconds : Z) : M unit := emit (EvSleep seconds).

(** [headers["Range"]] is set. *)
Definition has_range (headers : list (string * string)) : bool :=
  existsb (λ kv, String.eqb (fst kv) "Range") headers.

Section Download.

Variable net : Net.
Variable host : Host.

(** [resp = requests.get(url)]. *)
Definition requests_get (site : req_site) (url : string) : M response :=
  λ w,
    let w' := mkWorld (fs w) (events w ++ [EvRequest site url [] (fs w)]) in
    match http_get net w url with
    | ConnectionFailed => (Raise (RequestException url), w')
    | r => (Ok r, w')
    end.

(** [resp.raise_for_status()]. *)
Definition raise_for_status (r : response) : M unit :=
  match r with
  | Response true _ _ => ret tt
  | _ => raise (HTTPError "status")
  end.

(** [resp.content]. *)
Definition content_of (r : response) : bytes :=
  match r with
  | Response _ c _ => c
  | ConnectionFailed => []
  end.

(** [resp.json()]. *)
Definition json_of (r : response) : M (list gh_item) :=
  match r with
  | Response _ _ (Some items) => ret items
  | _ => raise (ValueError "not JSON")
  end.

(** [zf.extractall(out_folder)]: each member is written below the folder,
    directories created as needed. *)
Definition extract_member (out_folder : Path) (m : Path * bytes) : M unit :=
  let target := out_folder ++ fst m in
  ensure_dir (Pathlib.parent target);;
  write_bytes target (snd m).

Definition extractall (zip_path out_folder : Path) : M unit :=
  f ← get_fs;
  match Fs.stat f zip_path with
  | Some (File c) =>
      match zip_entries host c with
      | Some members => for_each members (extract_member out_folder)
      | None => raise BadZipFile
      end
  | _ => raise (FileNotFoundError (Pathlib.render zip_path))
  end.

Definition download_and_unzip (dataset_id url : string) (raw_dir : Path) : M unit :=
  let out_folder := Pathlib.joinpath raw_dir dataset_id in
  ensure_dir out_folder;;
  let zip_path := Pathlib.joinpath out_folder (dataset_id ++ ".zip") in
  resp ← requests_get (ZipGet zip_path) url;
  raise_for_status resp;;
  write_bytes zip_path (content_of resp);;
  extractall zip_path out_folder;;
  unlink zip_path.

(** [subfolder.mkdir(exist_ok=True)]: the parent has to be there. *)
Definition mkdir_exist_ok (p : Path) : M unit :=
  f ← get_fs;
  match Fs.stat f p with
  | Some Dir => ret tt
  | Some (File _) => raise (OSError (Pathlib.render p))
  | None =>
      if Fs.is_dir f (Pathlib.parent p) then set_fs (<[p := Dir]> f)
      else raise (FileNotFoundError (Pathlib.render p))
  end.

(** The body of the [for item in items] loop of [_download_folder];
    [recurse] is the function itself, one frame deeper. *)
Definition download_item (overwrite : bool) (dest : Path)
    (recurse : string → Path → M unit) (item : gh_item) : M unit :=
  if String.eqb (item_type item) "file" then
    let filename := item_name item in
    let dst := Pathlib.joinpath dest filename in
    ex ← path_exists dst;
    if ex && negb overwrite then ret tt
    else
      r ← requests_get (FileGet dst) (item_download_url item);
      write_bytes dst (content_of r)
  else if String.eqb (item_type item) "dir" then
    let subfolder := Pathlib.joinpath dest (item_name item) in
    mkdir_exist_ok subfolder;;
    recurse (item_url item) subfolder
  else ret tt.

(** [_download_folder(url, dest)].  The recursion follows the remote tree;
    [depth] is the number of frames the interpreter still allows. *)
Fixpoint _download_folder (depth : nat) (overwrite : bool)
    (url : string) (dest : Path) : M unit :=
  match depth with
  | O => raise RecursionError
  | S d =>
      resp ← requests_get (ListingGet dest) url;
      raise_for_status resp;;
      items ← json_of resp;
      for_each items (download_item overwrite dest (_download_folder d overwrite))
  end.

Definition download_github_folder (depth : nat) (dataset_id api_url : string)
    (raw_dir : Path) (overwrite : bool) : M unit :=
  let out_folder := Pathlib.joinpath raw_dir dataset_id in
  ensure_dir out_folder;;
  _download_folder depth overwrite api_url out_folder.

Definition pacioos_build_ncss_url (ncss_base dataset_id : string) : string :=
  ncss_base ++ "/" ++ dataset_id ++ "?var=elev&horizStride=1&accept=netcdf".

(** [requests.get(url, stream=True, timeout=timeout, headers=headers)]
    followed by [r.raise_for_status()]; gives the body to iterate. *)
Definition requests_get_stream (site : req_site) (url : string)
    (headers : list (string * string)) : M (list bytes * bool) :=
  λ w,
    let w' := mkWorld (fs w) (events w ++ [EvRequest site url headers (fs w)]) in
    match http_get_stream net w url headers with
    | StreamRefused => (Raise (RequestException url), w')
    | StreamStatusError => (Raise (HTTPError "status"), w')
    | StreamBody chunks complete => (Ok (chunks, complete), w')
    end.

(** [for chunk in r.iter_content(...): if chunk: f.write(chunk)]. *)
Definition write_body (tmp_path : Path) (body : list bytes * bool) : M unit :=
  for_each (fst body)
    (λ chunk, match chunk with
              | [] => ret tt
              | _ => write_chunk tmp_path chunk
              end);;
  if snd body then ret tt else raise (RequestException "stream broken").

(** The [try] block of one attempt. *)
Definition stream_attempt (url : string) (out_path tmp_path : Path)
    (headers : list (string * string)) (resume_pos : Z) : M unit :=
  body ← requests_get_stream (StreamGet out_path) url headers;
  let mode := if has_range headers && (0 <? resume_pos) then ModeAb else ModeWb in
  open_write tmp_path mode;;
  write_body tmp_path body;;
  replace tmp_path out_path.

(** [for attempt in range(attempt, attempt + remaining)]; the result tells
    whether the function returned from inside the loop. *)
Fixpoint attempts (url : string) (out_path tmp_path : Path)
    (headers : list (string * string)) (resume_pos : Z)
    (remaining : nat) (attempt : Z) : M bool :=
  match remaining with
  | O => ret false
  | S k =>
      r ← try (stream_attempt url out_path tmp_path headers resume_pos);
      match r with
      | inr _ => ret true
      | inl _ =>
          let wait := Z.min 60 (2 ^ attempt) in
          sleep wait;;
          attempts url out_path tmp_path headers resume_pos k (attempt + 1)
      end
  end.

Definition download_streaming (url : string) (out_path : Path)
    (overwrite : bool) (retries : Z) : M unit :=
  ex ← path_exists out_path;
  if ex && negb overwrite then ret tt
  else
    ensure_dir (Pathlib.parent out_path);;
    tmp_path ← with_suffix out_path (Pathlib.suffix out_path ++ ".part");
    tmp_ex ← path_exists tmp_path;
    f ← get_fs;
    let resume_pos := if (tmp_ex : bool) then Fs.st_size f tmp_path else 0 in
    let headers :=
      if (0 <? resume_pos) && negb overwrite
      then [("Range"%string, ("bytes=" ++ pretty resume_pos ++ "-")%string)]
      else [] in
    done ← attempts url out_path tmp_path headers resume_pos (Z.to_nat retries) 1;
    if (done : bool) then ret tt
    else raise (RuntimeError
                  ("Failed after " ++ pretty retries ++ " attempts: "
                   ++ Pathlib.name out_path)%string).

(** [part.unlink()] guarded by [part.exists()]. *)
Definition unlink_if_exists (p : Path) : M unit :=
  ex ← path_exists p;
  if (ex : bool) then unlink p else ret tt.

Definition gdal_command (gdal_translate : string) (nc_path tif_path : Path)
    : list string :=
  [gdal_translate;
   "-of"; "GTiff";
   "-co"; "TILED=YES";
   "-co"; "COMPRESS=DEFLATE";
   "-co"; "PREDICTOR=2";
   "-co"; "BIGTIFF=IF_SAFER";
   "NETCDF:" ++ dquote ++ Pathlib.render nc_path ++ dquote ++ ":elev";
   Pathlib.render tif_path]%string.

(** [subprocess.run(cmd, check=True)]. *)
Definition subprocess_run (cmd : list string) : M unit :=
  emit (EvProc cmd);;
  f ← get_fs;
  match run_process host cmd f with
  | Some f' => set_fs f'
  | None => raise CalledProcessError
  end.

Definition nc_to_geotiff_and_delete (nc_path tif_path : Path)
    (overwrite_tif : bool) : M unit :=
  tif_ex ← path_exists tif_path;
  if tif_ex && negb overwrite_tif then
    unlink_if_exists nc_path;;
    part ← with_suffix nc_path (Pathlib.suffix nc_path ++ ".part");
    unlink_if_exists part
  else
    match which host "gdal_translate" with
    | None | Some EmptyString =>
        raise (RuntimeError "gdal_translate not found on PATH.")
    | Some gdal_translate =>
        nc_ex ← path_exists nc_path;
        if negb nc_ex then
          raise (RuntimeError ("Expected NetCDF does not exist: "
                               ++ Pathlib.render nc_path)%string)
        else
          subprocess_run (gdal_command gdal_translate nc_path tif_path);;
          unlink nc_path
    end.

(** The body of the [for ds in dataset_ids] loop. *)
Definition download_dem (out_dir : Path) (ncss_base : string)
    (overwrite_tif overwrite_nc : bool) (ds : string) : M unit :=
  let url := pacioos_build_ncss_url ncss_base ds in
  let nc_path := Pathlib.joinpath out_dir (ds ++ ".nc") in
  let tif_path := Pathlib.joinpath out_dir (ds ++ ".tif") in
  tif_ex ← path_exists tif_path;
  if tif_ex && negb overwrite_tif then
    part ← with_suffix nc_path (Pathlib.suffix nc_path ++ ".part");
    unlink_if_exists part;;
    unlink_if_exists nc_path
  else
    download_streaming url nc_path overwrite_nc 8;;
    nc_to_geotiff_and_delete nc_path tif_path overwrite_tif.

Definition download_pacioos_dems (raw_dir : Path) (dem_dir ncss_base : string)
    (dataset_ids : list string) (overwrite_tif overwrite_nc : bool) : M unit :=
  let out_dir := Pathlib.joinpath raw_dir dem_dir in
  ensure_dir out_dir;;
  for_each dataset_ids (download_dem out_dir ncss_base overwrite_tif overwrite_nc).

(** [main].  The two catalogs are dictionaries walked in insertion order;
    [depth] bounds the recursion of the folder mirror. *)
Definition main (depth : nat) (raw_dir : Path)
    (zip_sources github_datasets : list (string * string))
    (pacioos_dem_dir pacioos_ncss_base : string)
    (pacioos_dem_dataset_ids : list string)
    (overwrite overwrite_dem_tif overwrite_dem_nc : bool) : M unit :=
  for_each zip_sources
    (λ kv, download_and_unzip (fst kv) (snd kv) raw_dir);;
  for_each github_datasets
    (λ kv, download_github_folder depth (fst kv) (snd kv) raw_dir overwrite);;
  download_pacioos_dems raw_dir pacioos_dem_dir pacioos_ncss_base
    pacioos_dem_dataset_ids overwrite_dem_tif overwrite_dem_nc.

End Download.

(** ** The ArcPy engine *)

(** [arcpy.Describe(ds).spatialReference]: [None], or an object whose
    [factoryCode] may be missing. *)
Inductive spatial_reference :=
| NoSpatialReference
| SpatialRef (factoryCode : option Z).

(** The engine handed to every function as [arcpy].  Its tools act on the
    filesystem and may fail; [Describe] may fail too. *)
Record ArcPy := mkArcPy {
  arc_exists : FS → Path → bool;
  arc_describe : FS → Path → option spatial_reference;
  arc_run : arc_call → FS → option FS }.

(** The name of the tool behind a call, for the error it raises. *)
Definition tool_name (c : arc_call) : string :=
  match c with
  | SetOverwriteOutput _ => "env.overwriteOutput"
  | Describe _ => "Describe"
  | Exists _ => "Exists"
  | CreateSQLiteDatabase _ _ => "CreateSQLiteDatabase"
  | CreateFileGDB _ _ => "CreateFileGDB"
  | Delete _ => "Delete"
  | Project _ _ _ => "Project"
  | FeatureClassToFeatureClass _ _ _ => "FeatureClassToFeatureClass"
  | CopyRaster _ _ => "CopyRaster"
  | DefineProjection _ _ => "DefineProjection"
  | ProjectRaster _ _ _ _ => "ProjectRaster"
  | MosaicToNewRaster _ _ _ _ _ _ _ => "MosaicToNewRaster"
  end.

(** [sorted(...)] on path strings. *)
Definition path_le (a b : Path) : Prop :=
  String.leb (Pathlib.render a) (Pathlib.render b) = true.

#[global] Instance path_le_dec a b : Decision (path_le a b).
Proof. unfold path_le. apply _. Defined.

Definition sorted_paths (ps : list Path) : list Path := merge_sort path_le ps.

Definition RASTER_KEYS : list string := ["dem"; "watertable"; "rainfall"; "slope"].

(** Calling a function that has two required positional parameters with
    one argument: the interpreter raises before the body runs. *)
Definition call_without_second_argument {A B C} (fname param : string)
    (f : A → B → M C) (a : A) : M C :=
  raise (TypeError (fname ++ "() missing 1 required positional argument: "
                    ++ param)%string).

(** [d[k]]. *)
Definition getitem (d : gmap string Path) (k : string) : M Path :=
  match d !! k with
  | Some v => ret v
  | None => raise (KeyError k)
  end.

(** [[x for x in xs if keep(x)]]. *)
Fixpoint filter_m {A} (keep : A → M bool) (xs : list A) : M (list A) :=
  match xs with
  | [] => ret []
  | x :: xs' =>
      b ← keep x;
      rest ← filter_m keep xs';
      ret (if (b : bool) then x :: rest else rest)
  end.

(** ** prepare_input_layers.py *)

Definition raster_subfolder_path (prepared_tif_path : Path) : M Path :=
  let p := prepared_tif_path in
  folder ← with_suffix p "";
  ret (Pathlib.joinpath folder (Pathlib.name p)).

Definition raster_outpath_in_subfolder (prepared_folder : Path)
    (raster_name : string) : M Path :=
  ensure_dir prepared_folder;;
  ret (Pathlib.joinpath prepared_folder (raster_name ++ ".tif")).

Definition prepared_exists (key : string) (path : Path) : M bool :=
  if bool_decide (key ∈ RASTER_KEYS) then
    sub ← raster_subfolder_path path;
    path_exists sub
  else path_exists path.

Definition gpkg_layer_path (gpkg_path : Path) (layer_name : string) : Path :=
  Pathlib.joinpath gpkg_path layer_name.

Section Prepare.

Variable arcpy : ArcPy.

(** [arcpy.env.overwriteOutput = overwrite]. *)
Definition set_overwriteOutput (overwrite : bool) : M unit :=
  emit (EvArc (SetOverwriteOutput overwrite)).

(** [arcpy.Exists(p)]. *)
Definition arcpy_Exists (p : Path) : M bool :=
  emit (EvArc (Exists p));;
  f ← get_fs;
  ret (arc_exists arcpy f p).

(** A geoprocessing tool of [arcpy.management] or [arcpy.conversion]. *)
Definition arcpy_tool (c : arc_call) : M unit :=
  emit (EvArc c);;
  f ← get_fs;
  match arc_run arcpy c f with
  | Some f' => set_fs f'
  | None => raise (ExecuteError (tool_name c))
  end.

Definition epsg_of_dataset (dataset : Path) : M (option Z) :=
  emit (EvArc (Describe dataset));;
  f ← get_fs;
  match arc_describe arcpy f dataset with
  | None => raise (ExecuteError "Describe")
  | Some NoSpatialReference => ret None
  | Some (SpatialRef code) =>
      ret (match code with
           | None | Some 0 => None
           | Some c => Some c
           end)
  end.

Definition ensure_scratch_gdb (temp_dir : Path) (name : string) : M Path :=
  ensure_dir temp_dir;;
  let gdb_path := Pathlib.joinpath temp_dir name in
  ex ← arcpy_Exists gdb_path;
  (if negb ex then arcpy_tool (CreateFileGDB temp_dir name) else ret tt);;
  ret gdb_path.

Definition prep_vector_to_gpkg (src_fc out_gpkg : Path) (out_layer : string)
    (target_epsg : Z) (temp_dir : Path) (overwrite : bool) : M Path :=
  set_overwriteOutput overwrite;;
  ensure_dir (Pathlib.parent out_gpkg);;
  gpkg_ex ← arcpy_Exists out_gpkg;
  (if negb gpkg_ex then arcpy_tool (CreateSQLiteDatabase out_gpkg "GEOPACKAGE")
   else ret tt);;
  src_epsg ← epsg_of_dataset src_fc;
  match src_epsg with
  | None =>
      raise (ValueError ("Vector has no readable CRS: "
                         ++ Pathlib.render src_fc)%string)
  | Some src_epsg =>
      projected_fc ←
        (if negb (src_epsg =? target_epsg) then
           scratch_gdb ← ensure_scratch_gdb temp_dir "scratch_vectors.gdb";
           let tmp_fc :=
             Pathlib.joinpath scratch_gdb
               (out_layer ++ "_tmp_" ++ pretty target_epsg)%string in
           tmp_ex ← (if overwrite then arcpy_Exists tmp_fc else ret false);
           (if overwrite && tmp_ex then arcpy_tool (Delete tmp_fc) else ret tt);;
           arcpy_tool (Project src_fc tmp_fc target_epsg);;
           ret tmp_fc
         else ret src_fc);
      let out_layer_path := gpkg_layer_path out_gpkg out_layer in
      layer_ex ← (if overwrite then arcpy_Exists out_layer_path else ret false);
      (if overwrite && layer_ex then arcpy_tool (Delete out_layer_path)
       else ret tt);;
      arcpy_tool (FeatureClassToFeatureClass projected_fc out_gpkg out_layer);;
      ret out_layer_path
  end.

Definition define_projection_if_missing (raster_path : Path)
    (assumed_epsg : Z) (temp_dir : Path) (overwrite : bool) : M Path :=
  set_overwriteOutput overwrite;;
  ensure_dir temp_dir;;
  epsg ← epsg_of_dataset raster_path;
  match epsg with
  | Some _ => ret raster_path
  | None =>
      let tmp :=
        Pathlib.joinpath temp_dir (Pathlib.stem raster_path ++ "_defined.tif") in
      tmp_ex ← (if overwrite then path_exists tmp else ret false);
      (if overwrite && tmp_ex then unlink tmp else ret tt);;
      arcpy_tool (CopyRaster raster_path tmp);;
      arcpy_tool (DefineProjection tmp assumed_epsg);;
      ret tmp
  end.

(** [prep_raster_to_target].  Line 254 calls
    [raster_outpath_in_subfolder(prepared_tif)], one argument for the two
    parameters [prepared_folder] and [raster_name]. *)
Definition prep_raster_to_target (src_raster prepared_tif : Path)
    (target_epsg : Z) (temp_dir : Path) (resampling : string)
    (assume_src_epsg_if_missing : option Z) (overwrite : bool) : M Path :=
  set_overwriteOutput overwrite;;
  ensure_dir temp_dir;;
  out_raster ←
    call_without_second_argument "raster_outpath_in_subfolder" "raster_name"
      raster_outpath_in_subfolder prepared_tif;
  raster_for_projection ←
    match assume_src_epsg_if_missing with
    | Some assumed =>
        define_projection_if_missing src_raster assumed temp_dir overwrite
    | None => ret src_raster
    end;
  src_epsg ← epsg_of_dataset raster_for_projection;
  match src_epsg with
  | None =>
      raise (ValueError ("Raster has no readable CRS: "
                         ++ Pathlib.render src_raster)%string)
  | Some src_epsg =>
      (if negb (src_epsg =? target_epsg) then
         arcpy_tool (ProjectRaster raster_for_projection out_raster
                       target_epsg resampling)
       else arcpy_tool (CopyRaster raster_for_projection out_raster));;
      ret out_raster
  end.

Definition mosaic_dir_to_raster (raster_dir out_mosaic : Path)
    (overwrite : bool) : M Path :=
  set_overwriteOutput overwrite;;
  f ← get_fs;
  let tif_paths := sorted_paths (Fs.glob_tif f raster_dir) in
  match tif_paths with
  | [] =>
      raise (FileNotFoundError ("No .tif rasters found in: "
                                ++ Pathlib.render raster_dir)%string)
  | _ =>
      let out_folder := Pathlib.parent out_mosaic in
      let out_name := Pathlib.name out_mosaic in
      ensure_dir out_folder;;
      mosaic_ex ← (if overwrite then path_exists out_mosaic else ret false);
      (if overwrite && mosaic_ex then unlink out_mosaic else ret tt);;
      arcpy_tool (MosaicToNewRaster tif_paths out_folder out_name 1
                    "32_BIT_FLOAT" "FIRST" "FIRST");;
      ret out_mosaic
  end.

(** The DEM block: directory, mosaic, EPSG:4326 if missing, project. *)
Definition prepare_dem (source_inputs prepared_outputs : gmap string Path)
    (tempspace : Path) (target_epsg : Z) (overwrite : bool) : M unit :=
  dem ← getitem prepared_outputs "dem";
  done ← prepared_exists "dem" dem;
  if (done : bool) then ret tt
  else
    getitem source_inputs "dem_dir";;
    dem_dir ← getitem source_inputs "dem_dir";
    dem_mosaic ← mosaic_dir_to_raster dem_dir
                   (Pathlib.joinpath tempspace "dem_mosaic_tmp.tif") overwrite;
    prepared_tif ← getitem prepared_outputs "dem";
    prep_raster_to_target dem_mosaic prepared_tif target_epsg tempspace
      "BILINEAR" (Some 4326) overwrite;;
    ret tt.

(** The water-table block: directory, mosaic, project. *)
Definition prepare_watertable (source_inputs prepared_outputs : gmap string Path)
    (tempspace : Path) (target_epsg : Z) (overwrite : bool) : M unit :=
  wt ← getitem prepared_outputs "watertable";
  done ← prepared_exists "watertable" wt;
  if (done : bool) then ret tt
  else
    getitem source_inputs "watertable_dir";;
    wt_dir ← getitem source_inputs "watertable_dir";
    wt_mosaic ← mosaic_dir_to_raster wt_dir
                  (Pathlib.joinpath tempspace "watertable_mosaic_tmp.tif")
                  overwrite;
    prepared_tif ← getitem prepared_outputs "watertable";
    prep_raster_to_target wt_mosaic prepared_tif target_epsg tempspace
      "NEAREST" None overwrite;;
    ret tt.

(** The slope block: directory, mosaic, EPSG:4326 if missing, project. *)
Definition prepare_slope (source_inputs prepared_outputs : gmap string Path)
    (tempspace : Path) (target_epsg : Z) (overwrite : bool) : M unit :=
  slope ← getitem prepared_outputs "slope";
  done ← prepared_exists "slope" slope;
  if (done : bool) then ret tt
  else
    getitem source_inputs "slope_dir";;
    slope_dir ← getitem source_inputs "slope_dir";
    slope_mosaic ← mosaic_dir_to_raster slope_dir
                     (Pathlib.joinpath tempspace "slope_mosaic_tmp.tif")
                     overwrite;
    prepared_tif ← getitem prepared_outputs "slope";
    prep_raster_to_target slope_mosaic prepared_tif target_epsg tempspace
      "BILINEAR" (Some 4326) overwrite;;
    ret tt.

(** The rainfall block: one raster, project. *)
Definition prepare_rainfall (source_inputs prepared_outputs : gmap string Path)
    (tempspace : Path) (target_epsg : Z) (overwrite : bool) : M unit :=
  rain ← getitem prepared_outputs "rainfall";
  done ← prepared_exists "rainfall" rain;
  if (done : bool) then ret tt
  else
    src ← getitem source_inputs "rainfall";
    prepared_tif ← getitem prepared_outputs "rainfall";
    prep_raster_to_target src prepared_tif target_epsg tempspace
      "BILINEAR" None overwrite;;
    ret tt.

Definition vector_jobs : list (string * string) :=
  [("parcels", "parcels");
   ("cesspools", "cesspools");
   ("coastline", "coastline");
   ("sma", "sma");
   ("streams", "streams");
   ("wells_dom", "wells_dom");
   ("wells_mun", "wells_mun");
   ("buildings_fps", "buildings_fps");
   ("soils", "soils");
   ("flood_zones", "flood_zones")]%string.

(** The body of the [for key, layer_name in vector_jobs] loop. *)
Definition prepare_vector (source_inputs prepared_outputs : gmap string Path)
    (tempspace : Path) (target_epsg : Z) (overwrite : bool)
    (job : string * string) : M unit :=
  let key := fst job in
  let layer_name := snd job in
  out_gpkg ← getitem prepared_outputs key;
  done ← path_exists out_gpkg;
  if (done : bool) then ret tt
  else
    src_fc ← getitem source_inputs key;
    prep_vector_to_gpkg src_fc out_gpkg layer_name target_epsg tempspace
      overwrite;;
    ret tt.

Definition prepare_source_inputs (source_inputs prepared_outputs : gmap string Path)
    (tempspace : Path) (target_epsg : Z) (overwrite : bool)
    : M (gmap string Path) :=
  ensure_dir tempspace;;
  missing_items ←
    filter_m (λ kp, done ← prepared_exists (fst kp) (snd kp); ret (negb done))
             (map_to_list prepared_outputs);
  match missing_items with
  | [] => ret prepared_outputs
  | _ =>
      prepare_dem source_inputs prepared_outputs tempspace target_epsg overwrite;;
      prepare_watertable source_inputs prepared_outputs tempspace target_epsg
        overwrite;;
      prepare_slope source_inputs prepared_outputs tempspace target_epsg
        overwrite;;
      prepare_rainfall source_inputs prepared_outputs tempspace target_epsg
        overwrite;;
      for_each vector_jobs
        (prepare_vector source_inputs prepared_outputs tempspace target_epsg
           overwrite);;
      ret prepared_outputs
  end.

End Prepare.

(** ** Vocabulary for the statements *)

(** The engine calls among some events, in order. *)
Definition arc_calls (evs : list event) : list arc_call :=
  omap (λ e, match e with EvArc c => Some c | _ => None end) evs.

(** The filesystem an event shows, if it shows one. *)
Definition snapshot_of (e : event) : option FS :=
  match e with
  | EvFs s | EvRequest _ _ _ s => Some s
  | _ => None
  end.

Definition snapshots (evs : list event) : list FS := omap snapshot_of evs.

(** An event that shows a filesystem shows [v] at [p]. *)
Definition untouched (p : Path) (v : option node) (e : event) : Prop :=
  ∀ s, snapshot_of e = Some s → s !! p = v.


(** What a retrying fetch does over time: requests and waits. *)
Inductive mark :=
| Attempted (url : string)
| Waited (seconds : Z).

Definition mark_of (e : event) : option mark :=
  match e with
  | EvRequest _ url _ _ => Some (Attempted url)
  | EvSleep s => Some (Waited s)
  | _ => None
  end.

Definition timeline (evs : list event) : list mark := omap mark_of evs.

Definition is_attempt (m : mark) : bool :=
  match m with
  | Attempted _ => true
  | Waited _ => false
  end.

(** How many requests went out. *)
Definition attempts_made (evs : list event) : nat :=
  length (filter (λ m, is_attempt m = true) (timeline evs)).

(** A streamed transfer that does not deliver the whole body. *)
Definition stream_fails (r : stream_response) : Prop :=
  match r with
  | StreamBody _ true => False
  | _ => True
  end.

(** For each streamed request: the headers it carried and the size of the
    sidecar [tmp_path] when it went out. *)
Definition stream_requests (tmp_path : Path) (evs : list event)
    : list (list (string * string) * Z) :=
  omap (λ e, match e with
             | EvRequest (StreamGet _) _ h s => Some (h, Fs.st_size s tmp_path)
             | _ => None
             end) evs.

(** A fetch of an artifact goes out only while its destination is not on
    disk. *)
Definition fetches_missing (e : event) : Prop :=
  match e with
  | EvRequest (ZipGet p) _ _ s
  | EvRequest (FileGet p) _ _ s
  | EvRequest (StreamGet p) _ _ s => Fs.path_exists s p = false
  | _ => True
  end.

(** The same, leaving ZIP sources aside. *)
Definition fetches_missing_unless_zip (e : event) : Prop :=
  match e with
  | EvRequest (ZipGet _) _ _ _ => True
  | _ => fetches_missing e
  end.


(** The events of a run from [w] that ended in [w']. *)
Definition since (w w' : World) : list event :=
  drop (length (events w)) (events w').

(** The last filesystem shown by the events is the current one. *)
Definition synced (w : World) : Prop :=
  last (snapshots (events w)) = Some (fs w).

(** What a streamed download of [out_path] may let an observer see before
    it renames: requests for [out_path], waits and filesystems that all
    show [v] at [out_path]. *)
Definition stream_event (out_path : Path) (v : option node) (e : event) : Prop :=
  untouched out_path v e ∧
  match e with
  | EvRequest site _ _ _ => site = StreamGet out_path
  | EvArc _ | EvProc _ => False
  | _ => True
  end.

(** The sidecar of a streamed download: [out_path] with [.part] added. *)
Definition sidecar_of (out_path : Path) : Path :=
  Pathlib.joinpath (Pathlib.parent out_path) (Pathlib.name out_path ++ ".part").

(** The bytes of the regular file at [p]; nothing when there is none. *)
Definition file_content (f : FS) (p : Path) : bytes :=
  match f !! p with
  | Some (File c) => c
  | _ => []
  end.

(** What the retry loop of [download_streaming] does when no attempt
    succeeds: attempt [k], then a wait of [min(60, 2^k)] seconds. *)
Definition failed_attempts (url : string) (first count : Z) : list mark :=
  flat_map (λ k, [Attempted url; Waited (Z.min 60 (2 ^ k))]) (seqZ first count).

(** A change of the filesystem and nothing else. *)
Definition is_fs_event (e : event) : Prop :=
  match e with
  | EvFs _ => True
  | _ => False
  end.

(** While a streamed download of [out_path] is under way, [out_path]
    shows [v] and the observer has seen the current filesystem. *)
Definition stream_inv (out_path : Path) (v : option node) (w : World) : Prop :=
  fs w !! out_path = v ∧ synced w.

(** The same once the sidecar [tmp_path] is open: it is a regular file. *)
Definition sidecar_inv (out_path tmp_path : Path) (v : option node)
    (w : World) : Prop :=
  stream_inv out_path v w ∧ ∃ c, fs w !! tmp_path = Some (File c).

(** No condition on the world, none on the events. *)
Definition any_world : World → Prop := λ _, True.
Definition any_event : event → Prop := λ _, True.

(** Running [c] from a world that satisfies [I] adds only events that
    satisfy [P] and ends in a world that satisfies [I]. *)
Definition keeps_at {A : Type} (I : World → Prop) (P : event → Prop)
    (c : M A) (w : World) : Prop :=
  I w →
  ∃ evs, events (c w).2 = events w ++ evs ∧ Forall P evs ∧ I (c w).2.

Definition keeps {A : Type} (I : World → Prop) (P : event → Prop)
    (c : M A) : Prop :=
  ∀ w, keeps_at I P c w.

(** An engine call that copies from [src] rather than reprojecting:
    no [Project], no [ProjectRaster], and features are taken from [src]. *)
Definition copies_from (src : Path) (c : arc_call) : Prop :=
  match c with
  | Project _ _ _ | ProjectRaster _ _ _ _ => False
  | FeatureClassToFeatureClass in_features _ _ => in_features = src
  | _ => True
  end.

(** The same on events; what is no engine call passes. *)
Definition event_copies_from (src : Path) (e : event) : Prop :=
  match e with
  | EvArc c => copies_from src c
  | _ => True
  end.

(** [d] holds no entry whose name matches [*.tif]. *)
Definition no_tif_in (f : FS) (d : Path) : Prop :=
  ∀ n : string, Pathlib.is_tif n = true → f !! Pathlib.joinpath d n = None.

(** ** Concrete worlds, servers and engines for the examples *)

Definition empty_world : World := mkWorld ∅ [].

(** A server that refuses every connection. *)
Definition net_down : Net :=
  mkNet (λ _ _, ConnectionFailed) (λ _ _ _, StreamRefused).

Definition ascii_bytes (s : string) : bytes := String.list_byte_of_string s.

(** A server whose first streamed transfer breaks after the five bytes
    [hello] and whose later transfers deliver [hello world] in full,
    whatever the request headers say. *)
Definition net_breaks_once : Net :=
  mkNet (λ _ _, ConnectionFailed)
    (λ w _ _, match attempts_made (events w) with
              | O => StreamBody [ascii_bytes "hello"] false
              | S _ => StreamBody [ascii_bytes "hello"; ascii_bytes " world"] true
              end).

(** A server for the resource [abcdefgh] that honours [Range: bytes=3-];
    its first transfer breaks after two bytes. *)
Definition net_ranged : Net :=
  mkNet (λ _ _, ConnectionFailed)
    (λ w _ h,
       let body := if has_range h then ascii_bytes "defgh"
                   else ascii_bytes "abcdefgh" in
       match attempts_made (events w) with
       | O => StreamBody [take 2 body] false
       | S _ => StreamBody [body] true
       end).

(** A sidecar left by an earlier run: the first three bytes. *)
Definition world_with_sidecar : World :=
  mkWorld {[ ["a.nc.part"%string] := File (ascii_bytes "abc") ]} [].

(** A small acquisition catalog: one ZIP source, one mirrored folder with
    one file, one DEM. *)
Definition net_catalog : Net :=
  mkNet
    (λ _ url,
       if String.eqb url "https://files.test/coastline.shp.zip" then
         Response true (ascii_bytes "PK") None
       else if String.eqb url "https://api.test/contents/Slope_WGS" then
         Response true []
           (Some [mkItem "file" "maui_slope.tif"
                    "https://raw.test/maui_slope.tif"
                    "https://api.test/contents/Slope_WGS/maui_slope.tif"])
       else Response true (ascii_bytes "II*") None)
    (λ _ _ _, StreamBody [ascii_bytes "CDF"] true).

(** A host with [gdal_translate], which writes the GeoTIFF of the one
    DEM; every ZIP archive holds the one member [coastline.shp]. *)
Definition host_gdal : Host :=
  mkHost
    (λ _, Some "/usr/bin/gdal_translate"%string)
    (λ _ f, Some (<[ ["raw"; "dem_hi_pacioos"; "usgs_dem_10m_oahu.tif"]%string
                     := File (ascii_bytes "II*") ]> f))
    (λ _, Some [(["coastline.shp"%string], ascii_bytes "shp")]).


(** An engine for which a dataset exists when its path does, every
    dataset carries EPSG:4326, and every tool succeeds, leaving its output
    on disk. *)
Definition arcpy_fake : ArcPy :=
  mkArcPy
    (λ f p, Fs.path_exists f p)
    (λ _ _, Some (SpatialRef (Some 4326)))
    (λ c f,
       Some match c with
            | CreateSQLiteDatabase out _ => <[out := File []]> f
            | CreateFileGDB folder gdb => <[Pathlib.joinpath folder gdb := Dir]> f
            | Delete p => delete p f
            | Project _ out _ => <[out := File []]> f
            | FeatureClassToFeatureClass _ out layer =>
                <[Pathlib.joinpath out layer := File []]> f
            | CopyRaster _ out => <[out := File []]> f
            | ProjectRaster _ out _ _ => <[out := File []]> f
            | MosaicToNewRaster _ loc n _ _ _ _ =>
                <[Pathlib.joinpath loc n := File []]> f
            | _ => f
            end).

Definition source_catalog : gmap string Path :=
  list_to_map
    [("dem_dir", ["raw"; "dem_hi_pacioos"]);
     ("watertable_dir", ["raw"; "watertable_hi_hcpt"]);
     ("slope_dir", ["raw"; "slope_hi_hcpt"]);
     ("rainfall", ["raw"; "annual_rainfall_hi_hcpt"; "rain.tif"]);
     ("parcels", ["raw"; "parcels"; "parcels.shp"]);
     ("cesspools", ["raw"; "cesspools"; "cesspools.shp"]);
     ("coastline", ["raw"; "coastline_hi_op"; "coastline.shp"]);
     ("sma", ["raw"; "sma_hi_op"; "sma.shp"]);
     ("streams", ["raw"; "streams_hi_hcpt"; "streams.shp"]);
     ("wells_dom", ["raw"; "wells_hi_hcpt"; "wells_dom.shp"]);
     ("wells_mun", ["raw"; "wells_hi_hcpt"; "wells_mun.shp"]);
     ("buildings_fps", ["raw"; "buildings"; "buildings.shp"]);
     ("soils", ["raw"; "soils"; "soils.shp"]);
     ("flood_zones", ["raw"; "flood"; "flood.shp"])]%string.

(** The prepared catalog of the specification: four rasters, and ten
    vector layers in one shared GeoPackage. *)
Definition prepared_catalog : gmap string Path :=
  list_to_map
    [("dem", ["prepared"; "dem_32604.tif"]);
     ("watertable", ["prepared"; "watertable_32604.tif"]);
     ("slope", ["prepared"; "slope_32604.tif"]);
     ("rainfall", ["prepared"; "rainfall_32604.tif"]);
     ("parcels", ["prepared"; "vectors.gpkg"]);
     ("cesspools", ["prepared"; "vectors.gpkg"]);
     ("coastline", ["prepared"; "vectors.gpkg"]);
     ("sma", ["prepared"; "vectors.gpkg"]);
     ("streams", ["prepared"; "vectors.gpkg"]);
     ("wells_dom", ["prepared"; "vectors.gpkg"]);
     ("wells_mun", ["prepared"; "vectors.gpkg"]);
     ("buildings_fps", ["prepared"; "vectors.gpkg"]);
     ("soils", ["prepared"; "vectors.gpkg"]);
     ("flood_zones", ["prepared"; "vectors.gpkg"])]%string.

(** The four prepared rasters are on disk, in their subfolders; no vector
    has been prepared. *)
Definition world_rasters_ready : World :=
  mkWorld
    (list_to_map
       [(["prepared"], Dir);
        (["prepared"; "dem_32604"], Dir);
        (["prepared"; "dem_32604"; "dem_32604.tif"], File []);
        (["prepared"; "watertable_32604"], Dir);
        (["prepared"; "watertable_32604"; "watertable_32604.tif"], File []);
        (["prepared"; "slope_32604"], Dir);
        (["prepared"; "slope_32604"; "slope_32604.tif"], File []);
        (["prepared"; "rainfall_32604"], Dir);
        (["prepared"; "rainfall_32604"; "rainfall_32604.tif"], File [])]%string)
    [].

(** A raw folder that holds a text file and no raster, next to a mosaic
    left by an earlier run. *)
Definition world_no_tiles : World :=
  mkWorld
    (list_to_map
       [(["raw"], Dir);
        (["raw"; "dem_hi_pacioos"], Dir);
        (["raw"; "dem_hi_pacioos"; "README.txt"], File (ascii_bytes "none"));
        (["tmp"], Dir);
        (["tmp"; "dem_mosaic_tmp.tif"], File (ascii_bytes "old"))]%string)
    [].

(** ** Further vocabulary and examples *)

(** A reply that [raise_for_status] lets through. *)
Definition reply_ok (r : response) : bool :=
  match r with
  | Response true _ _ => true
  | _ => false
  end.

(** A host without [gdal_translate], on which no process succeeds and
    whose ZIP decoder rejects every file. *)
Definition host_bare : Host :=
  mkHost (λ _, None) (λ _ _, None) (λ _, None).

(** A server that answers every plain request with status 200 and the
    two bytes [PK], and every streamed one with the body [CDF]. *)
Definition net_static : Net :=
  mkNet (λ _ _, Response true (ascii_bytes "PK") None)
        (λ _ _ _, StreamBody [ascii_bytes "C"; []; ascii_bytes "DF"] true).

(** A server that answers every plain request with status 404 and an
    error page. *)
Definition net_not_found : Net :=
  mkNet (λ _ _, Response false (ascii_bytes "404: Not Found") None)
        (λ _ _ _, StreamStatusError).

(** The folder of the coastline archive, just made in an empty tree. *)
Definition fs_coastline_folder : FS :=
  <[ ["raw"; "coastline_hi_op"]%string := Dir ]> (<[ ["raw"%string] := Dir ]> ∅).

(** The folder [raw] and nothing in it. *)
Definition world_raw : World := mkWorld {[ ["raw"%string] := Dir ]} [].

(** A file entry of a folder listing. *)
Definition item_slope : gh_item :=
  mkItem "file" "maui_slope.tif" "https://raw.test/maui_slope.tif"
    "https://api.test/contents/Slope_WGS/maui_slope.tif".

(** A GeoTIFF next to the NetCDF it was made from and the sidecar of an
    earlier download. *)
Definition world_dem_leftovers : World :=
  mkWorld
    (list_to_map
       [(["raw"], Dir);
        (["raw"; "oahu.tif"], File (ascii_bytes "II*"));
        (["raw"; "oahu.nc"], File (ascii_bytes "CDF"));
        (["raw"; "oahu.nc.part"], File (ascii_bytes "CD"))]%string)
    [].

(** A NetCDF waiting to be converted. *)
Definition world_dem_downloaded : World :=
  mkWorld
    (list_to_map
       [(["raw"], Dir);
        (["raw"; "oahu.nc"], File (ascii_bytes "CDF"))]%string)
    [].

(** A host with [gdal_translate], which writes the GeoTIFF of Oahu. *)
Definition host_converts : Host :=
  mkHost
    (λ _, Some "/usr/bin/gdal_translate"%string)
    (λ cmd f, Some (<[ ["raw"; "oahu.tif"]%string := File (ascii_bytes "II*") ]> f))
    (λ _, None).

(** The headers of a request that resumes after the bytes [kept]. *)
Definition range_from (kept : bytes) : list (string * string) :=
  match kept with
  | [] => []
  | _ => [("Range", "bytes=" ++ pretty (Z.of_nat (length kept)) ++ "-")]%string
  end.

(** A server whose streamed replies carry the whole resource [abcdefgh],
    or what follows the first three bytes when a range is asked for. *)
Definition net_resumes : Net :=
  mkNet (λ _ _, ConnectionFailed)
    (λ _ _ h, if has_range h then StreamBody [ascii_bytes "de"; ascii_bytes "fgh"] true
              else StreamBody [ascii_bytes "abcd"; []; ascii_bytes "efgh"] true).

(** Running [c] leaves what is at [q] as it was, whatever the outcome. *)
Definition preserves {A : Type} (q : Path) (c : M A) : Prop :=
  ∀ w, fs (c w).2 !! q = fs w !! q.

(** A description from which [epsg_of_dataset] reads no EPSG code. *)
Definition no_epsg (d : option spatial_reference) : Prop :=
  match d with
  | Some NoSpatialReference | Some (SpatialRef None)
  | Some (SpatialRef (Some 0)) => True
  | _ => False
  end.

(** An engine call that fits a reprojection of [src] through the scratch
    feature class [tmp]: a [Project] goes from [src] to [tmp] in the
    target CRS, and features are exported from [tmp]. *)
Definition reprojects_via (src tmp : Path) (target : Z) (c : arc_call) : Prop :=
  match c with
  | Project i o e => i = src ∧ o = tmp ∧ e = target
  | FeatureClassToFeatureClass i _ _ => i = tmp
  | ProjectRaster _ _ _ _ | CopyRaster _ _ => False
  | _ => True
  end.

Definition event_reprojects_via (src tmp : Path) (target : Z) (e : event) : Prop :=
  match e with
  | EvArc c => reprojects_via src tmp target c
  | _ => True
  end.

(** An engine without a coordinate system for anything, whose tools
    succeed. *)
Definition arcpy_no_crs : ArcPy :=
  mkArcPy
    (λ f p, Fs.path_exists f p)
    (λ _ _, Some NoSpatialReference)
    (λ c f, Some match c with
                 | CreateSQLiteDatabase out _ => <[out := File []]> f
                 | _ => f
                 end).

(** The scratch feature class [prep_vector_to_gpkg] projects into:
    [<temp_dir>/scratch_vectors.gdb/<out_layer>_tmp_<target_epsg>]. *)
Definition vector_tmp_fc (temp_dir : Path) (out_layer : string)
    (target_epsg : Z) : Path :=
  Pathlib.joinpath (Pathlib.joinpath temp_dir "scratch_vectors.gdb")
    (out_layer ++ "_tmp_" ++ pretty target_epsg)%string.

(** Two DEM tiles and a text file in [raw/dem]. *)
Definition world_dem_tiles : World :=
  mkWorld
    (list_to_map
       [(["raw"], Dir);
        (["raw"; "dem"], Dir);
        (["raw"; "dem"; "oahu.tif"], File (ascii_bytes "II*"));
        (["raw"; "dem"; "maui.tif"], File (ascii_bytes "II*"));
        (["raw"; "dem"; "readme.txt"], File (ascii_bytes "DEM"))]%string)
    [].

(** The only call of [MosaicToNewRaster] that [mosaic_dir_to_raster] can
    make when it starts from the filesystem [f]. *)
Definition event_mosaics (raster_dir out_mosaic : Path) (f : FS)
    (e : event) : Prop :=
  match e with
  | EvArc (MosaicToNewRaster tifs loc name bands pixel method colormap) =>
      tifs = sorted_paths (Fs.glob_tif f raster_dir) ∧ tifs ≠ [] ∧
      loc = Pathlib.parent out_mosaic ∧ name = Pathlib.name out_mosaic ∧
      bands = 1 ∧ pixel = "32_BIT_FLOAT"%string ∧
      method = "FIRST"%string ∧ colormap = "FIRST"%string
  | _ => True
  end.

(** The engine tools that write the raster of a prepared layer, and the
    one that assembles a mosaic. *)
Definition writes_prepared_raster (c : arc_call) : bool :=
  match c with
  | CopyRaster _ _ | ProjectRaster _ _ _ _ | DefineProjection _ _ => true
  | _ => false
  end.

Definition is_raster_tool (c : arc_call) : bool :=
  match c with
  | MosaicToNewRaster _ _ _ _ _ _ _ => true
  | _ => writes_prepared_raster c
  end.

Definition event_avoids (tools : arc_call → bool) (e : event) : Prop :=
  match e with
  | EvArc c => tools c = false
  | _ => True
  end.

(** * Proofs *)

(** ** Running the monad *)

Lemma bind_run {A B} (c : M A) (k : A → M B) (w : World) :
  (c ≫= k) w = match c w with
               | (Ok a, w') => k a w'
               | (Raise e, w') => (Raise e, w')
               end.
Proof. reflexivity. Qed.

Lemma bind_ok {A B : Type} (c : M A) (k : A → M B) (w w' : World) (b : B) :
  (c ≫= k) w = (Ok b, w') →
  ∃ a w1, c w = (Ok a, w1) ∧ k a w1 = (Ok b, w').
Proof.
  rewrite bind_run. destruct (c w) as [[a|e] w1]; [eauto | done].
Qed.

Lemma since_app (w w' : World) (evs : list event) :
  events w' = events w ++ evs → since w w' = evs.
Proof. intros H. unfold since. rewrite H. by rewrite drop_app_length. Qed.

Section Keeps.

Context {A B : Type} (I : World → Prop) (P : event → Prop).

Lemma keeps_at_ret (a : A) (w : World) : keeps_at I P (ret a) w.
Proof. intros HI. exists []. by rewrite app_nil_r. Qed.

Lemma keeps_at_raise (e : exn) (w : World) : keeps_at I P (raise (A := A) e) w.
Proof. intros HI. exists []. by rewrite app_nil_r. Qed.

Lemma keeps_at_bind (c : M A) (k : A → M B) (w : World) :
  keeps_at I P c w →
  (∀ a w', c w = (Ok a, w') → keeps_at I P (k a) w') →
  keeps_at I P (c ≫= k) w.
Proof.
  intros Hc Hk HI. rewrite bind_run.
  destruct (Hc HI) as (evs & Hev & HP & HI').
  destruct (c w) as [[a|e] w'] eqn:Hcw; simpl in *.
  - destruct (Hk a w' eq_refl HI') as (evs' & Hev' & HP' & HI'').
    exists (evs ++ evs'). rewrite Hev', Hev, app_assoc.
    split_and!; [done | by apply Forall_app | done].
  - by exists evs.
Qed.

Lemma keeps_at_try (c : M A) (w : World) :
  keeps_at I P c w → keeps_at I P (try c) w.
Proof.
  intros Hc HI. destruct (Hc HI) as (evs & Hev & HP & HI').
  exists evs. unfold try. by destruct (c w) as [[a|e] w'].
Qed.

End Keeps.

Lemma keeps_at_emit (I : World → Prop) (P : event → Prop) (e : event) (w : World) :
  P e → I (mkWorld (fs w) (events w ++ [e])) → keeps_at I P (emit e) w.
Proof. intros HP HI' HI. exists [e]. simpl. by repeat constructor. Qed.

Lemma keeps_at_set_fs (I : World → Prop) (P : event → Prop) (f : FS) (w : World) :
  P (EvFs f) → I (mkWorld f (events w ++ [EvFs f])) → keeps_at I P (set_fs f) w.
Proof. intros HP HI' HI. exists [EvFs f]. simpl. by repeat constructor. Qed.

Lemma keeps_at_get_fs {B : Type} (I : World → Prop) (P : event → Prop)
    (k : FS → M B) (w : World) :
  keeps_at I P (k (fs w)) w → keeps_at I P (get_fs ≫= k) w.
Proof. intros Hk. unfold keeps_at. rewrite bind_run. exact Hk. Qed.

Lemma keeps_at_for_each {A : Type} (I : World → Prop) (P : event → Prop)
    (xs : list A) (body : A → M unit) :
  (∀ x w, x ∈ xs → keeps_at I P (body x) w) →
  ∀ w, keeps_at I P (for_each xs body) w.
Proof.
  induction xs as [|x xs IH]; intros Hb w; simpl.
  - apply keeps_at_ret.
  - apply keeps_at_bind.
    + apply Hb. by left.
    + intros _ w' _. apply IH. intros y w'' Hy. apply Hb. by right.
Qed.

Lemma keeps_at_weaken {A : Type} (I : World → Prop) (P Q : event → Prop)
    (c : M A) (w : World) :
  (∀ e, P e → Q e) → keeps_at I P c w → keeps_at I Q c w.
Proof.
  intros HPQ Hc HI. destruct (Hc HI) as (evs & Hev & HP & HI').
  exists evs. split_and!; [done | | done].
  eapply Forall_impl; eauto.
Qed.

(** ** Paths *)

Lemma str_app_cons (c : ascii) (a b : string) :
  (String c a ++ b)%string = String c (a ++ b).
Proof. reflexivity. Qed.

Lemma str_length_app (a b : string) :
  String.length (a ++ b) = (String.length a + String.length b)%nat.
Proof.
  induction a as [|c a IH]; [done|].
  rewrite str_app_cons. simpl. by rewrite IH.
Qed.

Lemma str_app_nil_r (a : string) : (a ++ "")%string = a.
Proof. induction a as [|c a IH]; [done | by rewrite str_app_cons, IH]. Qed.

Lemma str_app_assoc (a b c : string) : ((a ++ b) ++ c = a ++ (b ++ c))%string.
Proof.
  induction a as [|x a IH]; [done | by rewrite !str_app_cons, IH].
Qed.

Lemma str_app_neq (a b : string) : b ≠ ""%string → (a ++ b)%string ≠ a.
Proof.
  intros Hb Heq. apply (f_equal String.length) in Heq.
  rewrite str_length_app in Heq. destruct b; [done | simpl in Heq; lia].
Qed.

Lemma rsplit_dot_spec (n a b : string) :
  Pathlib.rsplit_dot n = Some (a, b) →
  n = (a ++ b)%string ∧ Pathlib.starts_with_dot b = true.
Proof.
  revert a b. induction n as [|c n IH]; intros a b; simpl; [done |].
  destruct (Pathlib.rsplit_dot n) as [[a' b']|] eqn:Hn.
  - intros [= <- <-]. destruct (IH a' b' eq_refl) as [-> Hdot]. done.
  - destruct (Ascii.eqb c ".") eqn:Hc; [|done].
    intros [= <- <-]. simpl. by rewrite Hc.
Qed.

Lemma stem_suffix (n : string) :
  (Pathlib.stem_of_name n ++ Pathlib.suffix_of_name n)%string = n.
Proof.
  unfold Pathlib.stem_of_name, Pathlib.suffix_of_name.
  destruct (Pathlib.rsplit_dot n) as [[a b]|] eqn:Hn.
  - destruct (rsplit_dot_spec _ _ _ Hn) as [-> _].
    destruct (negb (String.eqb a "") && (1 <? String.length b)%nat);
      [done | apply str_app_nil_r].
  - apply str_app_nil_r.
Qed.

Lemma suffix_starts_with_dot (n : string) :
  Pathlib.suffix_of_name n = ""%string ∨
  Pathlib.starts_with_dot (Pathlib.suffix_of_name n) = true.
Proof.
  unfold Pathlib.suffix_of_name.
  destruct (Pathlib.rsplit_dot n) as [[a b]|] eqn:Hn; [|by left].
  destruct (negb (String.eqb a "") && (1 <? String.length b)%nat); [|by left].
  right. by destruct (rsplit_dot_spec _ _ _ Hn).
Qed.

Lemma path_split (p : Path) :
  p ≠ [] → p = Pathlib.parent p ++ [Pathlib.name p].
Proof.
  intros Hp. destruct (exists_last Hp) as (l & x & ->).
  unfold Pathlib.parent, Pathlib.name.
  by rewrite removelast_last, last_snoc.
Qed.

Lemma parent_joinpath (p : Path) (n : string) :
  Pathlib.parent (Pathlib.joinpath p n) = p.
Proof. unfold Pathlib.parent, Pathlib.joinpath. apply removelast_last. Qed.

Lemma name_joinpath (p : Path) (n : string) :
  Pathlib.name (Pathlib.joinpath p n) = n.
Proof. unfold Pathlib.name, Pathlib.joinpath. by rewrite last_snoc. Qed.

Lemma parent_length (p : Path) :
  p ≠ [] → length p = S (length (Pathlib.parent p)).
Proof.
  intros Hp. rewrite (path_split p Hp) at 1. rewrite length_app. simpl. lia.
Qed.

(** The sidecar of [out_path]: same folder, [.part] added to the name. *)
Lemma with_suffix_part (out_path : Path) (w : World) :
  Pathlib.name out_path ≠ ""%string →
  with_suffix out_path (Pathlib.suffix out_path ++ ".part") w
  = (Ok (Pathlib.joinpath (Pathlib.parent out_path)
           (Pathlib.name out_path ++ ".part")), w).
Proof.
  intros Hname. unfold with_suffix, Pathlib.suffix, Pathlib.stem.
  assert (Hchk : (negb (String.eqb (Pathlib.suffix_of_name (Pathlib.name out_path) ++ ".part") "")
            && negb (Pathlib.starts_with_dot
                       (Pathlib.suffix_of_name (Pathlib.name out_path) ++ ".part")))
           || String.eqb (Pathlib.suffix_of_name (Pathlib.name out_path) ++ ".part") "."
           = false).
  { destruct (suffix_starts_with_dot (Pathlib.name out_path)) as [-> | Hd].
    - reflexivity.
    - destruct (Pathlib.suffix_of_name (Pathlib.name out_path)) as [|c s]; [done|].
      simpl in *. rewrite Hd. simpl. destruct s; simpl.
      + destruct (Ascii.eqb c "."); done.
      + destruct (Ascii.eqb c "."); done. }
  rewrite Hchk.
  destruct (String.eqb (Pathlib.name out_path) "") eqn:He.
  - apply String.eqb_eq in He. done.
  - by rewrite <- str_app_assoc, stem_suffix.
Qed.

Lemma with_suffix_part_empty (out_path : Path) (w : World) :
  Pathlib.name out_path = ""%string →
  ∃ e, with_suffix out_path (Pathlib.suffix out_path ++ ".part") w = (Raise e, w).
Proof.
  intros Hname. unfold with_suffix, Pathlib.suffix. rewrite Hname. simpl. eauto.
Qed.

Lemma sidecar_neq (out_path : Path) :
  Pathlib.joinpath (Pathlib.parent out_path) (Pathlib.name out_path ++ ".part")
  ≠ out_path.
Proof.
  destruct (decide (out_path = [])) as [-> | Hne]; [done|].
  intros Heq. rewrite (path_split out_path Hne) in Heq at 3.
  unfold Pathlib.joinpath in Heq. apply app_inv_head in Heq.
  injection Heq as Heq. by apply str_app_neq in Heq.
Qed.

(** ** The filesystem *)

Lemma mkdir_chain_other (rest : list string) (pre : Path) (f f' : FS) (p : Path) :
  Fs.mkdir_chain pre rest f = inr f' →
  (length pre + length rest < length p)%nat →
  f' !! p = f !! p.
Proof.
  revert pre f. induction rest as [|c rest IH]; intros pre f; simpl.
  - by intros [= ->].
  - intros H Hlen.
    assert (Hq : pre ++ [c] ≠ p).
    { intros <-. rewrite length_app in Hlen. simpl in Hlen. lia. }
    assert (Hl : (length (pre ++ [c]) + length rest < length p)%nat).
    { rewrite length_app. simpl. lia. }
    destruct (f !! (pre ++ [c])) as [[|c0]|] eqn:Hf.
    + by apply (IH _ _ H).
    + done.
    + rewrite (IH _ _ H Hl). by apply lookup_insert_ne.
Qed.

Lemma mkdir_chain_mono (rest : list string) (pre : Path) (f f' : FS)
    (p : Path) (n : node) :
  Fs.mkdir_chain pre rest f = inr f' → f !! p = Some n → f' !! p = Some n.
Proof.
  revert pre f. induction rest as [|c rest IH]; intros pre f; simpl.
  - by intros [= ->].
  - intros H Hp.
    destruct (f !! (pre ++ [c])) as [[|c0]|] eqn:Hf.
    + by apply (IH _ _ H).
    + done.
    + apply (IH _ _ H). rewrite lookup_insert_ne; [done|]. congruence.
Qed.

Lemma mkdir_p_exists_mono (d : Path) (f f' : FS) (p : Path) :
  Fs.mkdir_p d f = inr f' →
  Fs.path_exists f p = true → Fs.path_exists f' p = true.
Proof.
  intros H. unfold Fs.path_exists, Fs.stat. destruct p as [|x p]; [done|].
  destruct (f !! (x :: p)) as [n|] eqn:Hp; [|done].
  intros _. by rewrite (mkdir_chain_mono _ _ _ _ _ _ H Hp).
Qed.

(** Creating the folder of [p] leaves [p] itself alone. *)
Lemma mkdir_parent_other (p : Path) (f f' : FS) :
  Fs.mkdir_p (Pathlib.parent p) f = inr f' → f' !! p = f !! p.
Proof.
  intros H. destruct (decide (p = [])) as [-> | Hne].
  - simpl in H. by injection H as ->.
  - apply (mkdir_chain_other _ _ _ _ _ H). simpl.
    rewrite (parent_length p Hne). lia.
Qed.

Lemma stat_lookup (f : FS) (p : Path) : p ≠ [] → Fs.stat f p = f !! p.
Proof. by destruct p. Qed.

Lemma path_exists_false (f : FS) (p : Path) :
  Fs.path_exists f p = false ↔ p ≠ [] ∧ f !! p = None.
Proof.
  unfold Fs.path_exists, Fs.stat. destruct p as [|x p].
  - split; [discriminate|]. by intros [? _].
  - destruct (f !! (x :: p)).
    + split; [discriminate|]. intros [_ ?]. discriminate.
    + split; [|done]. intros _. split; [discriminate|done].
Qed.

(** ** Events *)

Lemma snapshots_app (a b : list event) :
  snapshots (a ++ b) = snapshots a ++ snapshots b.
Proof. apply omap_app. Qed.

Lemma timeline_app (a b : list event) :
  timeline (a ++ b) = timeline a ++ timeline b.
Proof. apply omap_app. Qed.

Lemma arc_calls_app (a b : list event) :
  arc_calls (a ++ b) = arc_calls a ++ arc_calls b.
Proof. apply omap_app. Qed.

Lemma timeline_fs_events (evs : list event) :
  Forall is_fs_event evs → timeline evs = [].
Proof.
  induction 1 as [|e evs He _ IH]; [done|].
  destruct e; simpl in *; done.
Qed.

Lemma synced_snoc_fs (w : World) (f : FS) :
  synced (mkWorld f (events w ++ [EvFs f])).
Proof. unfold synced. simpl. rewrite snapshots_app. simpl. apply last_snoc. Qed.

Lemma synced_snoc_request (w : World) (site : req_site) (url : string)
    (h : list (string * string)) :
  synced (mkWorld (fs w) (events w ++ [EvRequest site url h (fs w)])).
Proof. unfold synced. simpl. rewrite snapshots_app. simpl. apply last_snoc. Qed.

Lemma last_app_cons {A : Type} (a b : list A) (x : A) :
  last (a ++ x :: b) = last (x :: b).
Proof.
  induction a as [|y a IH]; [done|]. simpl. rewrite <- IH.
  destruct (a ++ x :: b) eqn:E; [by destruct a | done].
Qed.

(** ** One streamed attempt *)

Lemma last_app_some {A : Type} (a b : list A) (x : A) :
  last b = Some x → last (a ++ b) = Some x.
Proof.
  destruct b as [|y b]; [done|]. intros H. by rewrite last_app_cons.
Qed.

Lemma write_event_set_fs (out_path : Path) (v : option node) (f : FS) (w : World) :
  f !! out_path = v →
  keeps_at (stream_inv out_path v)
    (λ e, stream_event out_path v e ∧ is_fs_event e) (set_fs f) w.
Proof.
  intros Hf. apply keeps_at_set_fs.
  - split; [|done]. split; [|done]. by intros s [= <-].
  - split; [done | apply synced_snoc_fs].
Qed.

Lemma open_write_spec (out_path tmp_path : Path) (v : option node)
    (mode : open_mode) (w : World) :
  tmp_path ≠ out_path →
  stream_inv out_path v w →
  ∃ evs,
    events (open_write tmp_path mode w).2 = events w ++ evs ∧
    Forall (λ e, stream_event out_path v e ∧ is_fs_event e) evs ∧
    stream_inv out_path v (open_write tmp_path mode w).2 ∧
    (∀ u, (open_write tmp_path mode w).1 = Ok u →
          ∃ c, fs (open_write tmp_path mode w).2 !! tmp_path = Some (File c)).
Proof.
  intros Hne [Hout Hsync]. unfold open_write. rewrite bind_run. simpl.
  destruct (negb (Fs.is_dir (fs w) (Pathlib.parent tmp_path))).
  { exists []. rewrite app_nil_r. by repeat split. }
  destruct tmp_path as [|x tmp] eqn:Etmp.
  { simpl. exists []. rewrite app_nil_r. by repeat split. }
  rewrite <- Etmp in *. rewrite stat_lookup by (by subst).
  assert (Hfresh : ∀ c0,
    ∃ evs,
      events (set_fs (<[tmp_path := File c0]> (fs w)) w).2 = events w ++ evs ∧
      Forall (λ e, stream_event out_path v e ∧ is_fs_event e) evs ∧
      stream_inv out_path v (set_fs (<[tmp_path := File c0]> (fs w)) w).2 ∧
      (∀ u : unit, (set_fs (<[tmp_path := File c0]> (fs w)) w).1 = Ok u →
          ∃ c, fs (set_fs (<[tmp_path := File c0]> (fs w)) w).2 !! tmp_path
               = Some (File c))).
  { intros c0.
    destruct (write_event_set_fs out_path v (<[tmp_path := File c0]> (fs w)) w)
      as (evs & Hev & HP & HI).
    - by rewrite lookup_insert_ne.
    - by split.
    - exists evs. split_and!; [done..|].
      intros _ _. exists c0. simpl. apply lookup_insert_eq. }
  destruct (fs w !! tmp_path) as [[|c]|] eqn:Hst.
  - exists []. rewrite app_nil_r. by repeat split.
  - destruct mode; [apply Hfresh|].
    exists []. rewrite app_nil_r. simpl. split_and!; [done..|].
    intros _ _. by exists c.
  - destruct mode; apply Hfresh.
Qed.

Lemma write_chunk_keeps (out_path tmp_path : Path) (v : option node)
    (chunk : bytes) (w : World) :
  tmp_path ≠ out_path →
  keeps_at (sidecar_inv out_path tmp_path v)
    (λ e, stream_event out_path v e ∧ is_fs_event e)
    (write_chunk tmp_path chunk) w.
Proof.
  intros Hne [[Hout Hsync] [c Hc]]. unfold write_chunk. rewrite bind_run. simpl.
  destruct tmp_path as [|x tmp] eqn:Etmp.
  { simpl. exists []. rewrite app_nil_r. repeat split; eauto. }
  rewrite <- Etmp in *. rewrite stat_lookup by (by subst). rewrite Hc.
  exists [EvFs (<[tmp_path := File (c ++ chunk)]> (fs w))]. simpl.
  assert (Ho : <[tmp_path := File (c ++ chunk)]> (fs w) !! out_path = v)
    by (by rewrite lookup_insert_ne).
  split_and!; [done | | ].
  - constructor; [|done]. split; [|done]. split; [|done]. by intros s [= <-].
  - split; [split; [done | apply synced_snoc_fs]|].
    exists (c ++ chunk). simpl. apply lookup_insert_eq.
Qed.

Lemma write_body_keeps (out_path tmp_path : Path) (v : option node)
    (body : list bytes * bool) (w : World) :
  tmp_path ≠ out_path →
  keeps_at (sidecar_inv out_path tmp_path v)
    (λ e, stream_event out_path v e ∧ is_fs_event e)
    (write_body tmp_path body) w.
Proof.
  intros Hne. unfold write_body. apply keeps_at_bind.
  - apply keeps_at_for_each. intros chunk w' _.
    destruct chunk; [apply keeps_at_ret | by apply write_chunk_keeps].
  - intros _ w' _. destruct (snd body); [apply keeps_at_ret | apply keeps_at_raise].
Qed.

(** A body that breaks off makes [write_body] raise. *)
Lemma write_body_broken (tmp_path : Path) (chunks : list bytes) (w : World) :
  ∃ e, (write_body tmp_path (chunks, false) w).1 = Raise e.
Proof.
  unfold write_body. rewrite bind_run. simpl.
  destruct (for_each chunks _ w) as [[u|e] w']; simpl; eauto.
Qed.

Lemma replace_spec (tmp_path out_path : Path) (c : bytes) (w : World) :
  fs w !! tmp_path = Some (File c) →
  Fs.stat (fs w) tmp_path = Some (File c) →
  (∃ e, replace tmp_path out_path w = (Raise e, w)) ∨
  replace tmp_path out_path w
  = (Ok tt, mkWorld (<[out_path := File c]> (delete tmp_path (fs w)))
              (events w ++ [EvFs (<[out_path := File c]> (delete tmp_path (fs w)))])).
Proof.
  intros Hc Hst. unfold replace. rewrite bind_run. simpl. rewrite Hst.
  destruct (Fs.stat (fs w) out_path) as [[|c']|];
    [left; eauto | |];
    (destruct (negb (Fs.is_dir (fs w) (Pathlib.parent out_path)));
     [left; eauto | by right]).
Qed.

Section Stream.

Variable net : Net.

Lemma stream_attempt_spec (url : string) (out_path tmp_path : Path)
    (h : list (string * string)) (rp : Z) (w : World) (v : option node) :
  tmp_path ≠ out_path →
  fs w !! out_path = v →
  ∃ evs,
    events (stream_attempt net url out_path tmp_path h rp w).2
    = events w ++ EvRequest (StreamGet out_path) url h (fs w) :: evs ∧
    Forall is_fs_event evs ∧
    (stream_fails (http_get_stream net w url h) →
     ∃ e, (stream_attempt net url out_path tmp_path h rp w).1 = Raise e) ∧
    match (stream_attempt net url out_path tmp_path h rp w).1 with
    | Raise _ =>
        Forall (stream_event out_path v) evs ∧
        fs (stream_attempt net url out_path tmp_path h rp w).2 !! out_path = v
    | Ok _ =>
        ∃ evs0 f c,
          evs = evs0 ++ [EvFs (fs (stream_attempt net url out_path tmp_path h rp w).2)] ∧
          Forall (stream_event out_path v) evs0 ∧
          last (snapshots (EvRequest (StreamGet out_path) url h (fs w) :: evs0))
          = Some f ∧
          f !! tmp_path = Some (File c) ∧
          f !! out_path = v ∧
          fs (stream_attempt net url out_path tmp_path h rp w).2
          = <[out_path := File c]> (delete tmp_path f)
    end.
Proof.
  intros Hne Hout. unfold stream_attempt. rewrite bind_run.
  unfold requests_get_stream.
  set (req := EvRequest (StreamGet out_path) url h (fs w)).
  set (w1 := mkWorld (fs w) (events w ++ [req])).
  assert (Hinv1 : stream_inv out_path v w1).
  { split; [done | apply synced_snoc_request]. }
  destruct (http_get_stream net w url h) as [| |chunks complete] eqn:Hresp.
  - exists []. simpl. split_and!; eauto.
  - exists []. simpl. split_and!; eauto.
  - rewrite bind_run. simpl fst. simpl snd.
    set (mode := if has_range h && (0 <? rp) then ModeAb else ModeWb).
    destruct (open_write_spec out_path tmp_path v mode w1 Hne Hinv1)
      as (evsO & HevO & HPO & HinvO & HfileO).
    destruct (open_write tmp_path mode w1) as [[u|e] w2] eqn:Hopen;
      simpl in HevO, HinvO, HfileO.
    2:{ exists evsO. simpl. rewrite HevO. unfold w1. simpl.
        rewrite <- app_assoc. simpl. split_and!; [done | | eauto | | apply HinvO].
        - eapply Forall_impl; [exact HPO|]. by intros ? [_ ?].
        - eapply Forall_impl; [exact HPO|]. by intros ? [? _]. }
    destruct (HfileO u eq_refl) as [c0 Hc0].
    assert (Hinv2 : sidecar_inv out_path tmp_path v w2) by (split; eauto).
    rewrite bind_run.
    destruct (write_body_keeps out_path tmp_path v (chunks, complete) w2 Hne Hinv2)
      as (evsW & HevW & HPW & [[Hout3 Hsync3] [c Hc]]).
    pose proof (write_body_broken tmp_path chunks w2) as Hbroken.
    destruct (write_body tmp_path (chunks, complete) w2) as [[u'|e] w3] eqn:Hwrite;
      simpl in HevW, Hout3, Hsync3, Hc.
    2:{ exists (evsO ++ evsW). simpl. rewrite HevW, HevO. unfold w1. simpl.
        rewrite <- !app_assoc. simpl. split_and!; [done | | eauto | | done].
        - apply Forall_app. split; (eapply Forall_impl; [eassumption|]); by intros ? [_ ?].
        - apply Forall_app. split; (eapply Forall_impl; [eassumption|]); by intros ? [? _]. }
    assert (Hcomplete : complete = true).
    { destruct complete; [done|]. rewrite Hwrite in Hbroken.
      by destruct Hbroken as [? ?]. }
    assert (Hev3 : events w3 = events w ++ req :: (evsO ++ evsW)).
    { rewrite HevW, HevO. unfold w1. simpl. by rewrite <- !app_assoc. }
    assert (HP3 : Forall (stream_event out_path v) (evsO ++ evsW)).
    { apply Forall_app. split; (eapply Forall_impl; [eassumption|]); by intros ? [? _]. }
    assert (HF3 : Forall is_fs_event (evsO ++ evsW)).
    { apply Forall_app. split; (eapply Forall_impl; [eassumption|]); by intros ? [_ ?]. }
    assert (Hst : Fs.stat (fs w3) tmp_path = Some (File c)).
    { destruct tmp_path; [|done]. exfalso.
      (* the sidecar was opened, so it is not the current directory *)
      clear -Hopen. unfold open_write in Hopen. rewrite bind_run in Hopen.
      simpl in Hopen.
      destruct (negb (Fs.is_dir (fs w1) (Pathlib.parent []))); done. }
    destruct (replace_spec tmp_path out_path c w3 Hc Hst) as [[e Hrep] | Hrep];
      rewrite Hrep; simpl.
    + exists (evsO ++ evsW). split_and!; [done | done | | done | done].
      intros Hf. subst complete. done.
    + exists ((evsO ++ evsW)
              ++ [EvFs (<[out_path := File c]> (delete tmp_path (fs w3)))]).
      rewrite Hev3. split_and!.
      * by rewrite <- app_assoc.
      * apply Forall_app. split; [done|]. by repeat constructor.
      * intros Hf. by subst complete.
      * exists (evsO ++ evsW), (fs w3), c. split_and!; try done.
        unfold synced in Hsync3. rewrite Hev3, snapshots_app in Hsync3.
        change (snapshots (req :: evsO ++ evsW))
          with (fs w :: snapshots (evsO ++ evsW)) in Hsync3.
        rewrite last_app_cons in Hsync3. exact Hsync3.
Qed.

End Stream.

Lemma write_chunk_run (p : Path) (c chunk : bytes) (w : World) :
  p ≠ [] → fs w !! p = Some (File c) →
  write_chunk p chunk w
  = (Ok tt, mkWorld (<[p := File (c ++ chunk)]> (fs w))
              (events w ++ [EvFs (<[p := File (c ++ chunk)]> (fs w))])).
Proof.
  intros Hp Hc. unfold write_chunk. rewrite bind_run. cbn [get_fs fst snd].
  by rewrite stat_lookup, Hc by done.
Qed.

Lemma write_chunks_run (p : Path) (chunks : list bytes) :
  p ≠ [] →
  ∀ (c : bytes) (w : World),
    fs w !! p = Some (File c) →
    ∃ evs,
      for_each chunks (λ chunk, match chunk with
                                | [] => ret tt
                                | _ => write_chunk p chunk
                                end) w
      = (Ok tt, mkWorld (<[p := File (c ++ concat chunks)]> (fs w))
                  (events w ++ evs)) ∧
      Forall is_fs_event evs.
Proof.
  intros Hp. induction chunks as [|chunk chunks IH]; intros c w Hc.
  - exists []. simpl. rewrite !app_nil_r, insert_id by done.
    split; [by destruct w | done].
  - cbn [for_each concat]. rewrite bind_run. destruct chunk as [|b chunk].
    + destruct (IH c w Hc) as (evs & Hrun & Hev). exists evs.
      split; [|done]. exact Hrun.
    + rewrite (write_chunk_run p c (b :: chunk) w Hp Hc).
      destruct (IH (c ++ b :: chunk)
                  (mkWorld (<[p := File (c ++ b :: chunk)]> (fs w))
                     (events w ++ [EvFs (<[p := File (c ++ b :: chunk)]> (fs w))])))
        as (evs & Hrun & Hev).
      { apply lookup_insert_eq. }
      rewrite Hrun. cbn [fs events]. eexists. split.
      * by rewrite insert_insert_eq, <- !app_assoc.
      * by constructor.
Qed.

(** What [open_write] leaves in the file it opened: nothing, unless it
    appends to a file that was there. *)
Lemma open_write_content (p : Path) (mode : open_mode) (w w' : World) (u : unit) :
  open_write p mode w = (Ok u, w') →
  p ≠ [] ∧
  fs w' !! p = Some (File (match mode with
                           | ModeAb => file_content (fs w) p
                           | ModeWb => []
                           end)).
Proof.
  unfold open_write. rewrite bind_run. cbn [get_fs fst snd].
  destruct (negb (Fs.is_dir (fs w) (Pathlib.parent p))); [done|].
  destruct (decide (p = [])) as [-> | Hp]; [done|].
  rewrite stat_lookup by done. unfold file_content.
  destruct (fs w !! p) as [[|c]|] eqn:Hl.
  - done.
  - destruct mode; intros [= _ <-]; (split; [done|]); cbn [fs];
      [apply lookup_insert_eq | done].
  - destruct mode; intros [= _ <-]; (split; [done|]); cbn [fs];
      apply lookup_insert_eq.
Qed.

Section Delivered.

Variable net : Net.

(** An attempt that returns was given a complete body, and what it puts
    at the destination is that body, after the bytes it kept when it
    appended. *)
Lemma stream_attempt_ok (url : string) (out_path tmp_path : Path)
    (h : list (string * string)) (rp : Z) (w w' : World) (u : unit) :
  stream_attempt net url out_path tmp_path h rp w = (Ok u, w') →
  ∃ chunks,
    http_get_stream net w url h = StreamBody chunks true ∧
    fs w' !! out_path
    = Some (File ((if has_range h && (0 <? rp)
                   then file_content (fs w) tmp_path else [])
                  ++ concat chunks)).
Proof.
  unfold stream_attempt. intros H.
  apply bind_ok in H as ([chunks complete] & w1 & Hreq & H).
  unfold requests_get_stream in Hreq.
  destruct (http_get_stream net w url h) as [| |chunks' complete'];
    [done | done |]. injection Hreq as -> -> <-.
  apply bind_ok in H as (u1 & w2 & Hopen & H).
  apply open_write_content in Hopen as [Htmp Hc]. cbn [fs] in Hc.
  apply bind_ok in H as (u2 & w3 & Hbody & H).
  unfold write_body in Hbody. cbn [fst snd] in Hbody.
  apply bind_ok in Hbody as (u3 & w4 & Hwrite & Hbody).
  destruct complete; [|done]. injection Hbody as _ ->.
  destruct (write_chunks_run tmp_path chunks Htmp _ w2 Hc) as (evs & Hrun & _).
  rewrite Hrun in Hwrite. injection Hwrite as _ <-.
  exists chunks. split; [done|].
  unfold replace in H. rewrite bind_run in H. cbn [get_fs fst snd fs] in H.
  rewrite stat_lookup, lookup_insert_eq in H by done.
  destruct (Fs.stat _ out_path) as [[|c']|]; [done | |];
    (destruct (negb (Fs.is_dir _ (Pathlib.parent out_path))); [done|];
     injection H as _ <-; cbn [fs]; rewrite lookup_insert_eq;
     by destruct (has_range h && (0 <? rp))).
Qed.

End Delivered.

Section Retry.

Variable net : Net.

Lemma stream_event_request (out_path : Path) (url : string)
    (h : list (string * string)) (f : FS) :
  stream_event out_path (f !! out_path) (EvRequest (StreamGet out_path) url h f).
Proof. split; [|done]. by intros s [= <-]. Qed.

Lemma stream_event_sleep (out_path : Path) (v : option node) (s : Z) :
  stream_event out_path v (EvSleep s).
Proof. split; [|done]. by intros ? [=]. Qed.

(** The retry loop either runs out of attempts with [out_path] as it was,
    or ends by renaming the sidecar onto it. *)
Lemma attempts_trace (url : string) (out_path tmp_path : Path)
    (h : list (string * string)) (rp : Z) (v : option node) (n : nat) :
  tmp_path ≠ out_path →
  ∀ (a : Z) (w : World),
    fs w !! out_path = v →
    ∃ evs,
      events (attempts net url out_path tmp_path h rp n a w).2 = events w ++ evs ∧
      match (attempts net url out_path tmp_path h rp n a w).1 with
      | Ok false =>
          Forall (stream_event out_path v) evs ∧
          fs (attempts net url out_path tmp_path h rp n a w).2 !! out_path = v
      | Ok true =>
          ∃ evs0 f c,
            evs = evs0 ++ [EvFs (fs (attempts net url out_path tmp_path h rp n a w).2)] ∧
            Forall (stream_event out_path v) evs0 ∧
            last (snapshots evs0) = Some f ∧
            f !! tmp_path = Some (File c) ∧
            f !! out_path = v ∧
            fs (attempts net url out_path tmp_path h rp n a w).2
            = <[out_path := File c]> (delete tmp_path f) ∧
            ∃ pre f_req written chunks,
              evs0 = pre ++ EvRequest (StreamGet out_path) url h f_req :: written ∧
              Forall is_fs_event written ∧
              http_get_stream net (mkWorld f_req (events w ++ pre)) url h
              = StreamBody chunks true ∧
              c = (if has_range h && (0 <? rp)
                   then file_content f_req tmp_path else [])
                  ++ concat chunks
      | Raise _ => False
      end.
Proof.
  intros Hne. induction n as [|k IH]; intros a w Hout; simpl.
  - exists []. rewrite app_nil_r. by repeat split.
  - rewrite bind_run. unfold try.
    destruct (stream_attempt_spec net url out_path tmp_path h rp w v Hne Hout)
      as (evsA & HevA & HFA & _ & Hres).
    destruct (stream_attempt net url out_path tmp_path h rp w) as [[u|e] w1]
      eqn:Hrun; simpl in HevA, Hres.
    + destruct Hres as (evs0 & f & c & -> & HP0 & Hlast & Hc & Hf & Hfs).
      exists (EvRequest (StreamGet out_path) url h (fs w) :: evs0 ++ [EvFs (fs w1)]).
      simpl. split; [done|].
      exists (EvRequest (StreamGet out_path) url h (fs w) :: evs0), f, c.
      split_and!; try done.
      { constructor; [|done]. rewrite <- Hout. apply stream_event_request. }
      apply stream_attempt_ok in Hrun as (chunks & Hresp & Hdone).
      rewrite Hfs, lookup_insert_eq in Hdone. injection Hdone as ->.
      apply Forall_app in HFA as [HFA _].
      exists [], (fs w), evs0, chunks. rewrite app_nil_r.
      split_and!; [done | done | by destruct w | done].
    + destruct Hres as [HPA Hout1]. rewrite bind_run. simpl.
      set (w2 := mkWorld (fs w1) (events w1 ++ [EvSleep (Z.min 60 (2 ^ a))])).
      destruct (IH (a + 1) w2 Hout1) as (evsR & HevR & HresR).
      exists ((EvRequest (StreamGet out_path) url h (fs w) :: evsA)
              ++ EvSleep (Z.min 60 (2 ^ a)) :: evsR).
      assert (Hpre : Forall (stream_event out_path v)
                (EvRequest (StreamGet out_path) url h (fs w) :: evsA)).
      { constructor; [|done]. rewrite <- Hout. apply stream_event_request. }
      split.
      { rewrite HevR. unfold w2. simpl. rewrite HevA.
        by rewrite <- !app_assoc. }
      destruct (attempts net url out_path tmp_path h rp k (a + 1) w2)
        as [[[|]|e'] w3]; cbn [fst snd] in *; [| |done].
      * destruct HresR as (evs0 & f & c & -> & HP0 & Hlast & Hc & Hf & Hfs
                           & pre & f_req & written & chunks
                           & -> & Hwritten & Hresp & Hcontent).
        exists ((EvRequest (StreamGet out_path) url h (fs w) :: evsA)
                ++ EvSleep (Z.min 60 (2 ^ a))
                   :: pre ++ EvRequest (StreamGet out_path) url h f_req :: written),
               f, c.
        split_and!; try done.
        -- by simplify_list_eq.
        -- apply Forall_app. split; [done|].
           constructor; [apply stream_event_sleep | done].
        -- rewrite snapshots_app.
           apply last_app_some.
           change (snapshots (EvSleep (Z.min 60 (2 ^ a))
                              :: pre ++ EvRequest (StreamGet out_path) url h f_req
                                 :: written))
             with (snapshots (pre ++ EvRequest (StreamGet out_path) url h f_req
                              :: written)).
           done.
        -- exists ((EvRequest (StreamGet out_path) url h (fs w) :: evsA)
                   ++ EvSleep (Z.min 60 (2 ^ a)) :: pre), f_req, written, chunks.
           split_and!; [by simplify_list_eq | done | | done].
           rewrite <- Hresp. f_equal. f_equal. unfold w2. cbn [events].
           rewrite HevA. by simplify_list_eq.
      * destruct HresR as [HPR HoutR]. split; [|done].
        apply Forall_app. split; [done|].
        constructor; [apply stream_event_sleep | done].
Qed.

(** With a server that never delivers, every attempt is followed by its
    wait and the loop runs to its end. *)
Lemma attempts_all_fail (url : string) (out_path tmp_path : Path)
    (h : list (string * string)) (rp : Z) (n : nat) :
  tmp_path ≠ out_path →
  (∀ w' u h', stream_fails (http_get_stream net w' u h')) →
  ∀ (a : Z) (w : World),
    ∃ evs,
      (attempts net url out_path tmp_path h rp n a w).1 = Ok false ∧
      events (attempts net url out_path tmp_path h rp n a w).2 = events w ++ evs ∧
      timeline evs = failed_attempts url a (Z.of_nat n).
Proof.
  intros Hne Hfail. induction n as [|k IH]; intros a w.
  - exists []. simpl. by rewrite app_nil_r.
  - cbn [attempts]. rewrite bind_run. unfold try.
    destruct (stream_attempt_spec net url out_path tmp_path h rp w _ Hne eq_refl)
      as (evsA & HevA & HFA & Hraise & _).
    destruct (Hraise (Hfail _ _ _)) as [e He].
    destruct (stream_attempt net url out_path tmp_path h rp w) as [[u|e'] w1];
      simpl in HevA, He; [done|].
    rewrite bind_run. simpl.
    set (w2 := mkWorld (fs w1) (events w1 ++ [EvSleep (Z.min 60 (2 ^ a))])).
    destruct (IH (a + 1) w2) as (evsR & HresR & HevR & HtlR).
    exists ((EvRequest (StreamGet out_path) url h (fs w) :: evsA)
            ++ EvSleep (Z.min 60 (2 ^ a)) :: evsR).
    split_and!; [done | |].
    + rewrite HevR. unfold w2. simpl. rewrite HevA. by rewrite <- !app_assoc.
    + rewrite timeline_app.
      change (timeline (EvRequest (StreamGet out_path) url h (fs w) :: evsA))
        with (Attempted url :: timeline evsA).
      change (timeline (EvSleep (Z.min 60 (2 ^ a)) :: evsR))
        with (Waited (Z.min 60 (2 ^ a)) :: timeline evsR).
      rewrite (timeline_fs_events evsA HFA), HtlR. unfold failed_attempts.
      rewrite (seqZ_cons a (Z.of_nat (S k))) by lia.
      replace (Z.pred (Z.of_nat (S k))) with (Z.of_nat k) by lia.
      replace (Z.succ a) with (a + 1) by lia. done.
Qed.

End Retry.

Lemma path_exists_run (p : Path) (w : World) :
  path_exists p w = (Ok (Fs.path_exists (fs w) p), w).
Proof. reflexivity. Qed.

Lemma ensure_dir_run (p : Path) (w : World) :
  ensure_dir p w
  = match Fs.mkdir_p p (fs w) with
    | inl e => (Raise e, w)
    | inr f => (Ok tt, mkWorld f (events w ++ [EvFs f]))
    end.
Proof.
  unfold ensure_dir. rewrite bind_run. simpl.
  by destruct (Fs.mkdir_p p (fs w)).
Qed.

Section StreamingDownload.

Variable net : Net.

(** Everything [download_streaming] lets an observer see, by the way it
    ends: skipped, failed, or done by one rename of the sidecar. *)
Lemma download_streaming_trace (url : string) (out_path : Path)
    (overwrite : bool) (retries : Z) (w : World) :
  ∃ evs,
    events (download_streaming net url out_path overwrite retries w).2
    = events w ++ evs ∧
    ((download_streaming net url out_path overwrite retries w = (Ok tt, w) ∧
      evs = [] ∧ Fs.path_exists (fs w) out_path = true ∧ overwrite = false)
     ∨
     ((overwrite = false → Fs.path_exists (fs w) out_path = false) ∧
      match (download_streaming net url out_path overwrite retries w).1 with
      | Raise _ =>
          Forall (stream_event out_path (fs w !! out_path)) evs ∧
          fs (download_streaming net url out_path overwrite retries w).2 !! out_path
          = fs w !! out_path
      | Ok _ =>
          ∃ evs0 f c,
            evs = evs0 ++ [EvFs (fs (download_streaming net url out_path overwrite retries w).2)] ∧
            Forall (stream_event out_path (fs w !! out_path)) evs0 ∧
            last (snapshots evs0) = Some f ∧
            f !! sidecar_of out_path = Some (File c) ∧
            f !! out_path = fs w !! out_path ∧
            fs (download_streaming net url out_path overwrite retries w).2
            = <[out_path := File c]> (delete (sidecar_of out_path) f) ∧
            ∃ pre headers f_req written chunks,
              evs0 = pre ++ EvRequest (StreamGet out_path) url headers f_req
                            :: written ∧
              Forall is_fs_event written ∧
              http_get_stream net (mkWorld f_req (events w ++ pre)) url headers
              = StreamBody chunks true ∧
              c = (if has_range headers
                   then file_content f_req (sidecar_of out_path) else [])
                  ++ concat chunks
      end)).
Proof.
  unfold download_streaming. rewrite bind_run, path_exists_run.
  destruct (Fs.path_exists (fs w) out_path && negb overwrite) eqn:Hskip.
  { exists []. rewrite app_nil_r. split; [done|]. left.
    apply andb_true_iff in Hskip as [? Hov]. destruct overwrite; done. }
  assert (Hmiss : overwrite = false → Fs.path_exists (fs w) out_path = false).
  { intros ->. by rewrite andb_true_r in Hskip. }
  rewrite bind_run, ensure_dir_run.
  destruct (Fs.mkdir_p (Pathlib.parent out_path) (fs w)) as [e|f1] eqn:Hmk.
  { exists []. rewrite app_nil_r. split; [done|]. right. by split. }
  pose proof (mkdir_parent_other _ _ _ Hmk) as Hf1.
  set (w1 := mkWorld f1 (events w ++ [EvFs f1])).
  assert (Hev1 : stream_event out_path (fs w !! out_path) (EvFs f1)).
  { split; [|done]. by intros s [= <-]. }
  rewrite bind_run.
  destruct (decide (Pathlib.name out_path = ""%string)) as [Hname | Hname].
  { destruct (with_suffix_part_empty out_path w1 Hname) as [e ->].
    exists [EvFs f1]. split; [done|]. right. split; [done|]. simpl.
    split; [by constructor | done]. }
  rewrite (with_suffix_part out_path w1 Hname). fold (sidecar_of out_path).
  rewrite bind_run, path_exists_run, bind_run. cbn [get_fs fst snd].
  rewrite bind_run.
  match goal with
  | |- context [attempts net url out_path (sidecar_of out_path) ?h ?rp ?n 1 w1] =>
      destruct (attempts_trace net url out_path (sidecar_of out_path) h rp
                  (fs w !! out_path) n (sidecar_neq out_path) 1 w1 Hf1)
        as (evs & Hev & Hres);
      destruct (attempts net url out_path (sidecar_of out_path) h rp n 1 w1)
        as [[[|]|e] w2]
  end; cbn [fst snd] in *; [| |done].
  - destruct Hres as (evs0 & f & c & -> & HP0 & Hlast & Hc & Hf & Hfs
                      & pre & f_req & written & chunks
                      & Hevs0 & Hwritten & Hresp & Hcontent).
    exists (EvFs f1 :: evs0 ++ [EvFs (fs w2)]). split.
    { simpl. rewrite Hev. unfold w1. simpl. by rewrite <- app_assoc. }
    right. split; [done|]. exists (EvFs f1 :: evs0), f, c.
    split_and!; try done.
    + by constructor.
    + change (snapshots (EvFs f1 :: evs0)) with ([f1] ++ snapshots evs0).
      by apply last_app_some.
    + eexists (EvFs f1 :: pre), _, f_req, written, chunks.
      split_and!; [by rewrite Hevs0 | done | |].
      * rewrite <- Hresp. unfold w1. cbn [events].
        by rewrite <- app_assoc.
      * rewrite Hcontent. f_equal. clear.
        by destruct (0 <? _), overwrite.
  - destruct Hres as [HP Hout]. exists (EvFs f1 :: evs). split.
    { simpl. rewrite Hev. unfold w1. simpl. by rewrite <- app_assoc. }
    right. split; [done|]. simpl. split; [by constructor | done].
Qed.

End StreamingDownload.

Lemma untouched_snapshots (p : Path) (v : option node) (evs : list event) (s : FS) :
  Forall (untouched p v) evs → s ∈ snapshots evs → s !! p = v.
Proof.
  intros HP Hs. apply list_elem_of_omap in Hs as (e & He & Hsnap).
  rewrite Forall_forall in HP. by apply (HP e He).
Qed.

Lemma stream_events_untouched (p : Path) (v : option node) (evs : list event) :
  Forall (stream_event p v) evs → Forall (untouched p v) evs.
Proof. intros H. eapply Forall_impl; [exact H|]. by intros e [? _]. Qed.

(** C6. Whatever [download_streaming] does, the destination is written by
    nothing but the one rename of the sidecar that ends a successful call:
    in every filesystem an observer sees before that, the destination is
    what it was at the start (so never a partial file while the sidecar
    exists), and a call that fails leaves it as it was.  The sidecar that
    is renamed is fully streamed: the reply to the last request of the
    call was a complete body, after that request the call only wrote to
    the filesystem, and the renamed file holds the chunks of that body,
    after the bytes of the sidecar the request found when it asked for a
    range, and after nothing when it did not. *)
Theorem download_streaming_atomic (net : Net) (url : string) (out_path : Path)
    (overwrite : bool) (retries : Z) (w : World) :
  ∃ evs,
    events (download_streaming net url out_path overwrite retries w).2
    = events w ++ evs ∧
    (∀ s, s ∈ snapshots evs → s !! sidecar_of out_path ≠ None →
          s !! out_path = fs w !! out_path) ∧
    match (download_streaming net url out_path overwrite retries w).1 with
    | Raise _ =>
        Forall (untouched out_path (fs w !! out_path)) evs ∧
        fs (download_streaming net url out_path overwrite retries w).2 !! out_path
        = fs w !! out_path
    | Ok _ =>
        (evs = [] ∧ (download_streaming net url out_path overwrite retries w).2 = w)
        ∨
        ∃ evs0 f c,
          evs = evs0 ++ [EvFs (fs (download_streaming net url out_path overwrite retries w).2)] ∧
          Forall (untouched out_path (fs w !! out_path)) evs0 ∧
          last (snapshots evs0) = Some f ∧
          f !! sidecar_of out_path = Some (File c) ∧
          fs (download_streaming net url out_path overwrite retries w).2
          = <[out_path := File c]> (delete (sidecar_of out_path) f) ∧
          ∃ pre headers f_req written chunks,
            evs0 = pre ++ EvRequest (StreamGet out_path) url headers f_req
                          :: written ∧
            Forall is_fs_event written ∧
            http_get_stream net (mkWorld f_req (events w ++ pre)) url headers
            = StreamBody chunks true ∧
            c = (if has_range headers
                 then file_content f_req (sidecar_of out_path) else [])
                ++ concat chunks
    end.
Proof.
  destruct (download_streaming_trace net url out_path overwrite retries w)
    as (evs & Hev & [(Hrun & -> & _) | [_ Hres]]).
  { exists []. rewrite Hrun. simpl. rewrite app_nil_r. split; [done|].
    split; [by intros s Hs; apply elem_of_nil in Hs | by left]. }
  exists evs. split; [done|].
  destruct (download_streaming net url out_path overwrite retries w) as [[u|e] w'];
    simpl in *.
  - destruct Hres as (evs0 & f & c & -> & HP0 & Hlast & Hc & Hf & Hfs & Hbody).
    apply stream_events_untouched in HP0. split.
    + intros s Hs Hside. rewrite snapshots_app in Hs.
      apply elem_of_app in Hs as [Hs | Hs].
      * by apply (untouched_snapshots _ _ evs0).
      * simpl in Hs. apply list_elem_of_singleton in Hs as ->.
        exfalso. apply Hside. rewrite Hfs.
        rewrite lookup_insert_ne by (apply not_eq_sym, sidecar_neq).
        apply lookup_delete_eq.
    + right. by exists evs0, f, c.
  - destruct Hres as [HP Hout]. apply stream_events_untouched in HP.
    split; [|done]. intros s Hs _. by apply (untouched_snapshots _ _ evs).
Qed.

(** C4. When the destination is missing and the server never delivers,
    [download_streaming] makes the attempts 1, ..., [retries] and no other,
    waits [min(60, 2^k)] seconds after attempt [k], and then raises the
    error that names the destination and the number of attempts.  (The
    folder of the destination can be created and the destination has a
    name.) *)
Theorem download_streaming_retry_bound (net : Net) (url : string)
    (out_path : Path) (overwrite : bool) (retries : Z) (w : World) (f1 : FS) :
  Fs.path_exists (fs w) out_path = false →
  (∀ w' u h, stream_fails (http_get_stream net w' u h)) →
  Fs.mkdir_p (Pathlib.parent out_path) (fs w) = inr f1 →
  Pathlib.name out_path ≠ ""%string →
  ∃ w',
    download_streaming net url out_path overwrite retries w
    = (Raise (RuntimeError ("Failed after " ++ pretty retries ++ " attempts: "
                            ++ Pathlib.name out_path)), w') ∧
    timeline (since w w') = failed_attempts url 1 retries ∧
    attempts_made (since w w') = Z.to_nat retries.
Proof.
  intros Hmiss Hfail Hmk Hname.
  unfold download_streaming. rewrite bind_run, path_exists_run, Hmiss.
  cbn [andb]. rewrite bind_run, ensure_dir_run, Hmk.
  rewrite bind_run, (with_suffix_part out_path _ Hname).
  fold (sidecar_of out_path).
  rewrite bind_run, path_exists_run, bind_run. cbn [get_fs fst snd].
  rewrite bind_run.
  set (w1 := mkWorld f1 (events w ++ [EvFs f1])).
  match goal with
  | |- context [attempts net url out_path (sidecar_of out_path) ?h ?rp ?n 1 w1] =>
      destruct (attempts_all_fail net url out_path (sidecar_of out_path) h rp n
                  (sidecar_neq out_path) Hfail 1 w1)
        as (evs & Hres & Hev & Htl);
      destruct (attempts net url out_path (sidecar_of out_path) h rp n 1 w1)
        as [r w2]
  end.
  simpl in Hres, Hev. subst r. exists w2. split; [done|].
  assert (Hsince : since w w2 = EvFs f1 :: evs).
  { apply since_app. rewrite Hev. unfold w1. simpl. by rewrite <- app_assoc. }
  rewrite Hsince.
  assert (Htl' : timeline evs = failed_attempts url 1 retries).
  { rewrite Htl. unfold failed_attempts, seqZ. by rewrite Nat2Z.id. }
  split; [exact Htl'|].
  unfold attempts_made.
  change (timeline (EvFs f1 :: evs)) with (timeline evs).
  rewrite Htl'. unfold failed_attempts, seqZ.
  generalize (Z.to_nat retries) at 1 2. intros n. generalize 0%nat.
  induction n as [|n IH]; intros m; [done|].
  simpl. f_equal. rewrite filter_cons_False by (simpl; discriminate).
  apply IH.
Qed.

Lemma download_streaming_retry_bound_witness :
  ∃ w',
    download_streaming net_down "https://pae-paha.pacioos.hawaii.edu/ncss/a"
      ["raw"; "dem"; "a.nc"]%string false 3 empty_world
    = (Raise (RuntimeError ("Failed after " ++ pretty 3 ++ " attempts: "
                            ++ Pathlib.name ["raw"; "dem"; "a.nc"]%string)), w') ∧
    timeline (since empty_world w')
    = failed_attempts "https://pae-paha.pacioos.hawaii.edu/ncss/a" 1 3 ∧
    attempts_made (since empty_world w') = Z.to_nat 3.
Proof.
  eapply download_streaming_retry_bound.
  - reflexivity.
  - intros w' u h. exact I.
  - vm_compute. reflexivity.
  - vm_compute. discriminate.
Defined.

(** C5 (defect of the code). With [overwrite=false] and no sidecar at the
    start, the first transfer leaves five bytes in the sidecar and breaks.
    The retried request goes out while the sidecar holds five bytes, and
    it carries no [Range] header; the sidecar is then truncated and the
    whole body written again.  The headers and the open mode are computed
    once, before the retry loop. *)
Theorem download_streaming_retry_ignores_sidecar :
  stream_requests (sidecar_of ["a.nc"%string])
    (since empty_world
       (download_streaming net_breaks_once "https://example.org/a.nc"
          ["a.nc"%string] false 8 empty_world).2)
  = [([], 0); ([], 5)] ∧
  fs (download_streaming net_breaks_once "https://example.org/a.nc"
        ["a.nc"%string] false 8 empty_world).2 !! ["a.nc"%string]
  = Some (File (ascii_bytes "hello world")).
Proof. split; vm_compute; reflexivity. Qed.

(** The same defect when a sidecar of three bytes is there at the start:
    the retried request repeats [bytes=3-] although the sidecar has grown
    to five bytes, and the reply is appended, so that the file that ends
    up at the destination has ten bytes for a resource of eight. *)
Lemma download_streaming_retry_stale_range :
  stream_requests (sidecar_of ["a.nc"%string])
    (since world_with_sidecar
       (download_streaming net_ranged "https://example.org/a.nc"
          ["a.nc"%string] false 8 world_with_sidecar).2)
  = [([("Range", "bytes=3-")], 3); ([("Range", "bytes=3-")], 5)]%string ∧
  fs (download_streaming net_ranged "https://example.org/a.nc"
        ["a.nc"%string] false 8 world_with_sidecar).2 !! ["a.nc"%string]
  = Some (File (ascii_bytes "abcdedefgh")).
Proof. split; vm_compute; reflexivity. Qed.

(** ** Computations that only touch the filesystem *)

(** One step through a computation for a goal [keeps_at I P c w]. *)
Ltac keeps_step :=
  lazymatch goal with
  | |- keeps_at _ _ (get_fs ≫= _) _ => apply keeps_at_get_fs
  | |- keeps_at _ _ (_ ≫= _) _ => apply keeps_at_bind; [| intros ? ? ?]
  | |- keeps_at _ _ (ret _) _ => apply keeps_at_ret
  | |- keeps_at _ _ (raise _) _ => apply keeps_at_raise
  | |- keeps_at _ _ (set_fs _) _ => apply keeps_at_set_fs; [auto | exact I]
  | |- keeps_at _ _ (emit _) _ => apply keeps_at_emit; [auto | exact I]
  | |- keeps_at _ _ (match ?x with _ => _ end) _ => destruct x
  end.

Section Quiet.

Variable P : event → Prop.
Hypothesis P_fs : ∀ f : FS, P (EvFs f).


Lemma quiet_path_exists (p : Path) (w : World) : keeps_at any_world P (path_exists p) w.
Proof. unfold path_exists. repeat keeps_step. Qed.

Lemma quiet_ensure_dir (p : Path) (w : World) : keeps_at any_world P (ensure_dir p) w.
Proof. unfold ensure_dir, lift_fs. repeat keeps_step. Qed.

Lemma quiet_unlink (p : Path) (w : World) : keeps_at any_world P (unlink p) w.
Proof. unfold unlink. repeat keeps_step. Qed.








Hypothesis P_proc : ∀ cmd : list string, P (EvProc cmd).



End Quiet.

(** ** What the acquisition fetches *)

Lemma fetches_fs (f : FS) : fetches_missing_unless_zip (EvFs f).
Proof. done. Qed.

Lemma fetches_proc (cmd : list string) : fetches_missing_unless_zip (EvProc cmd).
Proof. done. Qed.


Section Acquisition.

Variable net : Net.
Variable host : Host.











End Acquisition.




(** ** Globbing *)

Lemma filter_none {A : Type} (P : A → Prop) `{∀ x, Decision (P x)} (l : list A) :
  (∀ x, x ∈ l → ¬ P x) → filter P l = [].
Proof.
  induction l as [|x l IH]; intros Hl; [done|].
  rewrite filter_cons_False by (apply Hl; by left).
  apply IH. intros y Hy. apply Hl. by right.
Qed.

Lemma glob_tif_nil (f : FS) (d : Path) : no_tif_in f d → Fs.glob_tif f d = [].
Proof.
  intros Hno. unfold Fs.glob_tif. destruct (Fs.is_dir f d); [|done].
  apply filter_none. intros p Hp (Hpar & Hne & Htif).
  apply list_elem_of_In, in_map_iff in Hp as ([p' n] & <- & Hin).
  apply list_elem_of_In, elem_of_map_to_list in Hin. simpl in *.
  rewrite (path_split p' Hne), Hpar in Hin.
  specialize (Hno (Pathlib.name p') Htif). unfold Pathlib.joinpath in Hno.
  congruence.
Qed.

Section Mosaic.

Variable arcpy : ArcPy.

(** Without tiles, [mosaic_dir_to_raster] raises right after setting the
    overwrite flag of the engine. *)
Lemma mosaic_no_tiles_run (raster_dir out_mosaic : Path) (overwrite : bool)
    (w : World) :
  no_tif_in (fs w) raster_dir →
  mosaic_dir_to_raster arcpy raster_dir out_mosaic overwrite w
  = (Raise (FileNotFoundError ("No .tif rasters found in: "
                               ++ Pathlib.render raster_dir)),
     mkWorld (fs w) (events w ++ [EvArc (SetOverwriteOutput overwrite)])).
Proof.
  intros Hno. unfold mosaic_dir_to_raster. rewrite bind_run. simpl.
  rewrite bind_run. simpl. by rewrite (glob_tif_nil _ _ Hno).
Qed.

End Mosaic.

(** C7. A directory without [.tif] tiles makes [mosaic_dir_to_raster]
    raise [FileNotFoundError]; no tool of the engine runs and the
    filesystem is left as it was, so no output file appears. *)
Theorem mosaic_zero_tiles_fails (arcpy : ArcPy) (raster_dir out_mosaic : Path)
    (overwrite : bool) (w : World) :
  no_tif_in (fs w) raster_dir →
  (mosaic_dir_to_raster arcpy raster_dir out_mosaic overwrite w).1
  = Raise (FileNotFoundError ("No .tif rasters found in: "
                              ++ Pathlib.render raster_dir)) ∧
  fs (mosaic_dir_to_raster arcpy raster_dir out_mosaic overwrite w).2 = fs w ∧
  arc_calls (since w (mosaic_dir_to_raster arcpy raster_dir out_mosaic overwrite w).2)
  = [SetOverwriteOutput overwrite].
Proof.
  intros Hno. rewrite (mosaic_no_tiles_run arcpy _ _ _ _ Hno). simpl.
  split_and!; [done | done |].
  by rewrite (since_app w _ [EvArc (SetOverwriteOutput overwrite)]).
Qed.

(** C10. With [overwrite=true] and a file already at the output path, the
    check for tiles comes before the deletion: without tiles the call
    raises, nothing on disk changes at any moment, and the old output is
    still there. *)
Theorem mosaic_zero_tiles_keeps_output (arcpy : ArcPy)
    (raster_dir out_mosaic : Path) (old : node) (w : World) :
  no_tif_in (fs w) raster_dir →
  fs w !! out_mosaic = Some old →
  (∃ e, (mosaic_dir_to_raster arcpy raster_dir out_mosaic true w).1 = Raise e) ∧
  snapshots (since w (mosaic_dir_to_raster arcpy raster_dir out_mosaic true w).2)
  = [] ∧
  fs (mosaic_dir_to_raster arcpy raster_dir out_mosaic true w).2 !! out_mosaic
  = Some old.
Proof.
  intros Hno Hold. rewrite (mosaic_no_tiles_run arcpy _ _ _ _ Hno). simpl.
  split_and!; [eauto | | done].
  by rewrite (since_app w _ [EvArc (SetOverwriteOutput true)]).
Qed.

Lemma world_no_tiles_no_tif :
  no_tif_in (fs world_no_tiles) ["raw"; "dem_hi_pacioos"]%string.
Proof.
  intros n Htif. unfold Pathlib.joinpath. simpl.
  destruct (fs world_no_tiles !! ["raw"; "dem_hi_pacioos"; n]%string)
    as [nd|] eqn:Hl; [|done].
  exfalso. apply elem_of_map_to_list in Hl.
  vm_compute in Hl.
  repeat (apply elem_of_cons in Hl as [Hl | Hl];
          [try discriminate; injection Hl as -> _; vm_compute in Htif; discriminate|]).
  by apply elem_of_nil in Hl.
Qed.

Lemma mosaic_zero_tiles_fails_witness :
  (mosaic_dir_to_raster arcpy_fake ["raw"; "dem_hi_pacioos"]%string
     ["tmp"; "dem_mosaic_tmp.tif"]%string false world_no_tiles).1
  = Raise (FileNotFoundError
             ("No .tif rasters found in: "
              ++ Pathlib.render ["raw"; "dem_hi_pacioos"]%string)) ∧
  fs (mosaic_dir_to_raster arcpy_fake ["raw"; "dem_hi_pacioos"]%string
        ["tmp"; "dem_mosaic_tmp.tif"]%string false world_no_tiles).2
  = fs world_no_tiles ∧
  arc_calls (since world_no_tiles
               (mosaic_dir_to_raster arcpy_fake ["raw"; "dem_hi_pacioos"]%string
                  ["tmp"; "dem_mosaic_tmp.tif"]%string false world_no_tiles).2)
  = [SetOverwriteOutput false].
Proof.
  apply (mosaic_zero_tiles_fails arcpy_fake ["raw"; "dem_hi_pacioos"]%string
           ["tmp"; "dem_mosaic_tmp.tif"]%string false world_no_tiles).
  exact world_no_tiles_no_tif.
Defined.

Lemma mosaic_zero_tiles_keeps_output_witness :
  (∃ e, (mosaic_dir_to_raster arcpy_fake ["raw"; "dem_hi_pacioos"]%string
           ["tmp"; "dem_mosaic_tmp.tif"]%string true world_no_tiles).1 = Raise e) ∧
  snapshots (since world_no_tiles
               (mosaic_dir_to_raster arcpy_fake ["raw"; "dem_hi_pacioos"]%string
                  ["tmp"; "dem_mosaic_tmp.tif"]%string true world_no_tiles).2)
  = [] ∧
  fs (mosaic_dir_to_raster arcpy_fake ["raw"; "dem_hi_pacioos"]%string
        ["tmp"; "dem_mosaic_tmp.tif"]%string true world_no_tiles).2
    !! ["tmp"; "dem_mosaic_tmp.tif"]%string
  = Some (File (ascii_bytes "old")).
Proof.
  apply (mosaic_zero_tiles_keeps_output arcpy_fake ["raw"; "dem_hi_pacioos"]%string
           ["tmp"; "dem_mosaic_tmp.tif"]%string (File (ascii_bytes "old"))
           world_no_tiles).
  - exact world_no_tiles_no_tif.
  - vm_compute. reflexivity.
Defined.

(** ** The engine *)

Lemma elem_of_since_mono (e : event) (w w1 w' : World) (evs : list event) :
  events w1 = events w ++ evs → e ∈ since w1 w' → e ∈ since w w'.
Proof.
  unfold since. intros Hev. rewrite Hev, length_app, <- drop_drop.
  intros He. by apply (subseteq_drop (length evs)).
Qed.

Section Engine.

Variable arcpy : ArcPy.


Section AnyCall.

Variable P : event → Prop.
Hypothesis P_fs : ∀ f : FS, P (EvFs f).

Lemma arcpy_tool_keeps (c : arc_call) (w : World) :
  P (EvArc c) → keeps_at any_world P (arcpy_tool arcpy c) w.
Proof. intros Hc. unfold arcpy_tool. repeat keeps_step. Qed.

Lemma arcpy_Exists_keeps (p : Path) (w : World) :
  P (EvArc (Exists p)) → keeps_at any_world P (arcpy_Exists arcpy p) w.
Proof. intros Hc. unfold arcpy_Exists. repeat keeps_step. Qed.

Lemma epsg_of_dataset_keeps (ds : Path) (w : World) :
  P (EvArc (Describe ds)) → keeps_at any_world P (epsg_of_dataset arcpy ds) w.
Proof. intros Hc. unfold epsg_of_dataset. repeat keeps_step. Qed.

Lemma set_overwriteOutput_keeps (b : bool) (w : World) :
  P (EvArc (SetOverwriteOutput b)) → keeps_at any_world P (set_overwriteOutput b) w.
Proof. intros Hc. unfold set_overwriteOutput. keeps_step. Qed.

End AnyCall.

Lemma epsg_of_dataset_run (ds : Path) (code : Z) (w : World) :
  arc_describe arcpy (fs w) ds = Some (SpatialRef (Some code)) →
  code ≠ 0 →
  epsg_of_dataset arcpy ds w
  = (Ok (Some code), mkWorld (fs w) (events w ++ [EvArc (Describe ds)])).
Proof.
  intros Hd Hc. unfold epsg_of_dataset. rewrite bind_run. simpl.
  rewrite bind_run. simpl. rewrite Hd. by destruct code.
Qed.

Lemma arcpy_tool_run (c : arc_call) (w : World) :
  arcpy_tool arcpy c w
  = match arc_run arcpy c (fs w) with
    | Some f => (Ok tt, mkWorld f (events w ++ [EvArc c; EvFs f]))
    | None => (Raise (ExecuteError (tool_name c)),
               mkWorld (fs w) (events w ++ [EvArc c]))
    end.
Proof.
  unfold arcpy_tool. rewrite bind_run. simpl. rewrite bind_run. simpl.
  destruct (arc_run arcpy c (fs w)); [|done].
  unfold set_fs. simpl. by rewrite <- app_assoc.
Qed.

Lemma arcpy_tool_calls (c : arc_call) (w : World) :
  arc_calls (since w (arcpy_tool arcpy c w).2) = [c].
Proof.
  rewrite arcpy_tool_run. destruct (arc_run arcpy c (fs w)); simpl.
  - by rewrite (since_app w _ [EvArc c; EvFs g]).
  - by rewrite (since_app w _ [EvArc c]).
Qed.

End Engine.

Lemma ok_emits_bind {A B : Type} (c : M A) (k : A → M B) (e : event) (w : World) :
  keeps_at any_world any_event c w →
  (∀ a w1, c w = (Ok a, w1) → ∀ b w', k a w1 = (Ok b, w') → e ∈ since w1 w') →
  ∀ b w', (c ≫= k) w = (Ok b, w') → e ∈ since w w'.
Proof.
  intros Hc Hk b w' Hrun.
  apply bind_ok in Hrun as (a & w1 & Hcw & Hkw).
  destruct (Hc I) as (evs & Hev & _). rewrite Hcw in Hev. simpl in Hev.
  eapply elem_of_since_mono; [exact Hev|]. by eapply Hk.
Qed.

Section VectorPrep.

Variable arcpy : ArcPy.


(** Whatever the CRS turns out to be, [prep_vector_to_gpkg] only adds
    events. *)
Lemma prep_vector_to_gpkg_keeps (src_fc out_gpkg : Path) (out_layer : string)
    (target_epsg : Z) (temp_dir : Path) (overwrite : bool) (w : World) :
  keeps_at any_world any_event
    (prep_vector_to_gpkg arcpy src_fc out_gpkg out_layer target_epsg temp_dir
       overwrite) w.
Proof.
  unfold prep_vector_to_gpkg, ensure_scratch_gdb.
  repeat first
    [ apply quiet_ensure_dir; done
    | apply arcpy_tool_keeps; done
    | apply arcpy_Exists_keeps; done
    | apply epsg_of_dataset_keeps; done
    | apply set_overwriteOutput_keeps; done
    | keeps_step ].
Qed.

Section EqualEpsg.

Variables (src_fc out_gpkg : Path) (out_layer : string) (target_epsg : Z).
Variables (temp_dir : Path) (overwrite : bool).

Hypothesis Hdescribe :
  ∀ f, arc_describe arcpy f src_fc = Some (SpatialRef (Some target_epsg)).
Hypothesis Htarget : target_epsg ≠ 0.

Lemma epsg_of_source (w w' : World) (r : option Z) :
  epsg_of_dataset arcpy src_fc w = (Ok r, w') → r = Some target_epsg.
Proof.
  rewrite (epsg_of_dataset_run arcpy src_fc target_epsg w (Hdescribe _) Htarget).
  by intros [= <- _].
Qed.

(** With the source already in the target CRS no call reprojects, and the
    features are taken from the source itself. *)
Lemma prep_vector_equal_epsg_keeps (w : World) :
  keeps_at any_world (event_copies_from src_fc)
    (prep_vector_to_gpkg arcpy src_fc out_gpkg out_layer target_epsg temp_dir
       overwrite) w.
Proof.
  unfold prep_vector_to_gpkg.
  keeps_step; [by apply set_overwriteOutput_keeps|].
  keeps_step; [by apply quiet_ensure_dir|].
  keeps_step; [by apply arcpy_Exists_keeps|].
  keeps_step.
  { keeps_step; [by apply arcpy_tool_keeps | keeps_step]. }
  keeps_step; [by apply epsg_of_dataset_keeps|].
  match goal with H : epsg_of_dataset _ _ _ = _ |- _ =>
    apply epsg_of_source in H as -> end.
  rewrite Z.eqb_refl. simpl negb. cbv iota.
  keeps_step; [keeps_step|].
  match goal with H : ret _ _ = _ |- _ => injection H as <- <- end.
  keeps_step.
  { keeps_step; [by apply arcpy_Exists_keeps | keeps_step]. }
  keeps_step.
  { keeps_step; [by apply arcpy_tool_keeps | keeps_step]. }
  keeps_step; [by apply arcpy_tool_keeps | keeps_step].
Qed.

Lemma prep_vector_equal_epsg_ok (w w' : World) (p : Path) :
  prep_vector_to_gpkg arcpy src_fc out_gpkg out_layer target_epsg temp_dir
    overwrite w = (Ok p, w') →
  EvArc (FeatureClassToFeatureClass src_fc out_gpkg out_layer) ∈ since w w'.
Proof.
  revert p w'. unfold prep_vector_to_gpkg.
  apply ok_emits_bind; [by apply set_overwriteOutput_keeps|]. intros _ w1 _.
  apply ok_emits_bind; [by apply quiet_ensure_dir|]. intros _ w2 _.
  apply ok_emits_bind; [by apply arcpy_Exists_keeps|]. intros ex w3 _.
  apply ok_emits_bind.
  { destruct (negb ex); [by apply arcpy_tool_keeps | apply keeps_at_ret]. }
  intros _ w4 _.
  apply ok_emits_bind; [by apply epsg_of_dataset_keeps|]. intros r w5 Hr.
  apply epsg_of_source in Hr as ->.
  rewrite Z.eqb_refl. simpl negb. cbv iota.
  apply ok_emits_bind; [apply keeps_at_ret|]. intros fc w6 [= <- <-].
  apply ok_emits_bind.
  { destruct overwrite; [by apply arcpy_Exists_keeps | apply keeps_at_ret]. }
  intros lex w7 _.
  apply ok_emits_bind.
  { destruct (overwrite && lex); [by apply arcpy_tool_keeps | apply keeps_at_ret]. }
  intros _ w8 _ b w'. rewrite bind_run, arcpy_tool_run.
  destruct (arc_run arcpy _ (fs w8)) as [f|]; [|done].
  intros [= _ <-].
  rewrite (since_app w8 _ [EvArc (FeatureClassToFeatureClass src_fc out_gpkg out_layer);
                           EvFs f]) by done.
  by left.
Qed.

End EqualEpsg.

End VectorPrep.

Lemma arc_calls_copies (src : Path) (evs : list event) :
  Forall (event_copies_from src) evs → Forall (copies_from src) (arc_calls evs).
Proof.
  induction 1 as [|e evs He _ IH]; [constructor|].
  destruct e; simpl; try done. by constructor.
Qed.

(** C8 (defect of the code).  Let the engine describe a dataset with EPSG
    [code].  As a raster it is neither copied nor reprojected, whether
    [code] is the target or not: [prep_raster_to_target] raises at its call
    of [raster_outpath_in_subfolder], before it asks for the CRS, and the
    overwrite setting is the only thing it tells the engine.  As a vector
    in the target CRS it is handled as stated: [prep_vector_to_gpkg]
    reprojects nothing and copies the features into the GeoPackage from
    the source itself. *)
Theorem equal_epsg_raster_never_copied (arcpy : ArcPy)
    (dataset prepared_tif out_gpkg temp_dir : Path)
    (out_layer resampling : string) (assume_src_epsg_if_missing : option Z)
    (code target_epsg : Z) (overwrite : bool) (w : World) :
  (∀ f, arc_describe arcpy f dataset = Some (SpatialRef (Some code))) →
  code ≠ 0 →
  (∃ e, (prep_raster_to_target arcpy dataset prepared_tif target_epsg temp_dir
           resampling assume_src_epsg_if_missing overwrite w).1 = Raise e) ∧
  arc_calls (since w (prep_raster_to_target arcpy dataset prepared_tif
                        target_epsg temp_dir resampling
                        assume_src_epsg_if_missing overwrite w).2)
  = [SetOverwriteOutput overwrite] ∧
  (code = target_epsg →
   Forall (copies_from dataset)
     (arc_calls (since w (prep_vector_to_gpkg arcpy dataset out_gpkg out_layer
                            target_epsg temp_dir overwrite w).2)) ∧
   ∀ p w',
     prep_vector_to_gpkg arcpy dataset out_gpkg out_layer target_epsg temp_dir
       overwrite w = (Ok p, w') →
     FeatureClassToFeatureClass dataset out_gpkg out_layer
     ∈ arc_calls (since w w')).
Proof.
  intros Hd Hc. split_and!.
  - unfold prep_raster_to_target. rewrite bind_run. simpl.
    rewrite bind_run, ensure_dir_run. simpl.
    destruct (Fs.mkdir_p temp_dir (fs w)); simpl; eauto.
  - unfold prep_raster_to_target. rewrite bind_run. simpl.
    rewrite bind_run, ensure_dir_run. simpl.
    destruct (Fs.mkdir_p temp_dir (fs w)) as [e|f]; simpl.
    + by rewrite (since_app w _ [EvArc (SetOverwriteOutput overwrite)]).
    + rewrite (since_app w _ [EvArc (SetOverwriteOutput overwrite); EvFs f]);
        [done|].
      simpl. by rewrite <- app_assoc.
  - intros ->. split.
    + destruct (prep_vector_equal_epsg_keeps arcpy dataset out_gpkg out_layer
                  target_epsg temp_dir overwrite Hd Hc w I) as (evs & Hev & HP & _).
      rewrite (since_app _ _ _ Hev). by apply arc_calls_copies.
    + intros p w' Hrun.
      apply (prep_vector_equal_epsg_ok arcpy dataset out_gpkg out_layer
               target_epsg temp_dir overwrite Hd Hc) in Hrun.
      apply list_elem_of_omap. eexists. split; [exact Hrun | done].
Qed.

Lemma equal_epsg_raster_never_copied_witness :
  (∃ e, (prep_raster_to_target arcpy_fake ["tmp"; "dem_mosaic_tmp.tif"]%string
           ["prepared"; "dem_4326.tif"]%string 4326 ["tmp"%string] "BILINEAR"
           (Some 4326) true world_rasters_ready).1 = Raise e) ∧
  arc_calls (since world_rasters_ready
               (prep_raster_to_target arcpy_fake
                  ["tmp"; "dem_mosaic_tmp.tif"]%string
                  ["prepared"; "dem_4326.tif"]%string 4326 ["tmp"%string]
                  "BILINEAR" (Some 4326) true world_rasters_ready).2)
  = [SetOverwriteOutput true] ∧
  (4326 = 4326 →
   Forall (copies_from ["tmp"; "dem_mosaic_tmp.tif"]%string)
     (arc_calls (since world_rasters_ready
                   (prep_vector_to_gpkg arcpy_fake
                      ["tmp"; "dem_mosaic_tmp.tif"]%string
                      ["prepared"; "vectors.gpkg"]%string "parcels" 4326
                      ["tmp"%string] true world_rasters_ready).2)) ∧
   ∀ p w',
     prep_vector_to_gpkg arcpy_fake ["tmp"; "dem_mosaic_tmp.tif"]%string
       ["prepared"; "vectors.gpkg"]%string "parcels" 4326 ["tmp"%string] true
       world_rasters_ready = (Ok p, w') →
     FeatureClassToFeatureClass ["tmp"; "dem_mosaic_tmp.tif"]%string
       ["prepared"; "vectors.gpkg"]%string "parcels"
     ∈ arc_calls (since world_rasters_ready w')).
Proof.
  apply (equal_epsg_raster_never_copied arcpy_fake
           ["tmp"; "dem_mosaic_tmp.tif"]%string
           ["prepared"; "dem_4326.tif"]%string
           ["prepared"; "vectors.gpkg"]%string ["tmp"%string]
           "parcels" "BILINEAR" (Some 4326) 4326 4326 true world_rasters_ready).
  - intros f. reflexivity.
  - lia.
Defined.

(** C3 (defect of the code). [prep_raster_to_target] never gets to its
    output path: after the overwrite flag is set and the scratch directory
    made, the call of [raster_outpath_in_subfolder] with one argument
    raises [TypeError]; no raster is written and nothing is returned. *)
Theorem prep_raster_to_target_raises (arcpy : ArcPy)
    (src_raster prepared_tif temp_dir : Path) (target_epsg : Z)
    (resampling : string) (assume_src_epsg_if_missing : option Z)
    (overwrite : bool) (w : World) :
  (prep_raster_to_target arcpy src_raster prepared_tif target_epsg temp_dir
     resampling assume_src_epsg_if_missing overwrite w).1
  = Raise match Fs.mkdir_p temp_dir (fs w) with
          | inr _ =>
              TypeError "raster_outpath_in_subfolder() missing 1 required positional argument: raster_name"
          | inl e => e
          end ∧
  arc_calls (since w (prep_raster_to_target arcpy src_raster prepared_tif
                        target_epsg temp_dir resampling
                        assume_src_epsg_if_missing overwrite w).2)
  = [SetOverwriteOutput overwrite].
Proof.
  unfold prep_raster_to_target. rewrite bind_run. simpl.
  rewrite bind_run, ensure_dir_run. simpl.
  destruct (Fs.mkdir_p temp_dir (fs w)) as [e|f]; simpl.
  - split; [done|].
    by rewrite (since_app w _ [EvArc (SetOverwriteOutput overwrite)]).
  - split; [done|].
    rewrite (since_app w _ [EvArc (SetOverwriteOutput overwrite); EvFs f]); [done|].
    simpl. by rewrite <- app_assoc.
Qed.

Section VectorGate.

Variable arcpy : ArcPy.

Lemma getitem_run (d : gmap string Path) (k : string) (w : World) :
  getitem d k w = match d !! k with
                  | Some v => (Ok v, w)
                  | None => (Raise (KeyError k), w)
                  end.
Proof. unfold getitem. by destruct (d !! k). Qed.

(** One turn of the loop over the vector layers, as a case split on the
    test the code makes. *)
Lemma prepare_vector_run
    (source_inputs prepared_outputs : gmap string Path) (tempspace : Path)
    (target_epsg : Z) (overwrite : bool) (key layer_name : string)
    (out_gpkg : Path) (w : World) :
  prepared_outputs !! key = Some out_gpkg →
  prepare_vector arcpy source_inputs prepared_outputs tempspace target_epsg
    overwrite (key, layer_name) w
  = if Fs.path_exists (fs w) out_gpkg then (Ok tt, w)
    else match source_inputs !! key with
         | Some src_fc =>
             (prep_vector_to_gpkg arcpy src_fc out_gpkg layer_name
                target_epsg tempspace overwrite ≫= λ _, ret tt) w
         | None => (Raise (KeyError key), w)
         end.
Proof.
  intros Hkey. unfold prepare_vector. simpl fst. simpl snd.
  rewrite bind_run, getitem_run, Hkey. rewrite bind_run, path_exists_run.
  destruct (Fs.path_exists (fs w) out_gpkg); [done|].
  rewrite bind_run, getitem_run. by destruct (source_inputs !! key).
Qed.

(** A layer whose container file exists is skipped. *)
Lemma prepare_vector_skips
    (source_inputs prepared_outputs : gmap string Path) (tempspace : Path)
    (target_epsg : Z) (overwrite : bool) (key layer_name : string)
    (out_gpkg : Path) (w : World) :
  prepared_outputs !! key = Some out_gpkg →
  Fs.path_exists (fs w) out_gpkg = true →
  prepare_vector arcpy source_inputs prepared_outputs tempspace target_epsg
    overwrite (key, layer_name) w = (Ok tt, w).
Proof.
  intros Hkey Hex.
  by rewrite (prepare_vector_run _ _ _ _ _ _ _ _ _ Hkey), Hex.
Qed.

(** Once a vector is let through, the engine is called: the world is no
    longer the one before. *)
Lemma prep_vector_changes_world (src_fc out_gpkg : Path) (out_layer : string)
    (target_epsg : Z) (temp_dir : Path) (overwrite : bool) (w : World) :
  (prep_vector_to_gpkg arcpy src_fc out_gpkg out_layer target_epsg temp_dir
     overwrite w).2 ≠ w.
Proof.
  unfold prep_vector_to_gpkg. rewrite bind_run.
  change (set_overwriteOutput overwrite w)
    with (Ok tt, mkWorld (fs w) (events w ++ [EvArc (SetOverwriteOutput overwrite)])).
  cbv beta iota.
  match goal with
  | |- (?c ?w1).2 ≠ _ =>
      assert (Hrest : keeps_at any_world any_event c w1)
  end.
  { unfold ensure_scratch_gdb.
    repeat first
      [ apply quiet_ensure_dir; done
      | apply arcpy_tool_keeps; done
      | apply arcpy_Exists_keeps; done
      | apply epsg_of_dataset_keeps; done
      | keeps_step ]. }
  destruct (Hrest I) as (evs & Hev & _). intros Heq. rewrite Heq in Hev.
  simpl in Hev. apply (f_equal length) in Hev.
  rewrite !length_app in Hev. simpl in Hev. lia.
Qed.

End VectorGate.

(** C2, amended. In the loop over the vector layers, a layer is skipped
    exactly when the file at its prepared path, the GeoPackage container,
    exists; whether the named layer exists inside the container is not
    looked at.  A layer whose container is missing is handed to
    [prep_vector_to_gpkg]. *)
Theorem prepare_vector_gate (arcpy : ArcPy)
    (source_inputs prepared_outputs : gmap string Path) (tempspace : Path)
    (target_epsg : Z) (overwrite : bool) (key layer_name : string)
    (out_gpkg : Path) (w : World) :
  prepared_outputs !! key = Some out_gpkg →
  (Fs.path_exists (fs w) out_gpkg = true ↔
   prepare_vector arcpy source_inputs prepared_outputs tempspace target_epsg
     overwrite (key, layer_name) w = (Ok tt, w)) ∧
  (Fs.path_exists (fs w) out_gpkg = false →
   ∀ src_fc, source_inputs !! key = Some src_fc →
     prepare_vector arcpy source_inputs prepared_outputs tempspace target_epsg
       overwrite (key, layer_name) w
     = (prep_vector_to_gpkg arcpy src_fc out_gpkg layer_name target_epsg
          tempspace overwrite ≫= λ _, ret tt) w).
Proof.
  intros Hkey.
  pose proof (prepare_vector_run arcpy source_inputs prepared_outputs
                tempspace target_epsg overwrite key layer_name out_gpkg w
                Hkey) as Hrun.
  split.
  - rewrite Hrun. destruct (Fs.path_exists (fs w) out_gpkg); [done|].
    split; [done|]. intros Heq. exfalso.
    destruct (source_inputs !! key) as [src_fc|]; [|done].
    rewrite bind_run in Heq.
    pose proof (prep_vector_changes_world arcpy src_fc out_gpkg layer_name
                  target_epsg tempspace overwrite w) as Hne.
    destruct (prep_vector_to_gpkg arcpy src_fc out_gpkg layer_name target_epsg
                tempspace overwrite w) as [[p|e] w1]; simpl in *.
    + by injection Heq as ->.
    + done.
  - intros Hmiss src_fc Hsrc. by rewrite Hrun, Hmiss, Hsrc.
Qed.

Lemma prepare_vector_gate_witness :
  (Fs.path_exists (fs world_rasters_ready) ["prepared"; "vectors.gpkg"]%string
   = true ↔
   prepare_vector arcpy_fake source_catalog prepared_catalog ["tmp"%string]
     32604 true ("parcels", "parcels")%string world_rasters_ready
   = (Ok tt, world_rasters_ready)) ∧
  (Fs.path_exists (fs world_rasters_ready) ["prepared"; "vectors.gpkg"]%string
   = false →
   ∀ src_fc, source_catalog !! "parcels"%string = Some src_fc →
     prepare_vector arcpy_fake source_catalog prepared_catalog ["tmp"%string]
       32604 true ("parcels", "parcels")%string world_rasters_ready
     = (prep_vector_to_gpkg arcpy_fake src_fc ["prepared"; "vectors.gpkg"]%string
          "parcels" 32604 ["tmp"%string] true ≫= λ _, ret tt)
         world_rasters_ready).
Proof.
  apply (prepare_vector_gate arcpy_fake source_catalog prepared_catalog
           ["tmp"%string] 32604 true "parcels" "parcels"
           ["prepared"; "vectors.gpkg"]%string world_rasters_ready).
  vm_compute. reflexivity.
Defined.

(** C2 as stated fails.  After a first run over the catalog with one
    shared GeoPackage, the container is there, the layer [cesspools] is
    not, and the loop still skips [cesspools]: nothing is prepared. *)
Lemma vector_layer_missing_yet_skipped :
  arc_exists arcpy_fake
    (fs (prepare_source_inputs arcpy_fake source_catalog prepared_catalog
           ["tmp"%string] 32604 true world_rasters_ready).2)
    (gpkg_layer_path ["prepared"; "vectors.gpkg"]%string "cesspools")
  = false ∧
  prepare_vector arcpy_fake source_catalog prepared_catalog ["tmp"%string]
    32604 true ("cesspools", "cesspools")%string
    (prepare_source_inputs arcpy_fake source_catalog prepared_catalog
       ["tmp"%string] 32604 true world_rasters_ready).2
  = (Ok tt,
     (prepare_source_inputs arcpy_fake source_catalog prepared_catalog
        ["tmp"%string] 32604 true world_rasters_ready).2).
Proof.
  split; [vm_compute; reflexivity|].
  apply prepare_vector_skips with ["prepared"; "vectors.gpkg"]%string;
    vm_compute; reflexivity.
Qed.

(** ** The fast path of the orchestrator *)

Lemma prepared_exists_mono (key : string) (path : Path) (w w' : World) :
  prepared_exists key path w = (Ok true, w) →
  (∀ q, Fs.path_exists (fs w) q = true → Fs.path_exists (fs w') q = true) →
  prepared_exists key path w' = (Ok true, w').
Proof.
  unfold prepared_exists, raster_subfolder_path, with_suffix.
  intros H Hmono. destruct (bool_decide (key ∈ RASTER_KEYS)).
  - rewrite !bind_run in *. simpl in *.
    destruct (String.eqb (Pathlib.name path) ""); simpl in *; [done|].
    rewrite path_exists_run in *. injection H as H. by rewrite (Hmono _ H).
  - rewrite path_exists_run in *. injection H as H. by rewrite (Hmono _ H).
Qed.

Lemma filter_m_none_missing (l : list (string * Path)) (w : World) :
  Forall (λ kp, prepared_exists kp.1 kp.2 w = (Ok true, w)) l →
  filter_m (λ kp, done ← prepared_exists kp.1 kp.2; ret (negb done)) l w
  = (Ok [], w).
Proof.
  induction 1 as [|kp l Hkp _ IH]; [done|].
  simpl. rewrite !bind_run, Hkp. simpl. rewrite bind_run, IH. done.
Qed.

Lemma prepared_exists_world (key : string) (path : Path) (w : World) :
  (prepared_exists key path w).2 = w.
Proof.
  unfold prepared_exists, raster_subfolder_path, with_suffix.
  destruct (bool_decide (key ∈ RASTER_KEYS)); [|by rewrite path_exists_run].
  rewrite !bind_run. simpl.
  by destruct (String.eqb (Pathlib.name path) "").
Qed.

(** The check of a whole catalog, run as one boolean test. *)
Lemma prepared_exists_all (l : list (string * Path)) (w : World) :
  forallb (λ kp, match (prepared_exists kp.1 kp.2 w).1 with
                 | Ok b => b
                 | Raise _ => false
                 end) l = true →
  Forall (λ kp, prepared_exists kp.1 kp.2 w = (Ok true, w)) l.
Proof.
  intros H. apply Forall_forall. intros kp Hin.
  rewrite forallb_forall in H. specialize (H kp).
  pose proof (prepared_exists_world kp.1 kp.2 w) as Hw.
  destruct (prepared_exists kp.1 kp.2 w) as [[b|e] w']; simpl in *.
  - rewrite Hw, H; [done|]. by apply list_elem_of_In.
  - discriminate H. by apply list_elem_of_In.
Qed.

Lemma mkdir_p_existing_dir (c : string) (f : FS) :
  f !! [c] = Some Dir → Fs.mkdir_p [c] f = inr f.
Proof. intros H. unfold Fs.mkdir_p. simpl. by rewrite H. Qed.

Lemma run_eta {A : Type} (x : outcome A * World) (a : A) :
  x.1 = Ok a → x = (Ok a, x.2).
Proof. destruct x as [o w]. simpl. by intros ->. Qed.

Section Orchestrator.

Variable arcpy : ArcPy.

(** Whenever [prepare_source_inputs] returns, it returns the catalog it
    was given. *)
Lemma prepare_source_inputs_returns
    (source_inputs prepared_outputs : gmap string Path) (tempspace : Path)
    (target_epsg : Z) (overwrite : bool) (w w' : World) (m : gmap string Path) :
  prepare_source_inputs arcpy source_inputs prepared_outputs tempspace
    target_epsg overwrite w = (Ok m, w') →
  m = prepared_outputs.
Proof.
  unfold prepare_source_inputs. intros H.
  apply bind_ok in H as (_ & w1 & _ & H).
  apply bind_ok in H as (missing & w2 & _ & H).
  destruct missing as [|kp missing]; [by injection H as <-|].
  do 5 (apply bind_ok in H as (_ & ? & _ & H)).
  by injection H as <-.
Qed.

(** With every prepared output on disk, the orchestrator makes the
    scratch directory and returns the catalog. *)
Lemma prepare_source_inputs_fast
    (source_inputs prepared_outputs : gmap string Path) (tempspace : Path)
    (target_epsg : Z) (overwrite : bool) (w : World) (f : FS) :
  Forall (λ kp, prepared_exists kp.1 kp.2 w = (Ok true, w))
    (map_to_list prepared_outputs) →
  Fs.mkdir_p tempspace (fs w) = inr f →
  prepare_source_inputs arcpy source_inputs prepared_outputs tempspace
    target_epsg overwrite w
  = (Ok prepared_outputs, mkWorld f (events w ++ [EvFs f])).
Proof.
  intros Hall Hmk. unfold prepare_source_inputs.
  rewrite bind_run, ensure_dir_run, Hmk. rewrite bind_run.
  rewrite filter_m_none_missing; [done|].
  eapply Forall_impl; [exact Hall|]. intros kp Hkp.
  apply (prepared_exists_mono _ _ w); [done|].
  intros q. simpl. by apply mkdir_p_exists_mono with tempspace.
Qed.

End Orchestrator.

(** C1. Run the orchestrator, and suppose every prepared output exists in
    the world the run ends in.  A second run with the same arguments from
    that world calls the engine not once and returns the same manifest.
    (The scratch directory can still be made: no file sits on its path.) *)
Theorem prepare_source_inputs_idempotent (arcpy : ArcPy)
    (source_inputs prepared_outputs : gmap string Path) (tempspace : Path)
    (target_epsg : Z) (overwrite : bool) (w0 w1 : World)
    (m1 : gmap string Path) (f : FS) :
  prepare_source_inputs arcpy source_inputs prepared_outputs tempspace
    target_epsg overwrite w0 = (Ok m1, w1) →
  Forall (λ kp, prepared_exists kp.1 kp.2 w1 = (Ok true, w1))
    (map_to_list prepared_outputs) →
  Fs.mkdir_p tempspace (fs w1) = inr f →
  (prepare_source_inputs arcpy source_inputs prepared_outputs tempspace
     target_epsg overwrite w1).1 = Ok m1 ∧
  arc_calls (since w1 (prepare_source_inputs arcpy source_inputs prepared_outputs
                         tempspace target_epsg overwrite w1).2) = [].
Proof.
  intros Hrun1 Hall Hmk.
  apply prepare_source_inputs_returns in Hrun1 as ->.
  rewrite (prepare_source_inputs_fast arcpy _ _ _ _ _ _ f Hall Hmk). simpl.
  split; [done|]. by rewrite (since_app w1 _ [EvFs f]).
Qed.

Lemma prepare_source_inputs_idempotent_witness :
  (prepare_source_inputs arcpy_fake source_catalog prepared_catalog
     ["tmp"%string] 32604 true
     (prepare_source_inputs arcpy_fake source_catalog prepared_catalog
        ["tmp"%string] 32604 true world_rasters_ready).2).1
  = Ok prepared_catalog ∧
  arc_calls
    (since (prepare_source_inputs arcpy_fake source_catalog prepared_catalog
              ["tmp"%string] 32604 true world_rasters_ready).2
       (prepare_source_inputs arcpy_fake source_catalog prepared_catalog
          ["tmp"%string] 32604 true
          (prepare_source_inputs arcpy_fake source_catalog prepared_catalog
             ["tmp"%string] 32604 true world_rasters_ready).2).2) = [].
Proof.
  apply (prepare_source_inputs_idempotent arcpy_fake source_catalog
           prepared_catalog ["tmp"%string] 32604 true world_rasters_ready
           (prepare_source_inputs arcpy_fake source_catalog prepared_catalog
              ["tmp"%string] 32604 true world_rasters_ready).2
           prepared_catalog
           (fs (prepare_source_inputs arcpy_fake source_catalog
                  prepared_catalog ["tmp"%string] 32604 true
                  world_rasters_ready).2)).
  - apply run_eta. vm_compute. reflexivity.
  - apply prepared_exists_all. vm_compute. reflexivity.
  - apply mkdir_p_existing_dir. vm_compute. reflexivity.
Defined.

(** * Further properties of the code *)

(** ** More on the filesystem *)

Lemma mkdir_chain_is_dir (rest : list string) (pre : Path) (f f' : FS) :
  Fs.mkdir_chain pre rest f = inr f' →
  Fs.is_dir f pre = true → Fs.is_dir f' (pre ++ rest) = true.
Proof.
  revert pre f. induction rest as [|c rest IH]; intros pre f; simpl.
  - intros [= ->]. by rewrite app_nil_r.
  - intros H Hpre. rewrite (cons_middle c pre rest), app_assoc.
    assert (Hq : pre ++ [c] ≠ []) by (by destruct pre).
    destruct (f !! (pre ++ [c])) as [[|c0]|] eqn:Hf; [| done |].
    + apply (IH _ _ H). unfold Fs.is_dir. by rewrite stat_lookup, Hf.
    + apply (IH _ _ H). unfold Fs.is_dir.
      by rewrite stat_lookup, lookup_insert_eq.
Qed.

Lemma mkdir_p_is_dir (d : Path) (f f' : FS) :
  Fs.mkdir_p d f = inr f' → Fs.is_dir f' d = true.
Proof. intros H. by apply (mkdir_chain_is_dir d [] f f' H). Qed.

Lemma unlink_run (p : Path) (w : World) :
  unlink p w
  = match Fs.stat (fs w) p with
    | Some (File _) =>
        (Ok tt, mkWorld (delete p (fs w)) (events w ++ [EvFs (delete p (fs w))]))
    | Some Dir => (Raise (OSError (Pathlib.render p)), w)
    | None => (Raise (FileNotFoundError (Pathlib.render p)), w)
    end.
Proof.
  unfold unlink. rewrite bind_run. simpl.
  by destruct (Fs.stat (fs w) p) as [[|c]|].
Qed.

Lemma write_bytes_run (p : Path) (d : bytes) (w : World) :
  Fs.is_dir (fs w) (Pathlib.parent p) = true →
  Fs.stat (fs w) p ≠ Some Dir →
  write_bytes p d w
  = (Ok tt, mkWorld (<[p := File d]> (fs w))
              (events w ++ [EvFs (<[p := File d]> (fs w))])).
Proof.
  intros Hpar Hp. unfold write_bytes. rewrite bind_run. simpl. rewrite Hpar.
  simpl. by destruct (Fs.stat (fs w) p) as [[|c]|].
Qed.

Section Zip.

Variable net : Net.
Variable host : Host.

Lemma requests_get_run (site : req_site) (url : string) (w : World) :
  requests_get net site url w
  = (match http_get net w url with
     | ConnectionFailed => Raise (RequestException url)
     | r => Ok r
     end,
     mkWorld (fs w) (events w ++ [EvRequest site url [] (fs w)])).
Proof. unfold requests_get. by destruct (http_get net w url). Qed.

Lemma raise_for_status_run (r : response) (w : World) :
  raise_for_status r w
  = (if reply_ok r then Ok tt else Raise (HTTPError "status"), w).
Proof. by destruct r as [|[] c j]. Qed.

End Zip.

Lemma download_and_unzip_bad_reply_run (net : Net) (host : Host)
    (dataset_id url : string) (raw_dir : Path) (w : World) (f1 : FS) :
  Fs.mkdir_p (Pathlib.joinpath raw_dir dataset_id) (fs w) = inr f1 →
  (∀ w', reply_ok (http_get net w' url) = false) →
  ∃ e,
    download_and_unzip net host dataset_id url raw_dir w
    = (Raise e,
       mkWorld f1
         (events w ++
          [EvFs f1;
           EvRequest
             (ZipGet (Pathlib.joinpath (Pathlib.joinpath raw_dir dataset_id)
                        (dataset_id ++ ".zip")))
             url [] f1])).
Proof.
  intros Hmk Hbad. unfold download_and_unzip.
  rewrite bind_run, ensure_dir_run, Hmk. rewrite bind_run, requests_get_run.
  cbn [fs events]. rewrite <- app_assoc. cbn [app].
  match goal with |- context [http_get net ?w1 url] =>
    specialize (Hbad w1); destruct (http_get net w1 url) as [|ok c j] eqn:Hr end.
  - eauto.
  - rewrite bind_run, raise_for_status_run, Hbad. eauto.
Qed.

Lemma mkdir_p_fresh2 (a b : string) :
  Fs.mkdir_p [a; b] ∅ = inr (<[ [a; b] := Dir ]> (<[ [a] := Dir ]> ∅)).
Proof.
  unfold Fs.mkdir_p. cbn [Fs.mkdir_chain app].
  by rewrite lookup_empty, lookup_insert_ne, lookup_empty.
Qed.

(** X1. A ZIP source whose server does not answer with a good status makes
    [download_and_unzip] raise right after the request: the dataset folder
    has been created, and nothing else is written. *)
Theorem download_and_unzip_bad_reply (net : Net) (host : Host)
    (dataset_id url : string) (raw_dir : Path) (w : World) (f1 : FS) :
  Fs.mkdir_p (Pathlib.joinpath raw_dir dataset_id) (fs w) = inr f1 →
  (∀ w', reply_ok (http_get net w' url) = false) →
  ∃ e,
    download_and_unzip net host dataset_id url raw_dir w
    = (Raise e,
       mkWorld f1
         (events w ++
          [EvFs f1;
           EvRequest
             (ZipGet (Pathlib.joinpath (Pathlib.joinpath raw_dir dataset_id)
                        (dataset_id ++ ".zip")))
             url [] f1])).
Proof. apply download_and_unzip_bad_reply_run. Qed.

Lemma download_and_unzip_bad_reply_witness :
  ∃ e,
    download_and_unzip net_not_found host_bare "coastline_hi_op"
      "https://files.test/coastline.shp.zip" ["raw"%string] empty_world
    = (Raise e,
       mkWorld fs_coastline_folder
         (events empty_world ++
          [EvFs fs_coastline_folder;
           EvRequest
             (ZipGet (Pathlib.joinpath (Pathlib.joinpath ["raw"%string] "coastline_hi_op")
                        ("coastline_hi_op" ++ ".zip")))
             "https://files.test/coastline.shp.zip" []
             fs_coastline_folder])).
Proof.
  apply (download_and_unzip_bad_reply net_not_found host_bare "coastline_hi_op"
           "https://files.test/coastline.shp.zip" ["raw"%string] empty_world).
  - apply (mkdir_p_fresh2 "raw" "coastline_hi_op").
  - intros w'. reflexivity.
Defined.

(** X2. A file that is not a ZIP archive is left where it was saved:
    [download_and_unzip] raises [BadZipFile] after writing the reply to
    [<dataset_id>.zip], and nothing removes that file. *)
Theorem download_and_unzip_keeps_bad_archive (net : Net) (host : Host)
    (dataset_id url : string) (raw_dir : Path) (w : World) (f1 : FS)
    (body : bytes) (js : option (list gh_item)) :
  Fs.mkdir_p (Pathlib.joinpath raw_dir dataset_id) (fs w) = inr f1 →
  f1 !! Pathlib.joinpath (Pathlib.joinpath raw_dir dataset_id)
          (dataset_id ++ ".zip") ≠ Some Dir →
  (∀ w', http_get net w' url = Response true body js) →
  zip_entries host body = None →
  (download_and_unzip net host dataset_id url raw_dir w).1 = Raise BadZipFile ∧
  fs (download_and_unzip net host dataset_id url raw_dir w).2
    !! Pathlib.joinpath (Pathlib.joinpath raw_dir dataset_id) (dataset_id ++ ".zip")
  = Some (File body).
Proof.
  intros Hmk Hnd Hr Hzip. unfold download_and_unzip.
  set (out_folder := Pathlib.joinpath raw_dir dataset_id) in *.
  set (zip_path := Pathlib.joinpath out_folder (dataset_id ++ ".zip")) in *.
  assert (Hz : zip_path ≠ []) by (unfold zip_path, Pathlib.joinpath; by destruct out_folder).
  rewrite bind_run, ensure_dir_run, Hmk. rewrite bind_run, requests_get_run, Hr.
  rewrite bind_run, raise_for_status_run. cbn [reply_ok].
  rewrite bind_run, write_bytes_run; cbn [fs events content_of].
  - rewrite bind_run. unfold extractall. rewrite bind_run. cbn [get_fs fs].
    rewrite stat_lookup, lookup_insert_eq, Hzip by done. simpl.
    split; [done | apply lookup_insert_eq].
  - unfold zip_path. rewrite parent_joinpath. by apply (mkdir_p_is_dir _ (fs w)).
  - by rewrite stat_lookup.
Qed.

Lemma download_and_unzip_keeps_bad_archive_witness :
  (download_and_unzip net_static host_bare "coastline_hi_op"
     "https://files.test/coastline.shp.zip" ["raw"%string] empty_world).1
  = Raise BadZipFile ∧
  fs (download_and_unzip net_static host_bare "coastline_hi_op"
        "https://files.test/coastline.shp.zip" ["raw"%string] empty_world).2
    !! Pathlib.joinpath (Pathlib.joinpath ["raw"%string] "coastline_hi_op")
         ("coastline_hi_op" ++ ".zip")
  = Some (File (ascii_bytes "PK")).
Proof.
  apply (download_and_unzip_keeps_bad_archive net_static host_bare
           "coastline_hi_op" "https://files.test/coastline.shp.zip"
           ["raw"%string] empty_world
           fs_coastline_folder
           (ascii_bytes "PK") None).
  - apply (mkdir_p_fresh2 "raw" "coastline_hi_op").
  - vm_compute. discriminate.
  - intros w'. reflexivity.
  - reflexivity.
Defined.

(** X3. Whenever [download_and_unzip] returns, the archive it downloaded
    is gone from disk. *)
Theorem download_and_unzip_removes_archive (net : Net) (host : Host)
    (dataset_id url : string) (raw_dir : Path) (w w' : World) :
  download_and_unzip net host dataset_id url raw_dir w = (Ok tt, w') →
  fs w' !! Pathlib.joinpath (Pathlib.joinpath raw_dir dataset_id)
             (dataset_id ++ ".zip") = None.
Proof.
  unfold download_and_unzip. intros H.
  do 5 (apply bind_ok in H as (? & ? & _ & H)).
  rewrite unlink_run in H.
  match type of H with context [Fs.stat ?f ?p] =>
    destruct (Fs.stat f p) as [[|c]|]; [done | | done] end.
  injection H as <-. apply lookup_delete_eq.
Qed.

Lemma download_and_unzip_removes_archive_witness :
  fs (download_and_unzip net_catalog host_gdal "coastline_hi_op"
        "https://files.test/coastline.shp.zip" ["raw"%string] empty_world).2
  !! Pathlib.joinpath (Pathlib.joinpath ["raw"%string] "coastline_hi_op")
       ("coastline_hi_op" ++ ".zip") = None.
Proof.
  apply (download_and_unzip_removes_archive net_catalog host_gdal
           "coastline_hi_op" "https://files.test/coastline.shp.zip"
           ["raw"%string] empty_world).
  apply run_eta. vm_compute. reflexivity.
Defined.

(** X4. [main] has no error handling of its own: when the first ZIP source
    cannot be fetched the whole acquisition stops there.  One request has
    gone out; no other ZIP source, no folder and no DEM is touched. *)
Theorem main_stops_at_first_failure (net : Net) (host : Host) (depth : nat)
    (raw_dir : Path) (dataset_id url : string)
    (zip_sources github_datasets : list (string * string))
    (pacioos_dem_dir pacioos_ncss_base : string)
    (pacioos_dem_dataset_ids : list string)
    (overwrite overwrite_dem_tif overwrite_dem_nc : bool) (w : World) (f1 : FS) :
  Fs.mkdir_p (Pathlib.joinpath raw_dir dataset_id) (fs w) = inr f1 →
  (∀ w', reply_ok (http_get net w' url) = false) →
  ∃ e,
    main net host depth raw_dir ((dataset_id, url) :: zip_sources)
      github_datasets pacioos_dem_dir pacioos_ncss_base pacioos_dem_dataset_ids
      overwrite overwrite_dem_tif overwrite_dem_nc w
    = (Raise e,
       mkWorld f1
         (events w ++
          [EvFs f1;
           EvRequest
             (ZipGet (Pathlib.joinpath (Pathlib.joinpath raw_dir dataset_id)
                        (dataset_id ++ ".zip")))
             url [] f1])).
Proof.
  intros Hmk Hbad.
  destruct (download_and_unzip_bad_reply_run net host dataset_id url raw_dir w
              f1 Hmk Hbad) as [e He].
  exists e. unfold main. rewrite bind_run. cbn [for_each fst snd].
  by rewrite bind_run, He.
Qed.

Lemma main_stops_at_first_failure_witness :
  ∃ e,
    main net_not_found host_bare 8 ["raw"%string]
      (("coastline_hi_op", "https://files.test/coastline.shp.zip")
       :: [("sma_hi_op", "https://files.test/sma.shp.zip")])%string
      [("slope_hi_hcpt", "https://api.test/contents/Slope_WGS")]%string
      "dem_hi_pacioos" "https://ncss.test" ["usgs_dem_10m_oahu"%string]
      false false false empty_world
    = (Raise e,
       mkWorld fs_coastline_folder
         (events empty_world ++
          [EvFs fs_coastline_folder;
           EvRequest
             (ZipGet (Pathlib.joinpath (Pathlib.joinpath ["raw"%string] "coastline_hi_op")
                        ("coastline_hi_op" ++ ".zip")))
             "https://files.test/coastline.shp.zip" []
             fs_coastline_folder])).
Proof.
  apply (main_stops_at_first_failure net_not_found host_bare 8 ["raw"%string]
           "coastline_hi_op" "https://files.test/coastline.shp.zip"
           [("sma_hi_op", "https://files.test/sma.shp.zip")]%string
           [("slope_hi_hcpt", "https://api.test/contents/Slope_WGS")]%string
           "dem_hi_pacioos" "https://ncss.test" ["usgs_dem_10m_oahu"%string]
           false false false empty_world).
  - apply (mkdir_p_fresh2 "raw" "coastline_hi_op").
  - intros w'. reflexivity.
Defined.

(** X5. The file of a mirrored folder is saved whatever the status of the
    reply: [_download_folder] checks the status of a listing, not of a
    file, so the body of an error page ends up on disk under the name of
    the file. *)
Theorem download_item_saves_any_reply (net : Net) (overwrite : bool)
    (dest : Path) (recurse : string → Path → M unit) (item : gh_item)
    (status_ok : bool) (body : bytes) (js : option (list gh_item)) (w : World) :
  item_type item = "file"%string →
  Fs.path_exists (fs w) (Pathlib.joinpath dest (item_name item)) && negb overwrite
  = false →
  Fs.is_dir (fs w) dest = true →
  fs w !! Pathlib.joinpath dest (item_name item) ≠ Some Dir →
  http_get net w (item_download_url item) = Response status_ok body js →
  download_item net overwrite dest recurse item w
  = (Ok tt,
     mkWorld (<[Pathlib.joinpath dest (item_name item) := File body]> (fs w))
       (events w ++
        [EvRequest (FileGet (Pathlib.joinpath dest (item_name item)))
           (item_download_url item) [] (fs w);
         EvFs (<[Pathlib.joinpath dest (item_name item) := File body]> (fs w))])).
Proof.
  intros Hty Hskip Hdir Hnd Hr. unfold download_item. rewrite Hty, String.eqb_refl.
  rewrite bind_run, path_exists_run, Hskip.
  rewrite bind_run, requests_get_run, Hr. cbn [fs events].
  rewrite write_bytes_run; cbn [fs events content_of].
  - by rewrite <- app_assoc.
  - by rewrite parent_joinpath.
  - rewrite stat_lookup; [done|]. unfold Pathlib.joinpath. by destruct dest.
Qed.

Lemma download_item_saves_any_reply_witness :
  download_item net_not_found false ["raw"%string] (λ _ _, ret tt) item_slope
    world_raw
  = (Ok tt,
     mkWorld (<[Pathlib.joinpath ["raw"%string] (item_name item_slope)
                := File (ascii_bytes "404: Not Found")]> (fs world_raw))
       (events world_raw ++
        [EvRequest (FileGet (Pathlib.joinpath ["raw"%string] (item_name item_slope)))
           (item_download_url item_slope) [] (fs world_raw);
         EvFs (<[Pathlib.joinpath ["raw"%string] (item_name item_slope)
                 := File (ascii_bytes "404: Not Found")]> (fs world_raw))])).
Proof.
  apply (download_item_saves_any_reply net_not_found false ["raw"%string]
           (λ _ _, ret tt) item_slope false (ascii_bytes "404: Not Found") None
           world_raw).
  - reflexivity.
  - vm_compute. reflexivity.
  - vm_compute. reflexivity.
  - vm_compute. discriminate.
  - reflexivity.
Defined.

(** ** Conversion of a downloaded NetCDF *)

Lemma unlink_if_exists_run (p : Path) (w : World) :
  p ≠ [] → fs w !! p ≠ Some Dir →
  ∃ evs,
    unlink_if_exists p w = (Ok tt, mkWorld (delete p (fs w)) (events w ++ evs)) ∧
    Forall is_fs_event evs.
Proof.
  intros Hp Hnd. unfold unlink_if_exists.
  rewrite bind_run, path_exists_run. unfold Fs.path_exists.
  rewrite stat_lookup by done.
  destruct (fs w !! p) as [[|c]|] eqn:Hl; [done | |].
  - rewrite unlink_run, stat_lookup, Hl by done.
    eexists. split; [done|]. by repeat constructor.
  - exists []. rewrite app_nil_r, delete_id by done. split; [by destruct w | done].
Qed.

Lemma name_nonempty_path (p : Path) : Pathlib.name p ≠ ""%string → p ≠ [].
Proof. by intros H ->. Qed.

(** X6. With the GeoTIFF on disk and [overwrite_tif] off,
    [nc_to_geotiff_and_delete] converts nothing: it removes the NetCDF and
    the sidecar of its download if they are there, starts no process, and
    leaves everything else as it was. *)
Theorem nc_to_geotiff_skip_cleans_up (host : Host) (nc_path tif_path : Path)
    (w : World) :
  Fs.path_exists (fs w) tif_path = true →
  Pathlib.name nc_path ≠ ""%string →
  fs w !! nc_path ≠ Some Dir →
  fs w !! sidecar_of nc_path ≠ Some Dir →
  (nc_to_geotiff_and_delete host nc_path tif_path false w).1 = Ok tt ∧
  fs (nc_to_geotiff_and_delete host nc_path tif_path false w).2
  = delete (sidecar_of nc_path) (delete nc_path (fs w)) ∧
  Forall is_fs_event
    (since w (nc_to_geotiff_and_delete host nc_path tif_path false w).2).
Proof.
  intros Htif Hname Hnc Hpart. unfold nc_to_geotiff_and_delete.
  rewrite bind_run, path_exists_run, Htif. cbn [negb andb].
  destruct (unlink_if_exists_run nc_path w (name_nonempty_path _ Hname) Hnc)
    as (evs1 & Hrun1 & Hfs1).
  rewrite bind_run, Hrun1, bind_run, (with_suffix_part nc_path _ Hname).
  fold (sidecar_of nc_path).
  destruct (unlink_if_exists_run (sidecar_of nc_path)
              (mkWorld (delete nc_path (fs w)) (events w ++ evs1)))
    as (evs2 & Hrun2 & Hfs2).
  { unfold sidecar_of, Pathlib.joinpath. by destruct (Pathlib.parent nc_path). }
  { cbn [fs]. rewrite lookup_delete_ne; [done|]. apply not_eq_sym, sidecar_neq. }
  rewrite Hrun2. cbn [fst snd fs events]. split_and!; [done..|].
  rewrite (since_app w _ (evs1 ++ evs2)) by (by rewrite app_assoc).
  by apply Forall_app.
Qed.

Lemma nc_to_geotiff_skip_cleans_up_witness :
  (nc_to_geotiff_and_delete host_bare ["raw"; "oahu.nc"]%string
     ["raw"; "oahu.tif"]%string false world_dem_leftovers).1 = Ok tt ∧
  fs (nc_to_geotiff_and_delete host_bare ["raw"; "oahu.nc"]%string
        ["raw"; "oahu.tif"]%string false world_dem_leftovers).2
  = delete (sidecar_of ["raw"; "oahu.nc"]%string)
      (delete ["raw"; "oahu.nc"]%string (fs world_dem_leftovers)) ∧
  Forall is_fs_event
    (since world_dem_leftovers
       (nc_to_geotiff_and_delete host_bare ["raw"; "oahu.nc"]%string
          ["raw"; "oahu.tif"]%string false world_dem_leftovers).2).
Proof.
  apply (nc_to_geotiff_skip_cleans_up host_bare ["raw"; "oahu.nc"]%string
           ["raw"; "oahu.tif"]%string world_dem_leftovers).
  - vm_compute. reflexivity.
  - vm_compute. discriminate.
  - vm_compute. discriminate.
  - vm_compute. discriminate.
Defined.



(** X8. A conversion that succeeds is followed by the removal of the
    NetCDF: one process is started, [gdal_translate] reading the
    [elev] variable of the NetCDF and writing the GeoTIFF, and afterwards
    the filesystem is the one the process left, without the NetCDF. *)
Theorem nc_to_geotiff_converts_then_deletes (host : Host)
    (nc_path tif_path : Path) (overwrite_tif : bool) (w : World)
    (gdal_translate : string) (f2 : FS) (c : bytes) :
  Fs.path_exists (fs w) tif_path && negb overwrite_tif = false →
  which host "gdal_translate" = Some gdal_translate →
  gdal_translate ≠ ""%string →
  Fs.path_exists (fs w) nc_path = true →
  run_process host (gdal_command gdal_translate nc_path tif_path) (fs w) = Some f2 →
  Fs.stat f2 nc_path = Some (File c) →
  nc_to_geotiff_and_delete host nc_path tif_path overwrite_tif w
  = (Ok tt,
     mkWorld (delete nc_path f2)
       (events w ++ [EvProc (gdal_command gdal_translate nc_path tif_path);
                     EvFs f2; EvFs (delete nc_path f2)])).
Proof.
  intros Hskip Hw Hg Hnc Hrun Hst. unfold nc_to_geotiff_and_delete.
  rewrite bind_run, path_exists_run, Hskip, Hw.
  destruct gdal_translate as [|a g]; [done|].
  rewrite bind_run, path_exists_run, Hnc. cbn [negb].
  rewrite bind_run. unfold subprocess_run.
  rewrite bind_run. cbn [emit]. rewrite bind_run. cbn [get_fs fs].
  rewrite Hrun. cbn [set_fs fs events]. rewrite unlink_run. cbn [fs events].
  rewrite Hst. by rewrite <- !app_assoc.
Qed.

Lemma nc_to_geotiff_converts_then_deletes_witness :
  nc_to_geotiff_and_delete host_converts ["raw"; "oahu.nc"]%string
    ["raw"; "oahu.tif"]%string false world_dem_downloaded
  = (Ok tt,
     mkWorld
       (delete ["raw"; "oahu.nc"]%string
          (<[ ["raw"; "oahu.tif"]%string := File (ascii_bytes "II*") ]>
             (fs world_dem_downloaded)))
       (events world_dem_downloaded ++
        [EvProc (gdal_command "/usr/bin/gdal_translate"
                   ["raw"; "oahu.nc"]%string ["raw"; "oahu.tif"]%string);
         EvFs (<[ ["raw"; "oahu.tif"]%string := File (ascii_bytes "II*") ]>
                 (fs world_dem_downloaded));
         EvFs (delete ["raw"; "oahu.nc"]%string
                 (<[ ["raw"; "oahu.tif"]%string := File (ascii_bytes "II*") ]>
                    (fs world_dem_downloaded)))])).
Proof.
  apply (nc_to_geotiff_converts_then_deletes host_converts
           ["raw"; "oahu.nc"]%string ["raw"; "oahu.tif"]%string false
           world_dem_downloaded "/usr/bin/gdal_translate"
           (<[ ["raw"; "oahu.tif"]%string := File (ascii_bytes "II*") ]>
              (fs world_dem_downloaded))
           (ascii_bytes "CDF")).
  - vm_compute. reflexivity.
  - reflexivity.
  - discriminate.
  - vm_compute. reflexivity.
  - reflexivity.
  - vm_compute. reflexivity.
Defined.

(** ** A streamed download that succeeds *)

Lemma open_write_truncate (p : Path) (w : World) :
  p ≠ [] → Fs.is_dir (fs w) (Pathlib.parent p) = true → fs w !! p ≠ Some Dir →
  open_write p ModeWb w
  = (Ok tt, mkWorld (<[p := File []]> (fs w))
              (events w ++ [EvFs (<[p := File []]> (fs w))])).
Proof.
  intros Hp Hdir Hnd. unfold open_write. rewrite bind_run. cbn [get_fs fst snd].
  rewrite Hdir, stat_lookup by done. cbn [negb].
  by destruct (fs w !! p) as [[|c]|].
Qed.

Lemma open_write_append (p : Path) (c : bytes) (w : World) :
  p ≠ [] → Fs.is_dir (fs w) (Pathlib.parent p) = true →
  fs w !! p = Some (File c) →
  open_write p ModeAb w = (Ok tt, w).
Proof.
  intros Hp Hdir Hc. unfold open_write. rewrite bind_run. cbn [get_fs fst snd].
  by rewrite Hdir, stat_lookup, Hc by done.
Qed.

Lemma replace_run (src dst : Path) (n : node) (w : World) :
  Fs.stat (fs w) src = Some n →
  Fs.stat (fs w) dst = None →
  Fs.is_dir (fs w) (Pathlib.parent dst) = true →
  replace src dst w
  = (Ok tt, mkWorld (<[dst := n]> (delete src (fs w)))
              (events w ++ [EvFs (<[dst := n]> (delete src (fs w)))])).
Proof.
  intros Hs Hd Hdir. unfold replace. rewrite bind_run. cbn [get_fs fst snd].
  by rewrite Hs, Hd, Hdir.
Qed.

Section Delivery.

Variable net : Net.

(** One attempt against a server that delivers the whole body: the
    sidecar is opened, either emptied or kept as the mode says, the body is
    added to it, and the sidecar takes the place of the destination. *)
Lemma stream_attempt_delivers (url : string) (out_path tmp_path : Path)
    (h : list (string * string)) (rp : Z) (chunks : list bytes)
    (start : bytes) (w : World) :
  tmp_path ≠ [] → out_path ≠ [] → tmp_path ≠ out_path →
  Pathlib.parent tmp_path = Pathlib.parent out_path →
  Fs.is_dir (fs w) (Pathlib.parent out_path) = true →
  fs w !! out_path = None →
  http_get_stream net w url h = StreamBody chunks true →
  (if has_range h && (0 <? rp) then fs w !! tmp_path = Some (File start)
   else fs w !! tmp_path ≠ Some Dir ∧ start = []) →
  ∃ evs,
    stream_attempt net url out_path tmp_path h rp w
    = (Ok tt,
       mkWorld (<[out_path := File (start ++ concat chunks)]>
                  (delete tmp_path (fs w)))
         (events w ++ EvRequest (StreamGet out_path) url h (fs w) :: evs)) ∧
    Forall is_fs_event evs.
Proof.
  intros Htmp Hout Hne Hpar Hdir Hmiss Hresp Hmode.
  assert (Hnpar : tmp_path ≠ Pathlib.parent out_path).
  { intros Heq. pose proof (parent_length tmp_path Htmp) as Hlen.
    rewrite Hpar, <- Heq in Hlen. lia. }
  assert (Hkeep : ∀ (g : FS) (c : bytes),
            Fs.is_dir g (Pathlib.parent out_path) = true →
            Fs.is_dir (<[tmp_path := File c]> g) (Pathlib.parent out_path) = true).
  { intros g c. unfold Fs.is_dir.
    destruct (Pathlib.parent out_path) as [|x par] eqn:Epar; [done|].
    rewrite !stat_lookup by done. by rewrite lookup_insert_ne. }
  unfold stream_attempt. rewrite bind_run. unfold requests_get_stream.
  rewrite Hresp. rewrite bind_run.
  set (w1 := mkWorld (fs w) (events w ++ [EvRequest (StreamGet out_path) url h (fs w)])).
  assert (Hopen : ∃ evsO g,
            open_write tmp_path
              (if has_range h && (0 <? rp) then ModeAb else ModeWb) w1
            = (Ok tt, mkWorld g (events w1 ++ evsO)) ∧
            Forall is_fs_event evsO ∧
            g !! tmp_path = Some (File start) ∧
            delete tmp_path g = delete tmp_path (fs w) ∧
            g !! out_path = None ∧
            Fs.is_dir g (Pathlib.parent out_path) = true).
  { destruct (has_range h && (0 <? rp)).
    - exists [], (fs w). rewrite app_nil_r.
      rewrite (open_write_append tmp_path start w1); [done.. | by rewrite Hpar | done].
    - destruct Hmode as [Hnd ->].
      exists [EvFs (<[tmp_path := File []]> (fs w))], (<[tmp_path := File []]> (fs w)).
      rewrite (open_write_truncate tmp_path w1); [| done | by rewrite Hpar | done].
      split_and!; [done | by repeat constructor | apply lookup_insert_eq
                  | apply delete_insert_eq | by rewrite lookup_insert_ne
                  | by apply Hkeep]. }
  destruct Hopen as (evsO & g & Hopen & HevO & Hg & Hdel & Hgout & Hgdir).
  rewrite Hopen. cbn [fst snd]. rewrite bind_run. unfold write_body.
  rewrite bind_run. cbn [fst snd].
  destruct (write_chunks_run tmp_path chunks Htmp start
              (mkWorld g (events w1 ++ evsO)) Hg) as (evsW & HrunW & HevW).
  rewrite HrunW. unfold ret. cbn [fst snd fs events].
  rewrite (replace_run tmp_path out_path (File (start ++ concat chunks))).
  - cbn [fs events]. eexists. split.
    + rewrite delete_insert_eq, Hdel. unfold w1. cbn [events].
      rewrite <- !app_assoc. reflexivity.
    + apply Forall_app. split; [done|]. apply Forall_app. split; [done|].
      by repeat constructor.
  - cbn [fs]. rewrite stat_lookup by done. apply lookup_insert_eq.
  - cbn [fs]. rewrite stat_lookup by done. by rewrite lookup_insert_ne.
  - cbn [fs]. by apply Hkeep.
Qed.

End Delivery.

Lemma sidecar_nonempty (out_path : Path) : sidecar_of out_path ≠ [].
Proof.
  unfold sidecar_of, Pathlib.joinpath. by destruct (Pathlib.parent out_path).
Qed.

Lemma mkdir_parent_sidecar (out_path : Path) (f f' : FS) :
  Fs.mkdir_p (Pathlib.parent out_path) f = inr f' →
  f' !! sidecar_of out_path = f !! sidecar_of out_path.
Proof.
  intros H. apply (mkdir_chain_other _ _ _ _ _ H). unfold sidecar_of, Pathlib.joinpath.
  rewrite length_app. simpl. lia.
Qed.

(** What [download_streaming] computes before its loop, in terms of the
    bytes it is going to keep. *)
Lemma resume_headers (overwrite : bool) (f : FS) (tmp : Path) :
  tmp ≠ [] → f !! tmp ≠ Some Dir →
  let kept := if overwrite then [] else file_content f tmp in
  let rp := if Fs.path_exists f tmp then Fs.st_size f tmp else 0 in
  (if (0 <? rp) && negb overwrite
   then [("Range"%string, ("bytes=" ++ pretty rp ++ "-")%string)]
   else []) = range_from kept ∧
  rp = Z.of_nat (length (file_content f tmp)) ∧
  (if has_range (range_from kept) && (0 <? rp)
   then f !! tmp = Some (File kept)
   else f !! tmp ≠ Some Dir ∧ (kept = [] ∨ overwrite = true)).
Proof.
  intros Htmp Hnd. unfold Fs.path_exists, Fs.st_size, file_content.
  rewrite stat_lookup by done.
  destruct (f !! tmp) as [[|[|b c]]|] eqn:Hl; [done | | |].
  - cbn. destruct overwrite; cbn; auto.
  - cbn [length]. replace (0 <? Z.of_nat (S (length c))) with true
      by (symmetry; apply Z.ltb_lt; lia).
    destruct overwrite; cbn [negb andb range_from has_range existsb fst
                              String.eqb orb].
    + split_and!; [done..|]. auto.
    + split_and!; [done..|].
      change (String.eqb "Range" "Range") with true. cbn [orb andb].
      replace (0 <? Z.of_nat (S (length c))) with true
        by (symmetry; apply Z.ltb_lt; lia).
      done.
  - cbn. destruct overwrite; cbn; auto.
Qed.

Lemma download_streaming_delivers_run (net : Net) (url : string)
    (out_path : Path) (overwrite : bool) (retries : Z) (w : World) (f1 : FS)
    (chunks : list bytes) :
  Fs.path_exists (fs w) out_path = false →
  Fs.mkdir_p (Pathlib.parent out_path) (fs w) = inr f1 →
  Pathlib.name out_path ≠ ""%string →
  fs w !! sidecar_of out_path ≠ Some Dir →
  0 < retries →
  (∀ w', http_get_stream net w' url
           (range_from (if overwrite then []
                        else file_content (fs w) (sidecar_of out_path)))
         = StreamBody chunks true) →
  ∃ evs,
    download_streaming net url out_path overwrite retries w
    = (Ok tt,
       mkWorld
         (<[out_path := File ((if overwrite then []
                               else file_content (fs w) (sidecar_of out_path))
                              ++ concat chunks)]>
            (delete (sidecar_of out_path) f1))
         (events w ++
          EvFs f1
          :: EvRequest (StreamGet out_path) url
               (range_from (if overwrite then []
                            else file_content (fs w) (sidecar_of out_path))) f1
          :: evs)) ∧
    Forall is_fs_event evs ∧
    Fs.st_size f1 (sidecar_of out_path)
    = Z.of_nat (length (file_content (fs w) (sidecar_of out_path))).
Proof.
  intros Hmiss Hmk Hname Hnd Hret Hresp.
  apply path_exists_false in Hmiss as [Hout Hmiss].
  pose proof (mkdir_parent_sidecar out_path _ _ Hmk) as Hside.
  pose proof (mkdir_parent_other out_path _ _ Hmk) as Hout1.
  pose proof (resume_headers overwrite f1 (sidecar_of out_path)
                (sidecar_nonempty out_path)) as Hres.
  assert (Hfc : file_content f1 (sidecar_of out_path)
                = file_content (fs w) (sidecar_of out_path)).
  { unfold file_content. by rewrite Hside. }
  rewrite Hside in Hres. specialize (Hres Hnd).
  cbv zeta in Hres. rewrite Hfc in Hres. destruct Hres as (Hhead & Hrp & Hmode).
  unfold download_streaming. rewrite bind_run, path_exists_run.
  unfold Fs.path_exists at 1. rewrite stat_lookup, Hmiss by done. cbn [andb].
  rewrite bind_run, ensure_dir_run, Hmk.
  rewrite bind_run, (with_suffix_part out_path _ Hname).
  fold (sidecar_of out_path).
  rewrite bind_run, path_exists_run, bind_run. cbn [get_fs fst snd fs].
  rewrite Hhead. rewrite bind_run.
  destruct (Z.to_nat retries) as [|k] eqn:Hk; [lia|].
  cbn [attempts]. rewrite bind_run. unfold try.
  set (w1 := mkWorld f1 (events w ++ [EvFs f1])).
  set (kept := if overwrite then [] else file_content (fs w) (sidecar_of out_path)) in *.
  destruct (stream_attempt_delivers net url out_path (sidecar_of out_path)
              (range_from kept)
              (if Fs.path_exists f1 (sidecar_of out_path)
               then Fs.st_size f1 (sidecar_of out_path) else 0)
              chunks kept w1) as (evs & Hrun & Hev).
  - apply sidecar_nonempty.
  - done.
  - apply sidecar_neq.
  - unfold sidecar_of. apply parent_joinpath.
  - by apply (mkdir_p_is_dir _ (fs w)).
  - unfold w1. cbn [fs]. by rewrite Hout1.
  - apply Hresp.
  - unfold w1. cbn [fs]. rewrite Hside.
    destruct (has_range (range_from kept) && _); [done|].
    destruct Hmode as [? [? | ->]]; [done | done].
  - rewrite Hrun. unfold ret. cbn [fst snd fs events].
    exists evs. unfold w1. cbn [fs events]. rewrite <- app_assoc.
    split_and!; [done | done |]. rewrite <- Hrp.
    unfold Fs.path_exists, Fs.st_size.
    by destruct (Fs.stat f1 (sidecar_of out_path)) as [[|c]|].
Qed.

(** X9. The first attempt of [download_streaming] against a server that
    delivers: one request goes out, with a [Range] header exactly when
    [overwrite] is off and the sidecar holds bytes, and no wait follows.
    Afterwards the destination holds the bytes kept from the sidecar
    followed by the body received, the sidecar is gone, and nothing else
    differs from the filesystem in which the folder of the destination
    exists. *)
Theorem download_streaming_delivers (net : Net) (url : string)
    (out_path : Path) (overwrite : bool) (retries : Z) (w : World) (f1 : FS)
    (chunks : list bytes) :
  Fs.path_exists (fs w) out_path = false →
  Fs.mkdir_p (Pathlib.parent out_path) (fs w) = inr f1 →
  Pathlib.name out_path ≠ ""%string →
  fs w !! sidecar_of out_path ≠ Some Dir →
  0 < retries →
  (∀ w', http_get_stream net w' url
           (range_from (if overwrite then []
                        else file_content (fs w) (sidecar_of out_path)))
         = StreamBody chunks true) →
  (download_streaming net url out_path overwrite retries w).1 = Ok tt ∧
  fs (download_streaming net url out_path overwrite retries w).2
  = <[out_path := File ((if overwrite then []
                         else file_content (fs w) (sidecar_of out_path))
                        ++ concat chunks)]>
      (delete (sidecar_of out_path) f1) ∧
  timeline (since w (download_streaming net url out_path overwrite retries w).2)
  = [Attempted url] ∧
  stream_requests (sidecar_of out_path)
    (since w (download_streaming net url out_path overwrite retries w).2)
  = [(range_from (if overwrite then []
                  else file_content (fs w) (sidecar_of out_path)),
      Z.of_nat (length (file_content (fs w) (sidecar_of out_path))))].
Proof.
  intros Hmiss Hmk Hname Hnd Hret Hresp.
  destruct (download_streaming_delivers_run net url out_path overwrite retries
              w f1 chunks Hmiss Hmk Hname Hnd Hret Hresp)
    as (evs & Hrun & Hev & Hsize).
  rewrite Hrun. cbn [fst snd fs].
  erewrite !since_app by (cbn [events]; reflexivity).
  split_and!; [done | done | |].
  - change (timeline (EvFs f1 :: EvRequest (StreamGet out_path) url
                         (range_from (if overwrite then []
                                      else file_content (fs w) (sidecar_of out_path)))
                         f1 :: evs))
      with (Attempted url :: timeline evs).
    by rewrite (timeline_fs_events evs Hev).
  - change (stream_requests (sidecar_of out_path)
              (EvFs f1 :: EvRequest (StreamGet out_path) url
                 (range_from (if overwrite then []
                              else file_content (fs w) (sidecar_of out_path)))
                 f1 :: evs))
      with ((range_from (if overwrite then []
                         else file_content (fs w) (sidecar_of out_path)),
             Fs.st_size f1 (sidecar_of out_path))
            :: stream_requests (sidecar_of out_path) evs).
    rewrite Hsize. f_equal.
    clear -Hev. induction Hev as [|e evs He _ IH]; [done|].
    destruct e; simpl in *; done.
Qed.

Lemma download_streaming_delivers_witness :
  (download_streaming net_resumes "https://ncss.test/a" ["a.nc"%string] false 8
     world_with_sidecar).1 = Ok tt ∧
  fs (download_streaming net_resumes "https://ncss.test/a" ["a.nc"%string] false 8
        world_with_sidecar).2
  = <[ ["a.nc"%string]
       := File ((if false then []
                 else file_content (fs world_with_sidecar)
                        (sidecar_of ["a.nc"%string]))
                ++ concat [ascii_bytes "de"; ascii_bytes "fgh"]) ]>
      (delete (sidecar_of ["a.nc"%string]) (fs world_with_sidecar)) ∧
  timeline (since world_with_sidecar
              (download_streaming net_resumes "https://ncss.test/a"
                 ["a.nc"%string] false 8 world_with_sidecar).2)
  = [Attempted "https://ncss.test/a"] ∧
  stream_requests (sidecar_of ["a.nc"%string])
    (since world_with_sidecar
       (download_streaming net_resumes "https://ncss.test/a" ["a.nc"%string]
          false 8 world_with_sidecar).2)
  = [(range_from (if false then []
                  else file_content (fs world_with_sidecar)
                         (sidecar_of ["a.nc"%string])),
      Z.of_nat (length (file_content (fs world_with_sidecar)
                          (sidecar_of ["a.nc"%string]))))].
Proof.
  apply (download_streaming_delivers net_resumes "https://ncss.test/a"
           ["a.nc"%string] false 8 world_with_sidecar (fs world_with_sidecar)
           [ascii_bytes "de"; ascii_bytes "fgh"]).
  - vm_compute. reflexivity.
  - reflexivity.
  - vm_compute. discriminate.
  - vm_compute. discriminate.
  - lia.
  - intros w'. vm_compute. reflexivity.
Defined.

(** ** What a streamed download leaves alone *)

Lemma mkdir_chain_frame (rest : list string) (pre : Path) (f f' : FS) (q : Path) :
  Fs.mkdir_chain pre rest f = inr f' →
  ¬ q `prefix_of` (pre ++ rest) →
  f' !! q = f !! q.
Proof.
  revert pre f. induction rest as [|c rest IH]; intros pre f; simpl.
  - by intros [= ->].
  - intros H Hq.
    assert (Hne : pre ++ [c] ≠ q).
    { intros <-. apply Hq. exists rest. by rewrite <- app_assoc. }
    assert (Hq' : ¬ q `prefix_of` ((pre ++ [c]) ++ rest))
      by (by rewrite <- app_assoc).
    destruct (f !! (pre ++ [c])) as [[|c0]|] eqn:Hf; [| done |].
    + by apply (IH _ _ H).
    + rewrite (IH _ _ H Hq'). by apply lookup_insert_ne.
Qed.

Section Preserves.

Variable q : Path.

Lemma preserves_ret {A : Type} (a : A) : preserves q (ret a).
Proof. by intros w. Qed.

Lemma preserves_raise {A : Type} (e : exn) : preserves q (raise (A := A) e).
Proof. by intros w. Qed.

Lemma preserves_bind {A B : Type} (c : M A) (k : A → M B) :
  preserves q c → (∀ a, preserves q (k a)) → preserves q (c ≫= k).
Proof.
  intros Hc Hk w. rewrite bind_run. specialize (Hc w).
  destruct (c w) as [[a|e] w']; simpl in *; [|done].
  by rewrite (Hk a w').
Qed.

Lemma preserves_get_fs {B : Type} (k : FS → M B) :
  (∀ w, fs (k (fs w) w).2 !! q = fs w !! q) → preserves q (get_fs ≫= k).
Proof. intros Hk w. rewrite bind_run. apply Hk. Qed.

Lemma preserves_try {A : Type} (c : M A) : preserves q c → preserves q (try c).
Proof.
  intros Hc w. specialize (Hc w). unfold try. by destruct (c w) as [[a|e] w'].
Qed.

Lemma preserves_for_each {A : Type} (xs : list A) (body : A → M unit) :
  (∀ x, preserves q (body x)) → preserves q (for_each xs body).
Proof.
  intros Hb. induction xs as [|x xs IH]; simpl.
  - apply preserves_ret.
  - apply preserves_bind; [apply Hb | by intros _].
Qed.

Lemma preserves_emit (e : event) : preserves q (emit e).
Proof. by intros w. Qed.

Lemma preserves_path_exists (p : Path) : preserves q (path_exists p).
Proof. by intros w. Qed.

Lemma preserves_with_suffix (p : Path) (s : string) : preserves q (with_suffix p s).
Proof.
  intros w. unfold with_suffix.
  destruct (_ || _); [done|]. by destruct (String.eqb _ _).
Qed.

Lemma preserves_ensure_dir (d : Path) :
  ¬ q `prefix_of` d → preserves q (ensure_dir d).
Proof.
  intros Hq w. rewrite ensure_dir_run.
  destruct (Fs.mkdir_p d (fs w)) as [e|f] eqn:Hmk; [done|].
  by apply (mkdir_chain_frame d [] (fs w)).
Qed.

Lemma preserves_open_write (p : Path) (mode : open_mode) :
  q ≠ p → preserves q (open_write p mode).
Proof.
  intros Hq. apply preserves_get_fs. intros w.
  destruct (negb _); [done|].
  destruct (Fs.stat (fs w) p) as [[|c]|], mode; try done;
    simpl; by rewrite lookup_insert_ne.
Qed.

Lemma preserves_write_chunk (p : Path) (chunk : bytes) :
  q ≠ p → preserves q (write_chunk p chunk).
Proof.
  intros Hq. apply preserves_get_fs. intros w.
  destruct (Fs.stat (fs w) p) as [[|c]|]; try done.
  simpl. by rewrite lookup_insert_ne.
Qed.

Lemma preserves_replace (src dst : Path) :
  q ≠ src → q ≠ dst → preserves q (replace src dst).
Proof.
  intros Hs Hd. apply preserves_get_fs. intros w.
  destruct (Fs.stat (fs w) src) as [n|]; [|done].
  destruct (Fs.stat (fs w) dst) as [[|c]|]; try done;
    (destruct (negb _); [done|]);
    simpl; by rewrite lookup_insert_ne, lookup_delete_ne.
Qed.

Lemma preserves_write_body (p : Path) (body : list bytes * bool) :
  q ≠ p → preserves q (write_body p body).
Proof.
  intros Hq. unfold write_body. apply preserves_bind.
  - apply preserves_for_each. intros [|b chunk];
      [apply preserves_ret | by apply preserves_write_chunk].
  - intros _. destruct (snd body); [apply preserves_ret | apply preserves_raise].
Qed.

Variable net : Net.

Lemma preserves_requests_get_stream (site : req_site) (url : string)
    (h : list (string * string)) :
  preserves q (requests_get_stream net site url h).
Proof.
  intros w. unfold requests_get_stream. by destruct (http_get_stream net w url h).
Qed.

Lemma preserves_stream_attempt (url : string) (out_path tmp_path : Path)
    (h : list (string * string)) (rp : Z) :
  q ≠ out_path → q ≠ tmp_path →
  preserves q (stream_attempt net url out_path tmp_path h rp).
Proof.
  intros Ho Ht. unfold stream_attempt.
  apply preserves_bind; [apply preserves_requests_get_stream|]. intros body.
  apply preserves_bind; [by apply preserves_open_write|]. intros _.
  apply preserves_bind; [by apply preserves_write_body|]. intros _.
  by apply preserves_replace.
Qed.

Lemma preserves_attempts (url : string) (out_path tmp_path : Path)
    (h : list (string * string)) (rp : Z) (remaining : nat) :
  q ≠ out_path → q ≠ tmp_path →
  ∀ attempt, preserves q (attempts net url out_path tmp_path h rp remaining attempt).
Proof.
  intros Ho Ht. induction remaining as [|k IH]; intros attempt; simpl.
  - apply preserves_ret.
  - apply preserves_bind.
    + by apply preserves_try, preserves_stream_attempt.
    + intros [e|u]; [|apply preserves_ret].
      apply preserves_bind; [apply preserves_emit | intros _; apply IH].
Qed.

Lemma preserves_download_streaming (url : string) (out_path : Path)
    (overwrite : bool) (retries : Z) :
  q ≠ out_path → q ≠ sidecar_of out_path →
  ¬ q `prefix_of` Pathlib.parent out_path →
  preserves q (download_streaming net url out_path overwrite retries).
Proof.
  intros Ho Ht Hp. unfold download_streaming.
  apply preserves_bind; [apply preserves_path_exists|]. intros ex.
  destruct (ex && negb overwrite); [apply preserves_ret|].
  apply preserves_bind; [by apply preserves_ensure_dir|]. intros _.
  intros w. rewrite bind_run.
  destruct (decide (Pathlib.name out_path = ""%string)) as [Hn | Hn].
  - destruct (with_suffix_part_empty out_path w Hn) as [e ->]. done.
  - rewrite (with_suffix_part out_path w Hn). fold (sidecar_of out_path).
    revert w. apply preserves_bind; [apply preserves_path_exists|]. intros tmp_ex.
    apply preserves_get_fs. intros w.
    match goal with |- fs ((?c ≫= ?k) w).2 !! q = _ =>
      apply (preserves_bind c k) end.
    + by apply preserves_attempts.
    + intros [|]; [apply preserves_ret | apply preserves_raise].
Qed.

End Preserves.

(** X10. [download_streaming] touches the destination, its sidecar and the
    folders that lead to the destination, and nothing else: whatever the
    servers do and however the call ends, every other path holds what it
    held before. *)
Theorem download_streaming_frame (net : Net) (url : string) (out_path : Path)
    (overwrite : bool) (retries : Z) (w : World) (q : Path) :
  q ≠ out_path → q ≠ sidecar_of out_path →
  ¬ q `prefix_of` Pathlib.parent out_path →
  fs (download_streaming net url out_path overwrite retries w).2 !! q
  = fs w !! q.
Proof. intros Ho Ht Hp. by apply preserves_download_streaming. Qed.

Lemma download_streaming_frame_witness :
  fs (download_streaming net_resumes "https://ncss.test/oahu"
        ["raw"; "oahu.nc"]%string false 8 world_dem_leftovers).2
    !! ["raw"; "oahu.tif"]%string
  = fs world_dem_leftovers !! ["raw"; "oahu.tif"]%string.
Proof.
  apply (download_streaming_frame net_resumes "https://ncss.test/oahu"
           ["raw"; "oahu.nc"]%string false 8 world_dem_leftovers
           ["raw"; "oahu.tif"]%string).
  - discriminate.
  - vm_compute. discriminate.
  - intros [k Hk]. vm_compute in Hk. discriminate.
Defined.

(** ** Rasters without a coordinate system *)

Lemma defined_copy_neq (temp_dir raster_path : Path) :
  Pathlib.joinpath temp_dir (Pathlib.stem raster_path ++ "_defined.tif")
  ≠ raster_path.
Proof.
  destruct (decide (raster_path = [])) as [-> | Hne].
  { unfold Pathlib.joinpath. by destruct temp_dir. }
  intros Heq. apply (f_equal Pathlib.name) in Heq. rewrite name_joinpath in Heq.
  unfold Pathlib.stem in Heq.
  pose proof (stem_suffix (Pathlib.name raster_path)) as Hss.
  rewrite <- Hss in Heq at 2. clear Hss.
  assert (Hsuf : Pathlib.suffix_of_name (Pathlib.name raster_path)
                 = "_defined.tif"%string).
  { generalize dependent (Pathlib.stem_of_name (Pathlib.name raster_path)).
    intros s. induction s as [|c s IH]; simpl; [done|].
    rewrite !str_app_cons. intros [= H]. by apply IH. }
  destruct (suffix_starts_with_dot (Pathlib.name raster_path)) as [H | H];
    rewrite Hsuf in H; done.
Qed.

Section DefineProjection.

Variable arcpy : ArcPy.

Lemma set_overwriteOutput_run (b : bool) (w : World) :
  set_overwriteOutput b w
  = (Ok tt, mkWorld (fs w) (events w ++ [EvArc (SetOverwriteOutput b)])).
Proof. reflexivity. Qed.

Lemma epsg_of_dataset_run_any (ds : Path) (w : World) :
  epsg_of_dataset arcpy ds w
  = (match arc_describe arcpy (fs w) ds with
     | None => Raise (ExecuteError "Describe")
     | Some NoSpatialReference => Ok None
     | Some (SpatialRef code) =>
         Ok match code with
            | None | Some 0 => None
            | Some c => Some c
            end
     end,
     mkWorld (fs w) (events w ++ [EvArc (Describe ds)])).
Proof.
  unfold epsg_of_dataset. rewrite bind_run. simpl. rewrite bind_run. simpl.
  by destruct (arc_describe arcpy (fs w) ds) as [[|code]|].
Qed.

Lemma arcpy_Exists_run (p : Path) (w : World) :
  arcpy_Exists arcpy p w
  = (Ok (arc_exists arcpy (fs w) p),
     mkWorld (fs w) (events w ++ [EvArc (Exists p)])).
Proof. reflexivity. Qed.

End DefineProjection.

(** Reading off the engine calls of a run whose events are known. *)
Ltac calls_of_run :=
  cbn [fst snd fs events];
  erewrite since_app by (cbn [events]; rewrite <- ?app_assoc; reflexivity);
  cbn.

(** X11. [define_projection_if_missing] never defines a projection on the
    raster it is given.  Its engine calls are, in this order and as far as
    the run gets: the overwrite setting, [Describe] of the raster, a copy
    of the raster to [<stem>_defined.tif] in the scratch folder, and
    [DefineProjection] on that copy, which is not the raster.  When it
    returns, it returns the raster itself after the first two calls, or
    the copy after all four. *)
Theorem define_projection_works_on_copy (arcpy : ArcPy) (raster_path : Path)
    (assumed_epsg : Z) (temp_dir : Path) (overwrite : bool) (w : World) :
  let tmp := Pathlib.joinpath temp_dir
               (Pathlib.stem raster_path ++ "_defined.tif") in
  let run := define_projection_if_missing arcpy raster_path assumed_epsg
               temp_dir overwrite w in
  tmp ≠ raster_path ∧
  arc_calls (since w run.2)
    `prefix_of` [SetOverwriteOutput overwrite; Describe raster_path;
                 CopyRaster raster_path tmp; DefineProjection tmp assumed_epsg] ∧
  match run.1 with
  | Ok p =>
      (p = raster_path ∧
       arc_calls (since w run.2)
       = [SetOverwriteOutput overwrite; Describe raster_path]) ∨
      (p = tmp ∧
       arc_calls (since w run.2)
       = [SetOverwriteOutput overwrite; Describe raster_path;
          CopyRaster raster_path tmp; DefineProjection tmp assumed_epsg])
  | Raise _ => True
  end.
Proof.
  intros tmp run. split; [apply defined_copy_neq|].
  unfold run, define_projection_if_missing. fold tmp.
  rewrite bind_run, set_overwriteOutput_run.
  rewrite bind_run, ensure_dir_run. cbn [fs events].
  destruct (Fs.mkdir_p temp_dir (fs w)) as [e|f1].
  { calls_of_run. split; [|done]. by eexists. }
  rewrite bind_run, epsg_of_dataset_run_any. cbn [fs events].
  destruct (arc_describe arcpy f1 raster_path) as [sr|].
  2:{ calls_of_run. split; [|done]. by eexists. }
  assert (Hnone :
    ∀ w1, events w1 = events w ++ [EvArc (SetOverwriteOutput overwrite); EvFs f1;
                                   EvArc (Describe raster_path)] →
    let r := ((tmp_ex ← (if overwrite then path_exists tmp else ret false);
               (if overwrite && tmp_ex then unlink tmp else ret tt);;
               arcpy_tool arcpy (CopyRaster raster_path tmp);;
               arcpy_tool arcpy (DefineProjection tmp assumed_epsg);;
               ret tmp) w1) in
    arc_calls (since w r.2)
      `prefix_of` [SetOverwriteOutput overwrite; Describe raster_path;
                   CopyRaster raster_path tmp; DefineProjection tmp assumed_epsg] ∧
    match r.1 with
    | Ok p =>
        (p = raster_path ∧
         arc_calls (since w r.2)
         = [SetOverwriteOutput overwrite; Describe raster_path]) ∨
        (p = tmp ∧
         arc_calls (since w r.2)
         = [SetOverwriteOutput overwrite; Describe raster_path;
            CopyRaster raster_path tmp; DefineProjection tmp assumed_epsg])
    | Raise _ => True
    end).
  { intros w1 Hev r. unfold r. clear r.
    set (pre := [EvArc (SetOverwriteOutput overwrite); EvFs f1;
                 EvArc (Describe raster_path)]) in *.
    assert (Hpre : arc_calls pre
                   = [SetOverwriteOutput overwrite; Describe raster_path])
      by done.
    rewrite bind_run.
    assert (Hpe : (if overwrite then path_exists tmp else ret false) w1
                  = (Ok (if overwrite then Fs.path_exists (fs w1) tmp else false), w1))
      by (by destruct overwrite).
    rewrite Hpe. rewrite bind_run.
    assert (Hun : ∃ evsU w2 o,
      (if overwrite && (if overwrite then Fs.path_exists (fs w1) tmp else false)
       then unlink tmp else ret tt) w1 = (o, w2) ∧
      events w2 = events w1 ++ evsU ∧ Forall is_fs_event evsU).
    { destruct (overwrite && _).
      - rewrite unlink_run. destruct (Fs.stat (fs w1) tmp) as [[|c]|].
        + exists [], w1. eexists. by rewrite app_nil_r.
        + eexists [_], _, _. split; [done|]. split; [done|]. by repeat constructor.
        + exists [], w1. eexists. by rewrite app_nil_r.
      - exists [], w1. eexists. by rewrite app_nil_r. }
    destruct Hun as (evsU & w2 & o & -> & Hev2 & HevU).
    assert (HcU : arc_calls evsU = []).
    { clear -HevU. induction HevU as [|e evs He _ IH]; [done|].
      destruct e; simpl in *; done. }
    destruct o as [u|e].
    2:{ cbn [fst snd]. rewrite (since_app w w2 (pre ++ evsU))
          by (by rewrite Hev2, Hev, <- app_assoc).
        rewrite arc_calls_app, HcU, Hpre. cbn. split; [|done]. by eexists. }
    rewrite bind_run, arcpy_tool_run.
    destruct (arc_run arcpy (CopyRaster raster_path tmp) (fs w2)) as [f3|].
    2:{ cbn [fst snd events].
        rewrite (since_app w _ ((pre ++ evsU) ++ [EvArc (CopyRaster raster_path tmp)]))
          by (by rewrite Hev2, Hev, <- !app_assoc).
        rewrite !arc_calls_app, HcU, Hpre. cbn. split; [|done]. by eexists. }
    rewrite bind_run, arcpy_tool_run. cbn [fs events].
    destruct (arc_run arcpy (DefineProjection tmp assumed_epsg) f3) as [f4|].
    - cbn [fst snd events ret].
      rewrite (since_app w _ ((pre ++ evsU)
                ++ [EvArc (CopyRaster raster_path tmp); EvFs f3]
                ++ [EvArc (DefineProjection tmp assumed_epsg); EvFs f4]))
        by (by rewrite Hev2, Hev, <- !app_assoc).
      rewrite !arc_calls_app, HcU, Hpre. cbn. split; [done|]. by right.
    - cbn [fst snd events].
      rewrite (since_app w _ ((pre ++ evsU)
                ++ [EvArc (CopyRaster raster_path tmp); EvFs f3]
                ++ [EvArc (DefineProjection tmp assumed_epsg)]))
        by (by rewrite Hev2, Hev, <- !app_assoc).
      rewrite !arc_calls_app, HcU, Hpre. cbn. split; [done|]. done. }
  assert (Hsome : ∀ c : Z,
    let r := (ret raster_path : M Path)
               (mkWorld f1 (((events w ++ [EvArc (SetOverwriteOutput overwrite)])
                             ++ [EvFs f1]) ++ [EvArc (Describe raster_path)])) in
    arc_calls (since w r.2)
      `prefix_of` [SetOverwriteOutput overwrite; Describe raster_path;
                   CopyRaster raster_path tmp; DefineProjection tmp assumed_epsg] ∧
    ((r.1 = Ok raster_path) ∧
       arc_calls (since w r.2)
       = [SetOverwriteOutput overwrite; Describe raster_path])).
  { intros _. cbn [ret fst snd]. calls_of_run. split; [by eexists | done]. }
  destruct sr as [|[[|c|c]|]].
  - apply Hnone. cbn [events]. by rewrite <- !app_assoc.
  - apply Hnone. cbn [events]. by rewrite <- !app_assoc.
  - destruct (Hsome 1) as [Hp [Hr Hc]]. cbn [ret fst snd] in *.
    split; [exact Hp|]. left. by split.
  - destruct (Hsome 1) as [Hp [Hr Hc]]. cbn [ret fst snd] in *.
    split; [exact Hp|]. left. by split.
  - apply Hnone. cbn [events]. by rewrite <- !app_assoc.
Qed.

(** ** Vectors: the order of the engine calls *)

(** X12. A vector without a readable CRS is found out late:
    [prep_vector_to_gpkg] has already created the GeoPackage when it asks
    for the CRS, so the [ValueError] it raises leaves a new, empty
    container behind.  No feature is projected or exported. *)
Theorem prep_vector_no_crs_leaves_container (arcpy : ArcPy)
    (src_fc out_gpkg : Path) (out_layer : string) (target_epsg : Z)
    (temp_dir : Path) (overwrite : bool) (w : World) (f1 f2 : FS) :
  Fs.mkdir_p (Pathlib.parent out_gpkg) (fs w) = inr f1 →
  arc_exists arcpy f1 out_gpkg = false →
  arc_run arcpy (CreateSQLiteDatabase out_gpkg "GEOPACKAGE") f1 = Some f2 →
  no_epsg (arc_describe arcpy f2 src_fc) →
  prep_vector_to_gpkg arcpy src_fc out_gpkg out_layer target_epsg temp_dir
    overwrite w
  = (Raise (ValueError ("Vector has no readable CRS: " ++ Pathlib.render src_fc)),
     mkWorld f2
       (events w ++
        [EvArc (SetOverwriteOutput overwrite); EvFs f1;
         EvArc (Exists out_gpkg);
         EvArc (CreateSQLiteDatabase out_gpkg "GEOPACKAGE"); EvFs f2;
         EvArc (Describe src_fc)])).
Proof.
  intros Hmk Hex Hrun Hd. unfold prep_vector_to_gpkg.
  rewrite bind_run, set_overwriteOutput_run.
  rewrite bind_run, ensure_dir_run. cbn [fs events]. rewrite Hmk.
  rewrite bind_run, arcpy_Exists_run. cbn [fs events]. rewrite Hex. cbn [negb].
  rewrite bind_run, arcpy_tool_run. cbn [fs events]. rewrite Hrun.
  rewrite bind_run, epsg_of_dataset_run_any. cbn [fs events].
  rewrite <- !app_assoc. cbn [app].
  destruct (arc_describe arcpy f2 src_fc) as [[|[[| |]|]]|]; done.
Qed.

Lemma prep_vector_no_crs_leaves_container_witness :
  prep_vector_to_gpkg arcpy_no_crs ["raw"; "parcels.shp"]%string
    ["prepared"; "vectors.gpkg"]%string "parcels" 32604 ["tmp"%string] true
    world_rasters_ready
  = (Raise (ValueError ("Vector has no readable CRS: "
                        ++ Pathlib.render ["raw"; "parcels.shp"]%string)),
     mkWorld (<[ ["prepared"; "vectors.gpkg"]%string := File [] ]>
                (fs world_rasters_ready))
       (events world_rasters_ready ++
        [EvArc (SetOverwriteOutput true); EvFs (fs world_rasters_ready);
         EvArc (Exists ["prepared"; "vectors.gpkg"]%string);
         EvArc (CreateSQLiteDatabase ["prepared"; "vectors.gpkg"]%string "GEOPACKAGE");
         EvFs (<[ ["prepared"; "vectors.gpkg"]%string := File [] ]>
                 (fs world_rasters_ready));
         EvArc (Describe ["raw"; "parcels.shp"]%string)])).
Proof.
  apply (prep_vector_no_crs_leaves_container arcpy_no_crs
           ["raw"; "parcels.shp"]%string ["prepared"; "vectors.gpkg"]%string
           "parcels" 32604 ["tmp"%string] true world_rasters_ready
           (fs world_rasters_ready)
           (<[ ["prepared"; "vectors.gpkg"]%string := File [] ]>
              (fs world_rasters_ready))).
  - apply mkdir_p_existing_dir. vm_compute. reflexivity.
  - vm_compute. reflexivity.
  - reflexivity.
  - exact I.
Defined.

Lemma bind_ok_since {A B : Type} (c : M A) (k : A → M B) (w w' : World) (b : B) :
  keeps_at any_world any_event c w →
  (c ≫= k) w = (Ok b, w') →
  ∃ a w1 evs, c w = (Ok a, w1) ∧ events w1 = events w ++ evs ∧
              k a w1 = (Ok b, w').
Proof.
  intros Hc Hrun. apply bind_ok in Hrun as (a & w1 & Hcw & Hkw).
  destruct (Hc I) as (evs & Hev & _). rewrite Hcw in Hev. eauto 10.
Qed.

Lemma arc_calls_reprojects (src tmp : Path) (target : Z) (evs : list event) :
  Forall (event_reprojects_via src tmp target) evs →
  Forall (reprojects_via src tmp target) (arc_calls evs).
Proof.
  induction 1 as [|e evs He _ IH]; [constructor|].
  destruct e; simpl; try done. by constructor.
Qed.

Section OtherEpsg.

Variable arcpy : ArcPy.
Variables (src_fc out_gpkg : Path) (out_layer : string) (code target_epsg : Z).
Variables (temp_dir : Path) (overwrite : bool).

Hypothesis Hdescribe :
  ∀ f, arc_describe arcpy f src_fc = Some (SpatialRef (Some code)).
Hypothesis Hcode : code ≠ 0.
Hypothesis Hother : code ≠ target_epsg.

Lemma epsg_of_other_source (w w' : World) (r : option Z) :
  epsg_of_dataset arcpy src_fc w = (Ok r, w') → r = Some code.
Proof.
  rewrite (epsg_of_dataset_run arcpy src_fc code w (Hdescribe _) Hcode).
  by intros [= <- _].
Qed.

Lemma prep_vector_other_epsg_keeps (w : World) :
  keeps_at any_world
    (event_reprojects_via src_fc
       (vector_tmp_fc temp_dir out_layer target_epsg) target_epsg)
    (prep_vector_to_gpkg arcpy src_fc out_gpkg out_layer target_epsg temp_dir
       overwrite) w.
Proof.
  unfold prep_vector_to_gpkg.
  keeps_step; [by apply set_overwriteOutput_keeps|].
  keeps_step; [by apply quiet_ensure_dir|].
  keeps_step; [by apply arcpy_Exists_keeps|].
  keeps_step.
  { keeps_step; [by apply arcpy_tool_keeps | keeps_step]. }
  keeps_step; [by apply epsg_of_dataset_keeps|].
  match goal with H : epsg_of_dataset _ _ _ = _ |- _ =>
    apply epsg_of_other_source in H as -> end.
  apply Z.eqb_neq in Hother as ->. simpl negb. cbv iota.
  keeps_step.
  { unfold ensure_scratch_gdb.
    keeps_step.
    { repeat first
        [ apply quiet_ensure_dir; done
        | apply arcpy_tool_keeps; done
        | apply arcpy_Exists_keeps; done
        | keeps_step ]. }
    match goal with H : _ = (Ok ?a, _) |- _ =>
      assert (a = Pathlib.joinpath temp_dir "scratch_vectors.gdb") as ->
    end.
    { match goal with H : _ = (Ok _, _) |- _ =>
        apply bind_ok in H as (_ & ? & _ & H);
        apply bind_ok in H as (? & ? & _ & H);
        apply bind_ok in H as (_ & ? & _ & H);
        by injection H as <- _
      end. }
    fold (vector_tmp_fc temp_dir out_layer target_epsg).
    keeps_step.
    { keeps_step; [by apply arcpy_Exists_keeps | keeps_step]. }
    keeps_step.
    { keeps_step; [by apply arcpy_tool_keeps | keeps_step]. }
    keeps_step; [by apply arcpy_tool_keeps | keeps_step]. }
  match goal with H : _ = (Ok ?a, _) |- _ =>
    assert (a = vector_tmp_fc temp_dir out_layer target_epsg) as -> end.
  { match goal with H : _ = (Ok _, _) |- _ =>
      apply bind_ok in H as (g & ? & Hg & H);
      apply bind_ok in H as (? & ? & _ & H);
      apply bind_ok in H as (_ & ? & _ & H);
      apply bind_ok in H as (_ & ? & _ & H);
      injection H as <- _
    end.
    unfold ensure_scratch_gdb in Hg.
    apply bind_ok in Hg as (_ & ? & _ & Hg).
    apply bind_ok in Hg as (? & ? & _ & Hg).
    apply bind_ok in Hg as (_ & ? & _ & Hg).
    by injection Hg as <- _. }
  keeps_step.
  { keeps_step; [by apply arcpy_Exists_keeps | keeps_step]. }
  keeps_step.
  { keeps_step; [by apply arcpy_tool_keeps | keeps_step]. }
  keeps_step; [by apply arcpy_tool_keeps | keeps_step].
Qed.

Lemma prep_vector_other_epsg_ok (w w' : World) (p : Path) :
  prep_vector_to_gpkg arcpy src_fc out_gpkg out_layer target_epsg temp_dir
    overwrite w = (Ok p, w') →
  p = gpkg_layer_path out_gpkg out_layer ∧
  ∃ before between,
    since w w'
    = before
      ++ [EvArc (Project src_fc (vector_tmp_fc temp_dir out_layer target_epsg)
                   target_epsg)]
      ++ between
      ++ [EvArc (FeatureClassToFeatureClass
                   (vector_tmp_fc temp_dir out_layer target_epsg)
                   out_gpkg out_layer)]
      ++ [EvFs (fs w')].
Proof.
  unfold prep_vector_to_gpkg. intros Hrun.
  apply bind_ok_since in Hrun as (_ & w1 & e1 & _ & He1 & Hrun);
    [|by apply set_overwriteOutput_keeps].
  apply bind_ok_since in Hrun as (_ & w2 & e2 & _ & He2 & Hrun);
    [|by apply quiet_ensure_dir].
  apply bind_ok_since in Hrun as (ex & w3 & e3 & _ & He3 & Hrun);
    [|by apply arcpy_Exists_keeps].
  apply bind_ok_since in Hrun as (_ & w4 & e4 & _ & He4 & Hrun);
    [|destruct (negb ex); [by apply arcpy_tool_keeps | apply keeps_at_ret]].
  apply bind_ok_since in Hrun as (r & w5 & e5 & Hr & He5 & Hrun);
    [|by apply epsg_of_dataset_keeps].
  apply epsg_of_other_source in Hr as ->.
  apply Z.eqb_neq in Hother as Hneq. rewrite Hneq in Hrun.
  simpl negb in Hrun. cbv iota in Hrun.
  apply bind_ok in Hrun as (fc & w6 & Hfc & Hrun).
  unfold ensure_scratch_gdb in Hfc.
  apply bind_ok in Hfc as (g & w7 & Hg & Hfc).
  apply bind_ok_since in Hg as (_ & w8 & e8 & _ & He8 & Hg);
    [|by apply quiet_ensure_dir].
  apply bind_ok_since in Hg as (gex & w9 & e9 & _ & He9 & Hg);
    [|by apply arcpy_Exists_keeps].
  apply bind_ok_since in Hg as (_ & w10 & e10 & _ & He10 & Hg);
    [|destruct (negb gex); [by apply arcpy_tool_keeps | apply keeps_at_ret]].
  injection Hg as <- <-.
  fold (vector_tmp_fc temp_dir out_layer target_epsg) in Hfc.
  apply bind_ok_since in Hfc as (tex & w11 & e11 & _ & He11 & Hfc);
    [|destruct overwrite; [by apply arcpy_Exists_keeps | apply keeps_at_ret]].
  apply bind_ok_since in Hfc as (_ & w12 & e12 & _ & He12 & Hfc);
    [|destruct (overwrite && tex); [by apply arcpy_tool_keeps | apply keeps_at_ret]].
  rewrite bind_run, arcpy_tool_run in Hfc.
  destruct (arc_run arcpy _ (fs w12)) as [f13|]; [|done].
  injection Hfc as <- <-.
  apply bind_ok_since in Hrun as (lex & w14 & e14 & _ & He14 & Hrun);
    [|destruct overwrite; [by apply arcpy_Exists_keeps | apply keeps_at_ret]].
  apply bind_ok_since in Hrun as (_ & w15 & e15 & _ & He15 & Hrun);
    [|destruct (overwrite && lex); [by apply arcpy_tool_keeps | apply keeps_at_ret]].
  rewrite bind_run, arcpy_tool_run in Hrun.
  destruct (arc_run arcpy _ (fs w15)) as [f16|]; [|done].
  injection Hrun as <- <-. split; [done|].
  exists (e1 ++ e2 ++ e3 ++ e4 ++ e5 ++ e8 ++ e9 ++ e10 ++ e11 ++ e12),
         ([EvFs f13] ++ e14 ++ e15).
  apply since_app. cbn [events fs] in *.
  rewrite He15, He14. cbn [events]. rewrite He12, He11, He10, He9, He8, He5, He4, He3, He2, He1.
  rewrite <- !app_assoc. reflexivity.
Qed.

End OtherEpsg.

(** X13. When the source of a vector is in another CRS than the target,
    [prep_vector_to_gpkg] never exports the source itself: every
    [Project] call goes from the source into the scratch feature class
    [<temp_dir>/scratch_vectors.gdb/<layer>_tmp_<epsg>] in the target CRS,
    and every export reads that scratch class.  A call that returns gives
    the path of the layer inside the GeoPackage; it has projected first
    and its last engine call is the export of the scratch class into the
    GeoPackage. *)
Theorem prep_vector_projects_before_export (arcpy : ArcPy)
    (src_fc out_gpkg temp_dir : Path) (out_layer : string)
    (code target_epsg : Z) (overwrite : bool) (w : World) :
  (∀ f, arc_describe arcpy f src_fc = Some (SpatialRef (Some code))) →
  code ≠ 0 →
  code ≠ target_epsg →
  Forall (reprojects_via src_fc (vector_tmp_fc temp_dir out_layer target_epsg)
            target_epsg)
    (arc_calls (since w (prep_vector_to_gpkg arcpy src_fc out_gpkg out_layer
                           target_epsg temp_dir overwrite w).2)) ∧
  ∀ p w',
    prep_vector_to_gpkg arcpy src_fc out_gpkg out_layer target_epsg temp_dir
      overwrite w = (Ok p, w') →
    p = gpkg_layer_path out_gpkg out_layer ∧
    ∃ before between,
      arc_calls (since w w')
      = before
        ++ [Project src_fc (vector_tmp_fc temp_dir out_layer target_epsg)
              target_epsg]
        ++ between
        ++ [FeatureClassToFeatureClass
              (vector_tmp_fc temp_dir out_layer target_epsg) out_gpkg out_layer].
Proof.
  intros Hd Hc Hne. split.
  - destruct (prep_vector_other_epsg_keeps arcpy src_fc out_gpkg out_layer code
                target_epsg temp_dir overwrite Hd Hc Hne w I)
      as (evs & Hev & HP & _).
    rewrite (since_app _ _ _ Hev). by apply arc_calls_reprojects.
  - intros p w' Hrun.
    apply (prep_vector_other_epsg_ok arcpy src_fc out_gpkg out_layer code
             target_epsg temp_dir overwrite Hd Hc Hne) in Hrun
      as (-> & before & between & ->).
    split; [done|]. exists (arc_calls before), (arc_calls between).
    rewrite !arc_calls_app. reflexivity.
Qed.

Lemma prep_vector_projects_before_export_witness :
  Forall (reprojects_via ["raw"; "parcels.shp"]%string
            (vector_tmp_fc ["tmp"%string] "parcels" 32604) 32604)
    (arc_calls (since world_rasters_ready
                  (prep_vector_to_gpkg arcpy_fake ["raw"; "parcels.shp"]%string
                     ["prepared"; "vectors.gpkg"]%string "parcels" 32604
                     ["tmp"%string] true world_rasters_ready).2)) ∧
  ∀ p w',
    prep_vector_to_gpkg arcpy_fake ["raw"; "parcels.shp"]%string
      ["prepared"; "vectors.gpkg"]%string "parcels" 32604 ["tmp"%string] true
      world_rasters_ready = (Ok p, w') →
    p = gpkg_layer_path ["prepared"; "vectors.gpkg"]%string "parcels" ∧
    ∃ before between,
      arc_calls (since world_rasters_ready w')
      = before
        ++ [Project ["raw"; "parcels.shp"]%string
              (vector_tmp_fc ["tmp"%string] "parcels" 32604) 32604]
        ++ between
        ++ [FeatureClassToFeatureClass
              (vector_tmp_fc ["tmp"%string] "parcels" 32604)
              ["prepared"; "vectors.gpkg"]%string "parcels"].
Proof.
  apply (prep_vector_projects_before_export arcpy_fake
           ["raw"; "parcels.shp"]%string ["prepared"; "vectors.gpkg"]%string
           ["tmp"%string] "parcels" 4326 32604 true world_rasters_ready).
  - intros f. reflexivity.
  - lia.
  - lia.
Defined.

(** ** The inputs of a mosaic *)

#[local] Instance path_le_total : Total path_le.
Proof.
  intros a b. unfold path_le.
  destruct (String.leb_total (Pathlib.render a) (Pathlib.render b)); auto.
Qed.

Lemma elem_of_glob_tif (f : FS) (d t : Path) :
  t ∈ Fs.glob_tif f d ↔
  Fs.is_dir f d = true ∧ Pathlib.parent t = d ∧ t ≠ [] ∧
  Pathlib.is_tif (Pathlib.name t) = true ∧ is_Some (f !! t).
Proof.
  unfold Fs.glob_tif. destruct (Fs.is_dir f d).
  - rewrite list_elem_of_filter, list_elem_of_fmap. split.
    + intros ((? & ? & ?) & [k v] & -> & Hin).
      apply elem_of_map_to_list in Hin. simpl in *. eauto 10.
    + intros (_ & ? & ? & ? & v & Hv). split; [done|].
      exists (t, v). split; [done|]. by apply elem_of_map_to_list.
  - split; [by intros ?%elem_of_nil | by intros [? _]].
Qed.

Lemma NoDup_glob_tif (f : FS) (d : Path) : NoDup (Fs.glob_tif f d).
Proof.
  unfold Fs.glob_tif. destruct (Fs.is_dir f d); [|constructor].
  apply NoDup_filter, NoDup_fst_map_to_list.
Qed.

Section Mosaic.

Variable arcpy : ArcPy.
Variables (raster_dir out_mosaic : Path) (overwrite : bool).

Lemma mosaic_dir_to_raster_keeps (w : World) :
  keeps_at any_world (event_mosaics raster_dir out_mosaic (fs w))
    (mosaic_dir_to_raster arcpy raster_dir out_mosaic overwrite) w.
Proof.
  unfold mosaic_dir_to_raster.
  keeps_step; [by apply set_overwriteOutput_keeps|].
  match goal with H : set_overwriteOutput _ _ = _ |- _ =>
    rewrite set_overwriteOutput_run in H; injection H as _ <- end.
  keeps_step. cbn [fs].
  destruct (sorted_paths (Fs.glob_tif (fs w) raster_dir)) as [|t ts] eqn:Hs;
    [keeps_step|].
  keeps_step; [by apply quiet_ensure_dir|].
  keeps_step.
  { keeps_step; [by apply quiet_path_exists | keeps_step]. }
  keeps_step.
  { keeps_step; [by apply quiet_unlink | keeps_step]. }
  keeps_step; [|keeps_step].
  apply arcpy_tool_keeps; [done|]. simpl. by rewrite Hs.
Qed.

End Mosaic.

(** X14. [mosaic_dir_to_raster] hands the engine the tiles in a fixed
    order: whenever it calls [MosaicToNewRaster], the inputs are the
    entries directly inside [raster_dir] whose name ends in [.tif], each
    one once, in ascending order of their path strings, and the output is
    named by the folder and the file name of [out_mosaic]. *)
Theorem mosaic_inputs_are_sorted_tiles (arcpy : ArcPy)
    (raster_dir out_mosaic : Path) (overwrite : bool) (w : World)
    (tifs : list Path) (loc : Path) (name pixel method colormap : string)
    (bands : Z) :
  MosaicToNewRaster tifs loc name bands pixel method colormap
  ∈ arc_calls (since w (mosaic_dir_to_raster arcpy raster_dir out_mosaic
                          overwrite w).2) →
  Sorted path_le tifs ∧ NoDup tifs ∧ tifs ≠ [] ∧
  (∀ t, t ∈ tifs ↔
        Pathlib.parent t = raster_dir ∧ t ≠ [] ∧
        Pathlib.is_tif (Pathlib.name t) = true ∧ is_Some (fs w !! t)) ∧
  loc = Pathlib.parent out_mosaic ∧ name = Pathlib.name out_mosaic.
Proof.
  intros Hin.
  destruct (mosaic_dir_to_raster_keeps arcpy raster_dir out_mosaic overwrite w I)
    as (evs & Hev & HP & _).
  rewrite (since_app _ _ _ Hev) in Hin.
  apply list_elem_of_omap in Hin as (e & He & Hcall).
  destruct e as [| | | |c]; try done. injection Hcall as ->.
  rewrite Forall_forall in HP. apply HP in He.
  destruct He as (-> & Hne & -> & -> & _). unfold sorted_paths in *.
  split_and!; [| | done | | done | done].
  - apply Sorted_merge_sort. apply _.
  - rewrite merge_sort_Permutation. apply NoDup_glob_tif.
  - intros t. rewrite merge_sort_Permutation, elem_of_glob_tif.
    split; [tauto|]. intros H. split; [|done].
    destruct (Fs.is_dir (fs w) raster_dir) eqn:Hd; [done|].
    exfalso. apply Hne. unfold Fs.glob_tif. by rewrite Hd.
Qed.

Lemma mosaic_inputs_are_sorted_tiles_witness :
  Sorted path_le [["raw"; "dem"; "maui.tif"]; ["raw"; "dem"; "oahu.tif"]]%string ∧
  NoDup [["raw"; "dem"; "maui.tif"]; ["raw"; "dem"; "oahu.tif"]]%string ∧
  [["raw"; "dem"; "maui.tif"]; ["raw"; "dem"; "oahu.tif"]]%string ≠ [] ∧
  (∀ t, t ∈ [["raw"; "dem"; "maui.tif"]; ["raw"; "dem"; "oahu.tif"]]%string ↔
        Pathlib.parent t = ["raw"; "dem"]%string ∧ t ≠ [] ∧
        Pathlib.is_tif (Pathlib.name t) = true ∧
        is_Some (fs world_dem_tiles !! t)) ∧
  ["tmp"%string] = Pathlib.parent ["tmp"; "dem_mosaic_tmp.tif"]%string ∧
  "dem_mosaic_tmp.tif"%string
  = Pathlib.name ["tmp"; "dem_mosaic_tmp.tif"]%string.
Proof.
  apply (mosaic_inputs_are_sorted_tiles arcpy_fake ["raw"; "dem"]%string
           ["tmp"; "dem_mosaic_tmp.tif"]%string true world_dem_tiles
           [["raw"; "dem"; "maui.tif"]; ["raw"; "dem"; "oahu.tif"]]%string
           ["tmp"%string] "dem_mosaic_tmp.tif" "32_BIT_FLOAT" "FIRST" "FIRST" 1).
  vm_compute. apply list_elem_of_further, list_elem_of_here.
Defined.

(** ** The orchestrator and the raster blocks *)

Lemma arc_calls_avoid (tools : arc_call → bool) (evs : list event) :
  Forall (event_avoids tools) evs →
  Forall (λ c, tools c = false) (arc_calls evs).
Proof.
  induction 1 as [|e evs He _ IH]; [constructor|].
  destruct e; simpl; try done. by constructor.
Qed.

Lemma prepared_exists_quiet (P : event → Prop) (key : string) (p : Path)
    (w : World) :
  keeps_at any_world P (prepared_exists key p) w.
Proof.
  intros _. exists []. by rewrite prepared_exists_world, app_nil_r.
Qed.

Lemma filter_m_prepared_world (l : list (string * Path)) (w : World) :
  (filter_m (λ kp, done ← prepared_exists kp.1 kp.2; ret (negb done)) l w).2 = w.
Proof.
  induction l as [|kp l IH]; [done|].
  simpl. rewrite !bind_run.
  pose proof (prepared_exists_world kp.1 kp.2 w) as Hw.
  destruct (prepared_exists kp.1 kp.2 w) as [[b|e] w1]; simpl in *; subst w1;
    [|done].
  rewrite bind_run.
  destruct (filter_m _ l w) as [[r|e] w2]; simpl in *; by subst w2.
Qed.

(** When the check of the catalog finds nothing missing, every entry was
    found on disk. *)
Lemma filter_m_nothing_missing (l : list (string * Path)) (w w' : World) :
  filter_m (λ kp, done ← prepared_exists kp.1 kp.2; ret (negb done)) l w
  = (Ok [], w') →
  Forall (λ kp, prepared_exists kp.1 kp.2 w = (Ok true, w)) l.
Proof.
  revert w'. induction l as [|kp l IH]; intros w' H; [constructor|].
  simpl in H. rewrite !bind_run in H.
  pose proof (prepared_exists_world kp.1 kp.2 w) as Hw.
  destruct (prepared_exists kp.1 kp.2 w) as [[b|e] w1] eqn:Hkp; simpl in *;
    subst w1; [|done].
  rewrite bind_run in H.
  destruct (filter_m _ l w) as [[r|e] w2] eqn:Hl; simpl in *; [|done].
  destruct b; simpl in H; [|done]. injection H as -> ->.
  constructor; [done|].
  pose proof (filter_m_prepared_world l w) as Hw2.
  rewrite Hl in Hw2. simpl in Hw2. subst w'. by eapply IH.
Qed.

Section Blocks.

Variable arcpy : ArcPy.
Variables (source_inputs prepared_outputs : gmap string Path).
Variables (tempspace : Path) (target_epsg : Z) (overwrite : bool).

Lemma prep_raster_to_target_not_ok (src_raster prepared_tif : Path)
    (resampling : string) (assumed : option Z) (w w' : World) (p : Path) :
  prep_raster_to_target arcpy src_raster prepared_tif target_epsg tempspace
    resampling assumed overwrite w ≠ (Ok p, w').
Proof.
  unfold prep_raster_to_target. rewrite bind_run. simpl.
  rewrite bind_run, ensure_dir_run. simpl.
  by destruct (Fs.mkdir_p tempspace (fs w)).
Qed.

Lemma prep_raster_to_target_avoids (tools : arc_call → bool)
    (src_raster prepared_tif : Path) (resampling : string)
    (assumed : option Z) (w : World) :
  tools (SetOverwriteOutput overwrite) = false →
  keeps_at any_world (event_avoids tools)
    (prep_raster_to_target arcpy src_raster prepared_tif target_epsg tempspace
       resampling assumed overwrite) w.
Proof.
  intros Ht. unfold prep_raster_to_target.
  keeps_step; [by apply set_overwriteOutput_keeps|].
  keeps_step; [by apply quiet_ensure_dir|].
  keeps_step; [apply keeps_at_raise|].
  by match goal with H : call_without_second_argument _ _ _ _ _ = _ |- _ =>
    unfold call_without_second_argument in H end.
Qed.

Lemma mosaic_dir_to_raster_avoids (raster_dir out_mosaic : Path) (w : World) :
  keeps_at any_world (event_avoids writes_prepared_raster)
    (mosaic_dir_to_raster arcpy raster_dir out_mosaic overwrite) w.
Proof.
  unfold mosaic_dir_to_raster.
  repeat first
    [ apply quiet_ensure_dir; done
    | apply quiet_path_exists; done
    | apply quiet_unlink; done
    | apply arcpy_tool_keeps; done
    | apply set_overwriteOutput_keeps; done
    | keeps_step ].
Qed.

Lemma prep_vector_to_gpkg_avoids (src_fc out_gpkg : Path) (out_layer : string)
    (w : World) :
  keeps_at any_world (event_avoids is_raster_tool)
    (prep_vector_to_gpkg arcpy src_fc out_gpkg out_layer target_epsg tempspace
       overwrite) w.
Proof.
  unfold prep_vector_to_gpkg, ensure_scratch_gdb.
  repeat first
    [ apply quiet_ensure_dir; done
    | apply arcpy_tool_keeps; done
    | apply arcpy_Exists_keeps; done
    | apply epsg_of_dataset_keeps; done
    | apply set_overwriteOutput_keeps; done
    | keeps_step ].
Qed.

Lemma getitem_quiet (P : event → Prop) (d : gmap string Path) (k : string)
    (w : World) :
  keeps_at any_world P (getitem d k) w.
Proof. unfold getitem. destruct (d !! k); [apply keeps_at_ret | apply keeps_at_raise]. Qed.

Lemma prepare_vector_avoids (job : string * string) (w : World) :
  keeps_at any_world (event_avoids is_raster_tool)
    (prepare_vector arcpy source_inputs prepared_outputs tempspace target_epsg
       overwrite job) w.
Proof.
  unfold prepare_vector.
  keeps_step; [apply getitem_quiet|].
  keeps_step; [by apply quiet_path_exists|].
  keeps_step; [keeps_step|].
  keeps_step; [apply getitem_quiet|].
  keeps_step; [apply prep_vector_to_gpkg_avoids | keeps_step].
Qed.

Lemma avoids_weaken (e : event) :
  event_avoids is_raster_tool e → event_avoids writes_prepared_raster e.
Proof. destruct e as [| | | |c]; try done. by destruct c. Qed.

(** One step through a raster block for a goal [keeps_at]. *)
Ltac block_avoids :=
  repeat first
    [ apply getitem_quiet
    | apply prepared_exists_quiet
    | apply mosaic_dir_to_raster_avoids
    | apply prep_raster_to_target_avoids; done
    | keeps_step ].

(** A raster block that returned found its output on disk and did
    nothing. *)
Ltac block_ok H :=
  let Hd := fresh "Hd" in
  let Hw := fresh "Hw" in
  rewrite bind_run, getitem_run in H;
  match type of H with
  | context [prepared_outputs !! ?k] =>
      destruct (prepared_outputs !! k) as [p|]; [|done];
      exists p; split; [done|];
      cbn [fst snd] in H; rewrite bind_run in H;
      pose proof (prepared_exists_world k p) as Hw;
      match type of H with
      | context [prepared_exists k p ?w] =>
          specialize (Hw w);
          destruct (prepared_exists k p w) as [[[|]|e] w1] eqn:Hd;
            simpl in Hw; subst w1; [by injection H as <- | | done]
      end
  end.

Lemma prepare_dem_avoids (w : World) :
  keeps_at any_world (event_avoids writes_prepared_raster)
    (prepare_dem arcpy source_inputs prepared_outputs tempspace target_epsg
       overwrite) w.
Proof. unfold prepare_dem. block_avoids. Qed.

Lemma prepare_dem_ok (w w' : World) (u : unit) :
  prepare_dem arcpy source_inputs prepared_outputs tempspace target_epsg
    overwrite w = (Ok u, w') →
  ∃ p, prepared_outputs !! "dem"%string = Some p ∧
       prepared_exists "dem" p w = (Ok true, w) ∧ w' = w.
Proof.
  unfold prepare_dem. intros H. block_ok H. exfalso.
  do 4 (apply bind_ok in H as (? & ? & _ & H)).
  apply bind_ok in H as (? & ? & H & _).
  by apply prep_raster_to_target_not_ok in H.
Qed.

Lemma prepare_watertable_avoids (w : World) :
  keeps_at any_world (event_avoids writes_prepared_raster)
    (prepare_watertable arcpy source_inputs prepared_outputs tempspace target_epsg
       overwrite) w.
Proof. unfold prepare_watertable. block_avoids. Qed.

Lemma prepare_watertable_ok (w w' : World) (u : unit) :
  prepare_watertable arcpy source_inputs prepared_outputs tempspace target_epsg
    overwrite w = (Ok u, w') →
  ∃ p, prepared_outputs !! "watertable"%string = Some p ∧
       prepared_exists "watertable" p w = (Ok true, w) ∧ w' = w.
Proof.
  unfold prepare_watertable. intros H. block_ok H. exfalso.
  do 4 (apply bind_ok in H as (? & ? & _ & H)).
  apply bind_ok in H as (? & ? & H & _).
  by apply prep_raster_to_target_not_ok in H.
Qed.

Lemma prepare_slope_avoids (w : World) :
  keeps_at any_world (event_avoids writes_prepared_raster)
    (prepare_slope arcpy source_inputs prepared_outputs tempspace target_epsg
       overwrite) w.
Proof. unfold prepare_slope. block_avoids. Qed.

Lemma prepare_slope_ok (w w' : World) (u : unit) :
  prepare_slope arcpy source_inputs prepared_outputs tempspace target_epsg
    overwrite w = (Ok u, w') →
  ∃ p, prepared_outputs !! "slope"%string = Some p ∧
       prepared_exists "slope" p w = (Ok true, w) ∧ w' = w.
Proof.
  unfold prepare_slope. intros H. block_ok H. exfalso.
  do 4 (apply bind_ok in H as (? & ? & _ & H)).
  apply bind_ok in H as (? & ? & H & _).
  by apply prep_raster_to_target_not_ok in H.
Qed.

Lemma prepare_rainfall_avoids (w : World) :
  keeps_at any_world (event_avoids writes_prepared_raster)
    (prepare_rainfall arcpy source_inputs prepared_outputs tempspace target_epsg
       overwrite) w.
Proof. unfold prepare_rainfall. block_avoids. Qed.

Lemma prepare_rainfall_ok (w w' : World) (u : unit) :
  prepare_rainfall arcpy source_inputs prepared_outputs tempspace target_epsg
    overwrite w = (Ok u, w') →
  ∃ p, prepared_outputs !! "rainfall"%string = Some p ∧
       prepared_exists "rainfall" p w = (Ok true, w) ∧ w' = w.
Proof.
  unfold prepare_rainfall. intros H. block_ok H. exfalso.
  do 2 (apply bind_ok in H as (? & ? & _ & H)).
  apply bind_ok in H as (? & ? & H & _).
  by apply prep_raster_to_target_not_ok in H.
Qed.

End Blocks.

Section NoRaster.

Variable arcpy : ArcPy.
Variables (source_inputs prepared_outputs : gmap string Path).
Variables (tempspace : Path) (target_epsg : Z) (overwrite : bool).

Lemma filter_m_prepared_quiet (P : event → Prop) (l : list (string * Path))
    (w : World) :
  keeps_at any_world P
    (filter_m (λ kp, done ← prepared_exists kp.1 kp.2; ret (negb done)) l) w.
Proof.
  intros _. exists []. by rewrite filter_m_prepared_world, app_nil_r.
Qed.

Lemma prepare_source_inputs_avoids (w : World) :
  keeps_at any_world (event_avoids writes_prepared_raster)
    (prepare_source_inputs arcpy source_inputs prepared_outputs tempspace
       target_epsg overwrite) w.
Proof.
  unfold prepare_source_inputs.
  keeps_step; [by apply quiet_ensure_dir|].
  keeps_step; [apply filter_m_prepared_quiet|].
  keeps_step; [keeps_step|].
  keeps_step; [apply prepare_dem_avoids|].
  keeps_step; [apply prepare_watertable_avoids|].
  keeps_step; [apply prepare_slope_avoids|].
  keeps_step; [apply prepare_rainfall_avoids|].
  keeps_step; [|keeps_step].
  apply keeps_at_for_each. intros job w0 _.
  eapply keeps_at_weaken; [apply avoids_weaken | apply prepare_vector_avoids].
Qed.

Lemma prepare_source_inputs_ok (w w' : World) (m : gmap string Path) :
  prepare_source_inputs arcpy source_inputs prepared_outputs tempspace
    target_epsg overwrite w = (Ok m, w') →
  (∃ evs, events w' = events w ++ evs ∧ Forall (event_avoids is_raster_tool) evs) ∧
  ∀ key p, key ∈ RASTER_KEYS → prepared_outputs !! key = Some p →
    (prepared_exists key p (ensure_dir tempspace w).2).1 = Ok true.
Proof.
  unfold prepare_source_inputs. intros H.
  apply bind_ok in H as (u0 & w1 & Hmk & H).
  destruct (quiet_ensure_dir (event_avoids is_raster_tool) (λ _, I) tempspace w I)
    as (e1 & He1 & HP1 & _).
  rewrite Hmk in He1 |- *. cbn [snd] in *.
  apply bind_ok in H as (missing & w2 & Hmiss & H).
  pose proof (filter_m_prepared_world (map_to_list prepared_outputs) w1) as Hw2.
  rewrite Hmiss in Hw2. simpl in Hw2. subst w2.
  destruct missing as [|kp missing].
  - injection H as _ <-. split; [eauto|].
    intros key p _ Hp. apply filter_m_nothing_missing in Hmiss.
    rewrite Forall_forall in Hmiss.
    specialize (Hmiss (key, p)). cbn [fst snd] in Hmiss.
    rewrite Hmiss; [done|]. by apply elem_of_map_to_list.
  - apply bind_ok in H as (u1 & w3 & Hdem & H).
    apply prepare_dem_ok in Hdem as (pd & Hpd & Hd & ->).
    apply bind_ok in H as (u2 & w4 & Hwt & H).
    apply prepare_watertable_ok in Hwt as (pw & Hpw & Hw & ->).
    apply bind_ok in H as (u3 & w5 & Hsl & H).
    apply prepare_slope_ok in Hsl as (ps & Hps & Hs & ->).
    apply bind_ok in H as (u4 & w6 & Hrf & H).
    apply prepare_rainfall_ok in Hrf as (pr & Hpr & Hr & ->).
    apply bind_ok in H as (u5 & w7 & Hvec & H). injection H as _ <-.
    split.
    + destruct (keeps_at_for_each any_world (event_avoids is_raster_tool)
                  vector_jobs
                  (prepare_vector arcpy source_inputs prepared_outputs tempspace
                     target_epsg overwrite)
                  (λ job w0 _, prepare_vector_avoids arcpy source_inputs
                                 prepared_outputs tempspace target_epsg
                                 overwrite job w0) w1 I)
        as (e2 & He2 & HP2 & _).
      rewrite Hvec in He2. cbn [snd] in He2.
      exists (e1 ++ e2). rewrite He2, He1, app_assoc.
      split; [done | by apply Forall_app].
    + intros key p Hkey Hp. unfold RASTER_KEYS in Hkey.
      repeat (apply elem_of_cons in Hkey as [-> | Hkey]);
        [..| by apply elem_of_nil in Hkey];
        match goal with
        | Hq : prepared_outputs !! ?k = Some ?q, Hx : prepared_exists ?k ?q _ = _
          |- (prepared_exists ?k p _).1 = _ =>
            rewrite Hq in Hp; injection Hp as <-; by rewrite Hx
        end.
Qed.

End NoRaster.

(** X15. [prepare_source_inputs] cannot prepare a raster.  No run of it,
    returning or not, calls [CopyRaster], [ProjectRaster] or
    [DefineProjection].  A run that returns has called no raster tool at
    all, [MosaicToNewRaster] included, and each raster key of the catalog
    was already found on disk by [prepared_exists] right after the scratch
    directory was made: with one raster output missing, the call raises. *)
Theorem prepare_source_inputs_prepares_no_raster (arcpy : ArcPy)
    (source_inputs prepared_outputs : gmap string Path) (tempspace : Path)
    (target_epsg : Z) (overwrite : bool) (w : World) :
  Forall (λ c, writes_prepared_raster c = false)
    (arc_calls (since w (prepare_source_inputs arcpy source_inputs
                           prepared_outputs tempspace target_epsg overwrite
                           w).2)) ∧
  ∀ m w',
    prepare_source_inputs arcpy source_inputs prepared_outputs tempspace
      target_epsg overwrite w = (Ok m, w') →
    Forall (λ c, is_raster_tool c = false) (arc_calls (since w w')) ∧
    ∀ key p, key ∈ RASTER_KEYS → prepared_outputs !! key = Some p →
      (prepared_exists key p (ensure_dir tempspace w).2).1 = Ok true.
Proof.
  split.
  - destruct (prepare_source_inputs_avoids arcpy source_inputs prepared_outputs
                tempspace target_epsg overwrite w I) as (evs & Hev & HP & _).
    rewrite (since_app _ _ _ Hev). by apply arc_calls_avoid.
  - intros m w' Hrun.
    apply prepare_source_inputs_ok in Hrun as ((evs & Hev & HP) & Hkeys).
    split; [|done].
    rewrite (since_app _ _ _ Hev). by apply arc_calls_avoid.
Qed.

(** ** One DEM of the PacIOOS loop *)

(** X16. A NetCDF that is already on disk is not fetched again.  When the
    GeoTIFF of a dataset is to be made and its [.nc] exists, with
    [overwrite_nc] off, the loop of [download_pacioos_dems] sends no
    request for the dataset: it starts [gdal_translate] on the file it
    found and deletes the file after the conversion. *)
Theorem download_dem_reuses_netcdf (net : Net) (host : Host) (out_dir : Path)
    (ncss_base ds gdal_translate : string) (overwrite_tif : bool) (w : World)
    (f2 : FS) (c : bytes) :
  Fs.path_exists (fs w) (Pathlib.joinpath out_dir (ds ++ ".tif"))
    && negb overwrite_tif = false →
  Fs.path_exists (fs w) (Pathlib.joinpath out_dir (ds ++ ".nc")) = true →
  which host "gdal_translate" = Some gdal_translate →
  gdal_translate ≠ ""%string →
  run_process host
    (gdal_command gdal_translate (Pathlib.joinpath out_dir (ds ++ ".nc"))
       (Pathlib.joinpath out_dir (ds ++ ".tif"))) (fs w) = Some f2 →
  Fs.stat f2 (Pathlib.joinpath out_dir (ds ++ ".nc")) = Some (File c) →
  download_dem net host out_dir ncss_base overwrite_tif false ds w
  = (Ok tt,
     mkWorld (delete (Pathlib.joinpath out_dir (ds ++ ".nc")) f2)
       (events w ++
        [EvProc (gdal_command gdal_translate
                   (Pathlib.joinpath out_dir (ds ++ ".nc"))
                   (Pathlib.joinpath out_dir (ds ++ ".tif")));
         EvFs f2;
         EvFs (delete (Pathlib.joinpath out_dir (ds ++ ".nc")) f2)])).
Proof.
  intros Hskip Hnc Hw Hg Hrun Hst. unfold download_dem.
  rewrite bind_run, path_exists_run, Hskip.
  rewrite bind_run. unfold download_streaming at 1.
  rewrite bind_run, path_exists_run, Hnc. cbn [negb andb].
  unfold ret at 1. unfold nc_to_geotiff_and_delete.
  rewrite bind_run, path_exists_run, Hskip, Hw.
  destruct gdal_translate as [|a g]; [done|].
  rewrite bind_run, path_exists_run, Hnc. cbn [negb].
  rewrite bind_run. unfold subprocess_run.
  rewrite bind_run. cbn [emit]. rewrite bind_run. cbn [get_fs fs].
  rewrite Hrun. cbn [set_fs fs events]. rewrite unlink_run. cbn [fs events].
  rewrite Hst. by rewrite <- !app_assoc.
Qed.

Lemma download_dem_reuses_netcdf_witness :
  download_dem net_down host_converts ["raw"%string] "https://ncss.test"
    false false "oahu" world_dem_downloaded
  = (Ok tt,
     mkWorld
       (delete (Pathlib.joinpath ["raw"%string] ("oahu" ++ ".nc"))
          (<[ ["raw"; "oahu.tif"]%string := File (ascii_bytes "II*") ]>
             (fs world_dem_downloaded)))
       (events world_dem_downloaded ++
        [EvProc (gdal_command "/usr/bin/gdal_translate"
                   (Pathlib.joinpath ["raw"%string] ("oahu" ++ ".nc"))
                   (Pathlib.joinpath ["raw"%string] ("oahu" ++ ".tif")));
         EvFs (<[ ["raw"; "oahu.tif"]%string := File (ascii_bytes "II*") ]>
                 (fs world_dem_downloaded));
         EvFs (delete (Pathlib.joinpath ["raw"%string] ("oahu" ++ ".nc"))
                 (<[ ["raw"; "oahu.tif"]%string := File (ascii_bytes "II*") ]>
                    (fs world_dem_downloaded)))])).
Proof.
  apply (download_dem_reuses_netcdf net_down host_converts ["raw"%string]
           "https://ncss.test" "oahu" "/usr/bin/gdal_translate" false
           world_dem_downloaded
           (<[ ["raw"; "oahu.tif"]%string := File (ascii_bytes "II*") ]>
              (fs world_dem_downloaded))
           (ascii_bytes "CDF")).
  - vm_compute. reflexivity.
  - vm_compute. reflexivity.
  - reflexivity.
  - discriminate.
  - reflexivity.
  - vm_compute. reflexivity.
Defined.

